(** * Payment relay: signature verification, order creation, reconciliation

    A shallow embedding of [payment-service.js] and of the server routes
    that call it ([POST /success], [POST /api/create-order] and
    [POST /api/verify-payment], in the version that has the database
    client), with the properties of the natural-language specification
    stated and settled over that embedding.

    Conventions.
    - A JavaScript string is a [string]: each character is one code unit
      (the code units U+0000..U+00FF); [length] and [slice] count code
      units as in JavaScript, and [utf8] gives the bytes Node hashes.
    - A value that may be [undefined] (a missing request field, an unset
      environment variable) is an [option string].
    - Effects (console, clock, gateway, database) are threaded through a
      [World] by a small state-and-exception monad; an [async] function is
      its sequential run, a rejected promise a thrown error.
    - Console texts are kept without the emoji some of them start with. *)

From Stdlib Require Import ZArith List String Ascii Bool Lia.
From stdpp Require Import base option list strings gmap.

Local Open Scope string_scope.

(** ** Node's [crypto]: SHA-256 (FIPS 180-4) and HMAC (RFC 2104) *)

Module crypto.
Local Open Scope Z_scope.
Local Open Scope list_scope.

Definition bytes := list Z.

Definition mask32 : Z := 0xffffffff.
Definition add32 (x y : Z) : Z := Z.land (x + y) mask32.
Definition not32 (x : Z) : Z := Z.lxor x mask32.
Definition shr (n x : Z) : Z := Z.shiftr x n.
Definition rotr (n x : Z) : Z :=
  Z.lor (Z.shiftr x n) (Z.land (Z.shiftl x (32 - n)) mask32).

Definition Ch (x y z : Z) : Z := Z.lxor (Z.land x y) (Z.land (not32 x) z).
Definition Maj (x y z : Z) : Z :=
  Z.lxor (Z.lxor (Z.land x y) (Z.land x z)) (Z.land y z).
Definition Sigma0 (x : Z) : Z := Z.lxor (Z.lxor (rotr 2 x) (rotr 13 x)) (rotr 22 x).
Definition Sigma1 (x : Z) : Z := Z.lxor (Z.lxor (rotr 6 x) (rotr 11 x)) (rotr 25 x).
Definition sigma0 (x : Z) : Z := Z.lxor (Z.lxor (rotr 7 x) (rotr 18 x)) (shr 3 x).
Definition sigma1 (x : Z) : Z := Z.lxor (Z.lxor (rotr 17 x) (rotr 19 x)) (shr 10 x).

(** The round constants are the first 32 bits of the fractional parts of
    the cube roots of the first 64 primes, the initial hash value those
    of the square roots of the first 8 primes. *)
Definition is_prime (n : nat) : bool :=
  forallb (fun d => negb (Nat.eqb (n mod d) 0)) (seq 2 (n - 2)).

Definition primes_to_311 : list Z :=
  map Z.of_nat (List.filter is_prime (seq 2 310)).

(** Floor of the cube root of [n], found by bisection between [lo] and [hi]. *)
Fixpoint cube_root (fuel : nat) (n lo hi : Z) : Z :=
  match fuel with
  | O => lo
  | S fuel' =>
      let mid := (lo + hi) / 2 in
      if mid * mid * mid <=? n
      then cube_root fuel' n mid hi
      else cube_root fuel' n lo mid
  end.

Definition K256 : list Z :=
  Eval vm_compute in
    map (fun p => Z.land (cube_root 40 (p * 2 ^ 96) 0 (2 ^ 36)) mask32) primes_to_311.

Definition H256 : list Z :=
  Eval vm_compute in
    map (fun p => Z.land (Z.sqrt (p * 2 ^ 64)) mask32) (firstn 8 primes_to_311).

(** Big-endian packing of bytes into 32-bit words and back. *)
Fixpoint words_of_bytes (bs : bytes) : list Z :=
  match bs with
  | b0 :: b1 :: b2 :: b3 :: rest =>
      (Z.shiftl b0 24 + Z.shiftl b1 16 + Z.shiftl b2 8 + b3) :: words_of_bytes rest
  | _ => []
  end.

Definition bytes_of_word (w : Z) : bytes :=
  [ Z.land (Z.shiftr w 24) 0xff; Z.land (Z.shiftr w 16) 0xff;
    Z.land (Z.shiftr w 8) 0xff; Z.land w 0xff ].

Definition bytes_of_len64 (n : Z) : bytes :=
  bytes_of_word (Z.shiftr n 32) ++ bytes_of_word (Z.land n mask32).

(** Padding: a 1 bit, zeros up to 56 mod 64 bytes, the bit length on 64 bits. *)
Definition pad (msg : bytes) : bytes :=
  let len := Z.of_nat (length msg) in
  msg ++ [0x80] ++ repeat 0 (Z.to_nat ((55 - len) mod 64)) ++ bytes_of_len64 (8 * len).

Fixpoint blocks (n : nat) (bs : bytes) : list bytes :=
  match n with
  | O => []
  | S n' => firstn 64 bs :: blocks n' (skipn 64 bs)
  end.

(** Message schedule: sixteen words of the block, then 48 derived ones. *)
Fixpoint extend (fuel : nat) (w : list Z) : list Z :=
  match fuel with
  | O => w
  | S fuel' =>
      let t := length w in
      let at_ (i : nat) := nth (t - i) w 0 in
      extend fuel' (w ++ [add32 (add32 (add32 (sigma1 (at_ 2%nat)) (at_ 7%nat))
                                       (sigma0 (at_ 15%nat))) (at_ 16%nat)])
  end.

Definition schedule (block : bytes) : list Z := extend 48 (words_of_bytes block).

Record regs := Regs { ra : Z; rb : Z; rc : Z; rd : Z; re : Z; rf : Z; rg : Z; rh : Z }.

Definition round (r : regs) (kw : Z * Z) : regs :=
  let t1 := add32 (add32 (add32 (add32 (rh r) (Sigma1 (re r))) (Ch (re r) (rf r) (rg r)))
                         (fst kw)) (snd kw) in
  let t2 := add32 (Sigma0 (ra r)) (Maj (ra r) (rb r) (rc r)) in
  Regs (add32 t1 t2) (ra r) (rb r) (rc r) (add32 (rd r) t1) (re r) (rf r) (rg r).

Definition regs_of (h : list Z) : regs :=
  Regs (nth 0 h 0) (nth 1 h 0) (nth 2 h 0) (nth 3 h 0)
       (nth 4 h 0) (nth 5 h 0) (nth 6 h 0) (nth 7 h 0).

Definition list_of_regs (r : regs) : list Z :=
  [ra r; rb r; rc r; rd r; re r; rf r; rg r; rh r].

Definition compress (h : list Z) (block : bytes) : list Z :=
  let r := fold_left round (combine K256 (schedule block)) (regs_of h) in
  map (fun p => add32 (fst p) (snd p)) (combine h (list_of_regs r)).

Definition sha256 (msg : bytes) : bytes :=
  let p := pad msg in
  let h := fold_left compress (blocks (length p / 64) p) H256 in
  flat_map bytes_of_word h.

(** HMAC with a 64-byte block: a longer key is hashed first. *)
Definition hmac_key (key : bytes) : bytes :=
  let k := if (64 <? Z.of_nat (length key)) then sha256 key else key in
  k ++ repeat 0 (64 - length k)%nat.

Definition hmac_sha256 (key msg : bytes) : bytes :=
  let k := hmac_key key in
  sha256 (map (Z.lxor 0x5c) k ++ sha256 (map (Z.lxor 0x36) k ++ msg)).

(** [Buffer.toString('hex')]: two lowercase digits per byte. *)
Definition hex_digit (d : Z) : ascii :=
  ascii_of_nat (Z.to_nat (if d <? 10 then 48 + d else 87 + d)).

Fixpoint hex (bs : bytes) : string :=
  match bs with
  | [] => EmptyString
  | b :: rest => String (hex_digit (Z.shiftr b 4)) (String (hex_digit (Z.land b 0xf)) (hex rest))
  end.

(** The UTF-8 bytes of a string of code units below U+0100. *)
Fixpoint utf8 (s : string) : bytes :=
  match s with
  | EmptyString => []
  | String c rest =>
      let u := Z.of_nat (nat_of_ascii c) in
      (if u <? 0x80 then [u]
       else [Z.lor 0xc0 (Z.shiftr u 6); Z.lor 0x80 (Z.land u 0x3f)]) ++ utf8 rest
  end.

(** [crypto.createHmac('sha256', key).update(data).digest('hex')] *)
Definition createHmac_sha256_hex (key data : string) : string :=
  hex (hmac_sha256 (utf8 key) (utf8 data)).
End crypto.

(** ** JavaScript values *)

(** [!!v] for a value that is a string or [undefined]. *)
Definition truthy (v : option string) : bool :=
  match v with
  | Some s => negb (String.eqb s "")
  | None => false
  end.

(** [v || d] *)
Definition or_else (v : option string) (d : string) : string :=
  if truthy v then default d v else d.

(** String coercion of a string-or-undefined value, as [+] and template
    literals perform it. *)
Definition to_str (v : option string) : string := default "undefined" v.

Definition bool_str (b : bool) : string := if b then "true" else "false".

(** [s.slice(0, n)] *)
Definition slice0 (n : nat) (s : string) : string := substring 0 n s.

(** Decimal rendering of an integer-valued Number (below 1e21 in size). *)
Definition digit_char (d : Z) : ascii := ascii_of_nat (48 + Z.to_nat d).

Fixpoint digits (fuel : nat) (n : Z) (acc : string) : string :=
  match fuel with
  | O => acc
  | S fuel' =>
      let acc' := String (digit_char (n mod 10)) acc in
      if (n <? 10)%Z then acc' else digits fuel' (n / 10) acc'
  end.

Definition Number_toString (n : Z) : string :=
  if (n <? 0)%Z then "-" ++ digits (S (Z.to_nat (Z.log2 (- n)))) (- n) ""
  else digits (S (Z.to_nat (Z.log2 n))) n "".

(** An Error object: its [message], and the [error.description] the
    gateway SDK nests in what it rejects with. *)
Record JsError := {
  message : option string;
  error_description : option string
}.

Definition Error (msg : string) : JsError :=
  {| message := Some msg; error_description := None |}.

Inductive completion (A : Type) : Type :=
| Return (a : A)
| Throw (e : JsError).
Arguments Return {A} a.
Arguments Throw {A} e.

(** ** The plan catalog *)

Record PlanConfig := {
  name : string;
  amount : Z;
  currency : string;
  description : string
}.

Definition PLAN_CONFIGS : list (string * PlanConfig) :=
  [ ("pro",      {| name := "Pro";   amount := 100; currency := "INR";
                    description := "Most popular choice" |});
    ("pro_plus", {| name := "Pro+";  amount := 100; currency := "INR";
                    description := "For advanced learners" |});
    ("ultra",    {| name := "Ultra"; amount := 100; currency := "INR";
                    description := "Power users with live tutor features" |}) ].

(** [PLAN_CONFIGS] is an object literal, so a property read that finds no
    own property continues in [Object.prototype]. Each inherited name is
    listed with the [name] of the function found there; [__proto__] yields
    the prototype object itself, which has no [name]. *)
Definition Object_prototype : list (string * option string) :=
  [ ("constructor", Some "Object");
    ("hasOwnProperty", Some "hasOwnProperty");
    ("isPrototypeOf", Some "isPrototypeOf");
    ("propertyIsEnumerable", Some "propertyIsEnumerable");
    ("toLocaleString", Some "toLocaleString");
    ("toString", Some "toString");
    ("valueOf", Some "valueOf");
    ("__defineGetter__", Some "__defineGetter__");
    ("__defineSetter__", Some "__defineSetter__");
    ("__lookupGetter__", Some "__lookupGetter__");
    ("__lookupSetter__", Some "__lookupSetter__");
    ("__proto__", None) ].

Fixpoint assoc {A : Type} (k : string) (l : list (string * A)) : option A :=
  match l with
  | [] => None
  | (k', v) :: rest => if String.eqb k k' then Some v else assoc k rest
  end.

(** What [PLAN_CONFIGS[plan]] evaluates to. *)
Inductive PlanLookup :=
| OwnPlan (c : PlanConfig)
| Inherited (function_name : option string)
| Undefined.

Definition PLAN_CONFIGS_get (plan : string) : PlanLookup :=
  match assoc plan PLAN_CONFIGS with
  | Some c => OwnPlan c
  | None =>
      match assoc plan Object_prototype with
      | Some f => Inherited f
      | None => Undefined
      end
  end.

Definition lookup_truthy (v : PlanLookup) : bool :=
  match v with
  | Undefined => false
  | _ => true
  end.

(** [planConfig.name], [.amount], [.currency], [.description] on a truthy
    lookup result. *)
Definition get_name (v : PlanLookup) : option string :=
  match v with
  | OwnPlan c => Some (name c)
  | Inherited f => f
  | Undefined => None
  end.

Definition get_amount (v : PlanLookup) : option Z :=
  match v with
  | OwnPlan c => Some (amount c)
  | _ => None
  end.

Definition get_currency (v : PlanLookup) : option string :=
  match v with
  | OwnPlan c => Some (currency c)
  | _ => None
  end.

Definition get_description (v : PlanLookup) : option string :=
  match v with
  | OwnPlan c => Some (description c)
  | _ => None
  end.

(** The catalog of the specification: the plans declared in [PLAN_CONFIGS]. *)
Definition in_catalog (plan : string) : bool :=
  bool_decide (is_Some (assoc plan PLAN_CONFIGS)).

(** [PLAN_CONFIGS[plan] || null]: [Undefined] stands for the [null] too. *)
Definition getPlanDetails (plan : string) : PlanLookup := PLAN_CONFIGS_get plan.

Definition getAllPlans : list (string * PlanConfig) :=
  map (fun plan => (plan, default {| name := ""; amount := 0; currency := ""; description := "" |}
                                  (assoc plan PLAN_CONFIGS)))
      (map fst PLAN_CONFIGS).

(** ** The environment and the collaborators *)

(** [process.env] *)
Record Env := {
  RAZORPAY_KEY_ID : option string;
  RAZORPAY_KEY_SECRET : option string;
  SUPABASE_URL : option string;
  SUPABASE_SERVICE_ROLE_KEY : option string
}.

(** The module-level [supabaseAdmin] is a client when both settings are
    truthy and [null] otherwise. *)
Definition supabaseAdmin (env : Env) : bool :=
  truthy (SUPABASE_URL env) && truthy (SUPABASE_SERVICE_ROLE_KEY env).

(** An instant rendered by [Date.prototype.toISOString], kept as the
    millisecond count it renders. *)
Inductive IsoString := toISOString (ms : Z).

Definition thirty_days_ms : Z := 30 * 24 * 60 * 60 * 1000.

(** Gateway order-create request and response. *)
Record OrderNotes := {
  note_plan : option string;
  note_userId : option string;
  note_userEmail : option string;
  note_userName : option string
}.

Record OrderOptions := {
  opt_amount : option Z;
  opt_currency : option string;
  opt_receipt : string;
  opt_notes : OrderNotes
}.

Record GatewayOrder := {
  order_id : string;
  order_amount : Z;
  order_currency : string;
  order_receipt : string;
  order_status : string
}.

(** Rows of the three tables, with the columns this code writes. *)
Record PaymentRow := {
  pay_user_id : string;
  pay_provider : string;
  pay_razorpay_order_id : string;
  pay_amount : option Z;
  pay_currency : string;
  pay_status : string;
  pay_plan_id : string;
  pay_metadata : option string * option string;
  pay_razorpay_payment_id : option string;
  pay_razorpay_signature : option string;
  pay_updated_at : option IsoString
}.

Record SubscriptionRow := {
  sub_user_id : string;
  sub_plan_id : string;
  sub_provider : option string;
  sub_status : string;
  sub_razorpay_payment_id : string;
  sub_current_period_start : IsoString;
  sub_current_period_end : IsoString
}.

Record ProfileRow := {
  profile_id : string;
  profile_plan : option string
}.

Record Database := {
  payments : list PaymentRow;
  subscriptions : list SubscriptionRow;
  profiles : list ProfileRow
}.

(** The requests the code sends to the database client. *)
Inductive StoreCall :=
| PaymentsInsert (row : PaymentRow)
| PaymentsUpdate (razorpay_payment_id razorpay_signature status : string)
                 (updated_at : IsoString) (eq_razorpay_order_id eq_user_id : string)
| SubscriptionsUpsert (row : SubscriptionRow)
| ProfilesUpdate (plan : string) (eq_id : string).

(** [update(...).eq('razorpay_order_id', o).eq('user_id', u)] *)
Definition capture_payment (paymentId signature status : string) (at_ : IsoString)
    (orderId userId : string) (r : PaymentRow) : PaymentRow :=
  if String.eqb (pay_razorpay_order_id r) orderId && String.eqb (pay_user_id r) userId
  then {| pay_user_id := pay_user_id r;
          pay_provider := pay_provider r;
          pay_razorpay_order_id := pay_razorpay_order_id r;
          pay_amount := pay_amount r;
          pay_currency := pay_currency r;
          pay_status := status;
          pay_plan_id := pay_plan_id r;
          pay_metadata := pay_metadata r;
          pay_razorpay_payment_id := Some paymentId;
          pay_razorpay_signature := Some signature;
          pay_updated_at := Some at_ |}
  else r.

(** [upsert(row, { onConflict: 'user_id', ignoreDuplicates: false })]: the
    row with that [user_id] takes the columns the request carries and
    keeps the others; without such a row the request's row is inserted. *)
Definition merge_subscription (new old : SubscriptionRow) : SubscriptionRow :=
  {| sub_user_id := sub_user_id new;
     sub_plan_id := sub_plan_id new;
     sub_provider := match sub_provider new with
                     | Some p => Some p
                     | None => sub_provider old
                     end;
     sub_status := sub_status new;
     sub_razorpay_payment_id := sub_razorpay_payment_id new;
     sub_current_period_start := sub_current_period_start new;
     sub_current_period_end := sub_current_period_end new |}.

Fixpoint upsert_subscription (new : SubscriptionRow) (rows : list SubscriptionRow)
    : list SubscriptionRow :=
  match rows with
  | [] => [new]
  | r :: rest =>
      if String.eqb (sub_user_id r) (sub_user_id new)
      then merge_subscription new r :: rest
      else r :: upsert_subscription new rest
  end.

(** [update({ plan }).eq('id', userId)] *)
Definition set_profile_plan (plan userId : string) (r : ProfileRow) : ProfileRow :=
  if String.eqb (profile_id r) userId
  then {| profile_id := profile_id r; profile_plan := Some plan |}
  else r.

Definition apply_call (c : StoreCall) (db : Database) : Database :=
  match c with
  | PaymentsInsert row =>
      {| payments := payments db ++ [row];
         subscriptions := subscriptions db;
         profiles := profiles db |}
  | PaymentsUpdate p s st t o u =>
      {| payments := map (capture_payment p s st t o u) (payments db);
         subscriptions := subscriptions db;
         profiles := profiles db |}
  | SubscriptionsUpsert row =>
      {| payments := payments db;
         subscriptions := upsert_subscription row (subscriptions db);
         profiles := profiles db |}
  | ProfilesUpdate plan u =>
      {| payments := payments db;
         subscriptions := subscriptions db;
         profiles := map (set_profile_plan plan u) (profiles db) |}
  end.

(** What [console.log], [console.warn] and [console.error] are given. *)
Inductive LogLevel := LOG | WARN | ERROR.

Inductive LogArg :=
| LStr (s : string)
| LBool (b : bool)
| LErr (e : JsError)
| LObj (fields : list (string * option string)).

Record LogEntry := { level : LogLevel; args : list LogArg }.

(** The world a request runs in. The clock gives the value of its n-th
    reading; the gateway answers an order-create request with an order or
    rejects it; the database client answers its next calls as
    [store_answers] says, [Some e] being a returned [{ error: e }] that
    leaves the tables as they are, and applies a call once the list is
    used up. *)
Record World := {
  console : list LogEntry;
  clock : nat -> Z;
  clock_reads : nat;
  gateway : OrderOptions -> completion GatewayOrder;
  gateway_calls : list OrderOptions;
  store : Database;
  store_answers : list (option JsError);
  store_calls : list StoreCall
}.

(** ** State and exceptions *)

Definition M (A : Type) : Type := World -> completion A * World.

#[global] Instance M_ret : MRet M := fun A a w => (Return a, w).

#[global] Instance M_bind : MBind M := fun A B f m w =>
  match m w with
  | (Return a, w') => f a w'
  | (Throw e, w') => (Throw e, w')
  end.

Definition throw {A : Type} (e : JsError) : M A := fun w => (Throw e, w).

(** [try { body } catch (e) { handler }] *)
Definition try_catch {A : Type} (body : M A) (handler : JsError -> M A) : M A :=
  fun w =>
    match body w with
    | (Return a, w') => (Return a, w')
    | (Throw e, w') => handler e w'
    end.

(** [if (c) { throw e }] *)
Definition throw_if (c : bool) (e : JsError) : M unit :=
  if c then throw e else mret tt.

Definition console_write (l : LogLevel) (a : list LogArg) : M unit := fun w =>
  (Return tt,
   {| console := console w ++ [{| level := l; args := a |}];
      clock := clock w; clock_reads := clock_reads w;
      gateway := gateway w; gateway_calls := gateway_calls w;
      store := store w; store_answers := store_answers w;
      store_calls := store_calls w |}).

Definition console_log := console_write LOG.
Definition console_warn := console_write WARN.
Definition console_error := console_write ERROR.

(** [Date.now()], and the instant [new Date()] captures. *)
Definition Date_now : M Z := fun w =>
  (Return (clock w (clock_reads w)),
   {| console := console w;
      clock := clock w; clock_reads := S (clock_reads w);
      gateway := gateway w; gateway_calls := gateway_calls w;
      store := store w; store_answers := store_answers w;
      store_calls := store_calls w |}).

(** [await razorpay.orders.create(options)] *)
Definition razorpay_orders_create (options : OrderOptions) : M GatewayOrder := fun w =>
  (gateway w options,
   {| console := console w;
      clock := clock w; clock_reads := clock_reads w;
      gateway := gateway w; gateway_calls := gateway_calls w ++ [options];
      store := store w; store_answers := store_answers w;
      store_calls := store_calls w |}).

(** [const { error } = await supabaseAdmin.from(...)...] *)
Definition supabase_call (c : StoreCall) : M (option JsError) := fun w =>
  let answer := match store_answers w with
                | a :: _ => a
                | [] => None
                end in
  (Return answer,
   {| console := console w;
      clock := clock w; clock_reads := clock_reads w;
      gateway := gateway w; gateway_calls := gateway_calls w;
      store := match answer with
               | Some _ => store w
               | None => apply_call c (store w)
               end;
      store_answers := tail (store_answers w);
      store_calls := store_calls w ++ [c] |}).

Definition result_of {A : Type} (m : M A) (w : World) : completion A := fst (m w).
Definition world_after {A : Type} (m : M A) (w : World) : World := snd (m w).

(** ** payment-service.js *)

Record OrderRecord := {
  rec_id : string;
  rec_amount : Z;
  rec_currency : string;
  rec_receipt : string;
  rec_status : string;
  rec_plan : option string;
  rec_planName : option string;
  rec_planDescription : option string
}.

(** The receipt [createRazorpayOrder] composes, [now] being the value of
    [Date.now()]. *)
Definition receipt_of (plan userId : option string) (now : Z) : string :=
  let shortUserId := slice0 10 (or_else userId "") in
  slice0 40 ("ace_" ++ to_str plan ++ "_" ++ shortUserId ++ "_" ++ Number_toString now).

(** The message the [catch] of [createRazorpayOrder] rethrows with. *)
Definition bubble_message (error : JsError) : string :=
  or_else (error_description error)
          (or_else (message error) "Failed to create payment order").

Definition createRazorpayOrder (env : Env)
    (plan userId userEmail userName : option string) : M OrderRecord :=
  let userEmail := default "" userEmail in
  let userName := default "Ace User" userName in
  try_catch
    (throw_if (negb (truthy (RAZORPAY_KEY_ID env)) || negb (truthy (RAZORPAY_KEY_SECRET env)))
              (Error "Razorpay credentials not configured");;
     let planConfig := PLAN_CONFIGS_get (to_str plan) in
     throw_if (negb (lookup_truthy planConfig)) (Error ("Invalid plan: " ++ to_str plan));;
     now ← Date_now;
     let receipt := receipt_of plan userId now in
     let options :=
       {| opt_amount := get_amount planConfig;
          opt_currency := get_currency planConfig;
          opt_receipt := receipt;
          opt_notes := {| note_plan := plan; note_userId := userId;
                          note_userEmail := Some userEmail;
                          note_userName := Some userName |} |} in
     order ← razorpay_orders_create options;
     mret {| rec_id := order_id order;
             rec_amount := order_amount order;
             rec_currency := order_currency order;
             rec_receipt := order_receipt order;
             rec_status := order_status order;
             rec_plan := plan;
             rec_planName := get_name planConfig;
             rec_planDescription := get_description planConfig |})
    (fun error =>
       console_error [LStr "Error creating Razorpay order:"; LErr error];;
       throw (Error (bubble_message error))).

Definition verifyPaymentSignature (env : Env)
    (orderId paymentId signature : option string) : M bool :=
  try_catch
    (if negb (truthy (RAZORPAY_KEY_SECRET env)) then
       console_error [LStr "Razorpay secret key not configured"];;
       mret false
     else
       let body := to_str orderId ++ "|" ++ to_str paymentId in
       let expectedSignature :=
         crypto.createHmac_sha256_hex (default "" (RAZORPAY_KEY_SECRET env)) body in
       mret (bool_decide (Some expectedSignature = signature)))
    (fun error =>
       console_error [LStr "Error verifying payment signature:"; LErr error];;
       mret false).

(** The argument object of [recordPaymentSuccess]. *)
Record PaymentArgs := {
  arg_orderId : option string;
  arg_paymentId : option string;
  arg_signature : option string;
  arg_plan : option string;
  arg_userId : option string
}.

Record ReconciliationResult := {
  res_success : bool;
  res_orderId : option string;
  res_paymentId : option string;
  res_plan : option string;
  res_planName : string;
  res_amount : Z;
  res_currency : string;
  res_timestamp : IsoString;
  res_userId : option string
}.

Definition missing_parameters (a : PaymentArgs) : bool :=
  negb (truthy (arg_orderId a)) || negb (truthy (arg_paymentId a))
  || negb (truthy (arg_signature a)) || negb (truthy (arg_plan a))
  || negb (truthy (arg_userId a)).

Definition missing_parameters_message (a : PaymentArgs) : string :=
  "Missing required parameters: orderId=" ++ bool_str (truthy (arg_orderId a))
  ++ ", paymentId=" ++ bool_str (truthy (arg_paymentId a))
  ++ ", signature=" ++ bool_str (truthy (arg_signature a))
  ++ ", plan=" ++ bool_str (truthy (arg_plan a))
  ++ ", userId=" ++ bool_str (truthy (arg_userId a)).

(** [if (error) { console.error(label, error); throw new Error(msg) }] *)
Definition fail_on (error : option JsError) (label msg : string) : M unit :=
  match error with
  | Some e => console_error [LStr label; LErr e];; throw (Error msg)
  | None => mret tt
  end.

(** The three store calls of [recordPaymentSuccess], inside their own
    [try]. The five values are strings here: the parameter check has
    passed. *)
Definition persist_capture (orderId paymentId signature plan userId : string) : M unit :=
  try_catch
    (updated_at ← Date_now;
     updatePaymentError ←
       supabase_call (PaymentsUpdate paymentId signature "captured"
                                     (toISOString updated_at) orderId userId);
     fail_on updatePaymentError "Supabase payment update error:"
             "Failed to update payment record";;
     period_start ← Date_now;
     now ← Date_now;
     subscriptionError ←
       supabase_call (SubscriptionsUpsert
         {| sub_user_id := userId;
            sub_plan_id := plan;
            sub_provider := Some "razorpay";
            sub_status := "active";
            sub_razorpay_payment_id := paymentId;
            sub_current_period_start := toISOString period_start;
            sub_current_period_end := toISOString (now + thirty_days_ms) |});
     fail_on subscriptionError "Supabase subscription upsert error:"
             "Failed to create/update subscription";;
     profileError ← supabase_call (ProfilesUpdate plan userId);
     fail_on profileError "Supabase profile update error:"
             "Failed to update user profile";;
     console_log [LStr ("Payment confirmed and subscription activated for user "
                        ++ userId ++ ", plan " ++ plan)])
    (fun dbError =>
       console_error [LStr "Database persistence error:"; LErr dbError];;
       throw (Error ("Payment verification succeeded but database update failed: "
                     ++ to_str (message dbError)))).

(** The [try] block of [recordPaymentSuccess]. *)
Definition recordPaymentSuccess_try (env : Env) (a : PaymentArgs) : M ReconciliationResult :=
  console_log [LStr "Starting payment verification:";
               LObj [("orderId", arg_orderId a); ("paymentId", arg_paymentId a);
                     ("plan", arg_plan a); ("userId", arg_userId a)]];;
  throw_if (missing_parameters a) (Error (missing_parameters_message a));;
  isValidSignature ←
    verifyPaymentSignature env (arg_orderId a) (arg_paymentId a) (arg_signature a);
  console_log [LStr "Signature verification result:"; LBool isValidSignature];;
  throw_if (negb isValidSignature) (Error "Invalid payment signature");;
  let planConfig := PLAN_CONFIGS_get (to_str (arg_plan a)) in
  throw_if (negb (lookup_truthy planConfig)) (Error ("Invalid plan: " ++ to_str (arg_plan a)));;
  (if supabaseAdmin env then
     persist_capture (to_str (arg_orderId a)) (to_str (arg_paymentId a))
                     (to_str (arg_signature a)) (to_str (arg_plan a))
                     (to_str (arg_userId a))
   else
     console_warn [LStr "Supabase admin client not configured; skipping DB persistence"]);;
  timestamp ← Date_now;
  mret {| res_success := true;
          res_orderId := arg_orderId a;
          res_paymentId := arg_paymentId a;
          res_plan := arg_plan a;
          res_planName := or_else (get_name planConfig) "Unknown Plan";
          res_amount := default 0%Z (get_amount planConfig);
          res_currency := or_else (get_currency planConfig) "INR";
          res_timestamp := toISOString timestamp;
          res_userId := arg_userId a |}.

Definition generic_failure : JsError := Error "Failed to record payment success".

Definition recordPaymentSuccess (env : Env) (a : PaymentArgs) : M ReconciliationResult :=
  try_catch (recordPaymentSuccess_try env a)
    (fun error =>
       console_error [LStr "Error recording payment success:"; LErr error];;
       throw generic_failure).

(** ** The routes of server.js *)

(** A request after the body parsers: [req.body] and [req.query]. *)
Record Request := {
  body : gmap string string;
  query : gmap string string
}.

Inductive JsonBody :=
| JsonError (error : string)
| JsonOrder (order : OrderRecord)
| JsonVerified (result : ReconciliationResult).

Inductive Response :=
| Redirect (location : string)
| Send (status : Z) (text : string)
| Json (status : Z) (payload : JsonBody).

(** [new URLSearchParams(obj).toString()]: the form-urlencoded serializer. *)
Definition urlencode_keep (b : Z) : bool :=
  ((0x30 <=? b) && (b <=? 0x39) || (0x41 <=? b) && (b <=? 0x5a)
   || (0x61 <=? b) && (b <=? 0x7a)
   || (b =? 0x2a) || (b =? 0x2d) || (b =? 0x2e) || (b =? 0x5f))%Z.

Definition HEX_digit (d : Z) : ascii :=
  ascii_of_nat (Z.to_nat (if (d <? 10)%Z then 48 + d else 55 + d)%Z).

Definition urlencode_byte (b : Z) : string :=
  if (b =? 0x20)%Z then "+"
  else if urlencode_keep b then String (ascii_of_nat (Z.to_nat b)) ""
  else String "%" (String (HEX_digit (Z.shiftr b 4)) (String (HEX_digit (Z.land b 0xf)) "")).

Definition urlencode (s : string) : string :=
  fold_right (fun b acc => urlencode_byte b ++ acc) "" (crypto.utf8 s).

Fixpoint URLSearchParams_toString (params : list (string * string)) : string :=
  match params with
  | [] => ""
  | [(k, v)] => urlencode k ++ "=" ++ urlencode v
  | (k, v) :: rest => urlencode k ++ "=" ++ urlencode v ++ "&" ++ URLSearchParams_toString rest
  end.

(** [if (error) { console.error(label, error) }] *)
Definition log_on (error : option JsError) (label : string) : M unit :=
  match error with
  | Some e => console_error [LStr label; LErr e]
  | None => mret tt
  end.

(** The store calls both [POST /success] and [POST /api/verify-payment]
    issue themselves after [recordPaymentSuccess] has returned; the upsert
    of the routes carries no [provider]. *)
Definition route_persist (orderId paymentId signature plan userId : string) : M unit :=
  updated_at ← Date_now;
  updatePaymentError ←
    supabase_call (PaymentsUpdate paymentId signature "captured"
                                  (toISOString updated_at) orderId userId);
  log_on updatePaymentError "Supabase payment update error:";;
  period_start ← Date_now;
  now ← Date_now;
  subscriptionError ←
    supabase_call (SubscriptionsUpsert
      {| sub_user_id := userId;
         sub_plan_id := plan;
         sub_provider := None;
         sub_status := "active";
         sub_razorpay_payment_id := paymentId;
         sub_current_period_start := toISOString period_start;
         sub_current_period_end := toISOString (now + thirty_days_ms) |});
  log_on subscriptionError "Supabase subscription upsert error:";;
  profileError ← supabase_call (ProfilesUpdate plan userId);
  log_on profileError "Supabase profile update error:".

Definition success_location (paymentId orderId signature plan : string) : string :=
  "/success?" ++ URLSearchParams_toString
    [("paymentId", paymentId); ("orderId", orderId); ("signature", signature); ("plan", plan)].

(** [app.post('/success', ...)] *)
Definition post_success (env : Env) (req : Request) : M Response :=
  try_catch
    (let paymentId := or_else (body req !! "razorpay_payment_id") "" in
     let orderId := or_else (body req !! "razorpay_order_id") "" in
     let signature := or_else (body req !! "razorpay_signature") "" in
     let plan := or_else (body req !! "plan") (or_else (query req !! "plan") "") in
     let userId := or_else (body req !! "userId") (or_else (query req !! "userId") "") in
     result ← recordPaymentSuccess env
       {| arg_orderId := Some orderId; arg_paymentId := Some paymentId;
          arg_signature := Some signature; arg_plan := Some plan;
          arg_userId := Some userId |};
     (if supabaseAdmin env
      then route_persist orderId paymentId signature plan userId
      else mret tt);;
     mret (Redirect (success_location paymentId orderId signature plan)))
    (fun err =>
       console_error [LStr "POST /success verification error:"; LErr err];;
       mret (Send 500 "Payment verification failed.")).

(** [app.post('/api/create-order', ...)] *)
Definition post_create_order (env : Env) (req : Request) : M Response :=
  try_catch
    (if negb (truthy (RAZORPAY_KEY_ID env)) || negb (truthy (RAZORPAY_KEY_SECRET env))
     then mret (Json 500 (JsonError "Payment service not configured"))
     else
       let plan := body req !! "plan" in
       let userId := body req !! "userId" in
       let userEmail := body req !! "userEmail" in
       let userName := body req !! "userName" in
       if negb (truthy plan) || negb (truthy userId)
       then mret (Json 400 (JsonError "Missing required parameters"))
       else
         order ← createRazorpayOrder env plan userId userEmail userName;
         (if supabaseAdmin env then
            try_catch
              (_ ← supabase_call (PaymentsInsert
                 {| pay_user_id := to_str userId;
                    pay_provider := "razorpay";
                    pay_razorpay_order_id := rec_id order;
                    pay_amount := Some (rec_amount order);
                    pay_currency := or_else (Some (rec_currency order)) "INR";
                    pay_status := "pending";
                    pay_plan_id := to_str plan;
                    pay_metadata := (rec_planName order, rec_planDescription order);
                    pay_razorpay_payment_id := None;
                    pay_razorpay_signature := None;
                    pay_updated_at := None |});
               mret tt)
              (fun dbErr =>
                 console_error [LStr "Supabase insert pending payment error:"; LErr dbErr])
          else mret tt);;
         mret (Json 200 (JsonOrder order)))
    (fun error =>
       console_error [LStr "Error creating order:"; LErr error];;
       mret (Json 500 (JsonError (or_else (message error) "Failed to create payment order")))).

(** [app.post('/api/verify-payment', ...)] *)
Definition post_verify_payment (env : Env) (req : Request) : M Response :=
  try_catch
    (if negb (truthy (RAZORPAY_KEY_SECRET env))
     then mret (Json 500 (JsonError "Payment service not configured"))
     else
       let orderId := body req !! "orderId" in
       let paymentId := body req !! "paymentId" in
       let signature := body req !! "signature" in
       let plan := body req !! "plan" in
       let userId := body req !! "userId" in
       if negb (truthy orderId) || negb (truthy paymentId) || negb (truthy signature)
          || negb (truthy plan) || negb (truthy userId)
       then mret (Json 400 (JsonError "Missing required parameters"))
       else
         result ← recordPaymentSuccess env
           {| arg_orderId := orderId; arg_paymentId := paymentId;
              arg_signature := signature; arg_plan := plan; arg_userId := userId |};
         (if negb (supabaseAdmin env)
          then console_warn [LStr "Supabase admin client not configured; skipping DB update"]
          else route_persist (to_str orderId) (to_str paymentId) (to_str signature)
                             (to_str plan) (to_str userId));;
         mret (Json 200 (JsonVerified result)))
    (fun error =>
       console_error [LStr "Error verifying payment:"; LErr error];;
       mret (Json 500 (JsonError (or_else (message error) "Payment verification failed")))).

(** ** Startup *)

(** How [validateEnvironment] leaves the process: it goes on, or it has
    called [process.exit]. *)
Inductive Startup :=
| Started
| Exited (code : Z).

(** [process.env[varName]] *)
Definition env_get (env : Env) (varName : string) : option string :=
  if String.eqb varName "RAZORPAY_KEY_ID" then RAZORPAY_KEY_ID env
  else if String.eqb varName "RAZORPAY_KEY_SECRET" then RAZORPAY_KEY_SECRET env
  else if String.eqb varName "SUPABASE_URL" then SUPABASE_URL env
  else if String.eqb varName "SUPABASE_SERVICE_ROLE_KEY" then SUPABASE_SERVICE_ROLE_KEY env
  else None.

(** [list.forEach(f)] *)
Fixpoint forEach {A : Type} (f : A → M unit) (l : list A) : M unit :=
  match l with
  | [] => mret tt
  | x :: rest => f x;; forEach f rest
  end.

Definition requiredVars : list string := ["RAZORPAY_KEY_ID"; "RAZORPAY_KEY_SECRET"].

Definition missingVars (env : Env) : list string :=
  List.filter (fun varName => negb (truthy (env_get env varName))) requiredVars.

Definition line_feed : string := String (ascii_of_nat 10) "".

(** [validateEnvironment()], run when the server starts to listen. *)
Definition validateEnvironment (env : Env) : M Startup :=
  if (0 <? length (missingVars env))%nat then
    console_error [LStr "Missing required environment variables:"];;
    forEach (fun varName => console_error [LStr ("   - " ++ varName)]) (missingVars env);;
    console_error [LStr (line_feed ++
      "Please set these variables in your Render dashboard or .env file")];;
    mret (Exited 1)
  else
    console_log [LStr "Environment variables validated"];;
    console_log [LStr ("Razorpay Key ID: "
                       ++ slice0 8 (to_str (RAZORPAY_KEY_ID env)) ++ "...")];;
    console_log [LStr ("Razorpay Secret: "
                       ++ slice0 8 (to_str (RAZORPAY_KEY_SECRET env)) ++ "...")];;
    (if negb (supabaseAdmin env)
     then console_warn [LStr "SUPABASE_URL/SUPABASE_SERVICE_ROLE_KEY not set; payments may remain pending in DB"]
     else mret tt);;
    mret Started.


(** ** Worlds to evaluate on *)

Definition empty_db : Database := {| payments := []; subscriptions := []; profiles := [] |}.

Definition start_world (clock : nat -> Z)
    (gateway : OrderOptions -> completion GatewayOrder)
    (db : Database) (answers : list (option JsError)) : World :=
  {| console := []; clock := clock; clock_reads := 0;
     gateway := gateway; gateway_calls := [];
     store := db; store_answers := answers; store_calls := [] |}.

(** ** Vocabulary of the statements *)

(** What [verifyPaymentSignature] decides. *)
Definition expected_signature (secret orderId paymentId : string) : string :=
  crypto.hex (crypto.hmac_sha256 (crypto.utf8 secret)
                                 (crypto.utf8 (orderId ++ "|" ++ paymentId))).

Definition signature_ok (env : Env) (orderId paymentId signature : option string) : bool :=
  truthy (RAZORPAY_KEY_SECRET env) &&
  bool_decide (Some (crypto.createHmac_sha256_hex (default "" (RAZORPAY_KEY_SECRET env))
                        (to_str orderId ++ "|" ++ to_str paymentId)) = signature).

(** An input that is empty or absent. *)
Definition empty_or_absent (v : option string) : Prop := v = None ∨ v = Some "".

(** No request reached the database client between two worlds. *)
Definition store_untouched (w w' : World) : Prop :=
  store w' = store w ∧ store_calls w' = store_calls w
  ∧ store_answers w' = store_answers w.

(** The first error among the next [n] answers of the database client,
    with the position of the call it answers. *)
Fixpoint first_error (n : nat) (answers : list (option JsError)) : option (nat * JsError) :=
  match n, answers with
  | S n', Some e :: _ => Some (O, e)
  | S n', None :: rest =>
      match first_error n' rest with
      | Some (k, e) => Some (S k, e)
      | None => None
      end
  | _, _ => None
  end.

(** The console line [recordPaymentSuccess] writes for the store call at
    position [k] when it returns an error. *)
Definition store_error_label (k : nat) : string :=
  match k with
  | 0 => "Supabase payment update error:"
  | 1 => "Supabase subscription upsert error:"
  | _ => "Supabase profile update error:"
  end.

(** The subscription rows of a user. *)
Definition subscriptions_of (userId : string) (db : Database) : list SubscriptionRow :=
  List.filter (fun r => String.eqb (sub_user_id r) userId) (subscriptions db).

(** At most one subscription row per user. *)
Definition one_subscription_per_user (db : Database) : Prop :=
  NoDup (map sub_user_id (subscriptions db)).

(** A store invariant that a computation keeps. *)
Definition preserves (P : Database → Prop) {A : Type} (m : M A) : Prop :=
  ∀ w, P (store w) → P (store (snd (m w))).

(** Five inputs that are all strings. *)
Definition valid_args (orderId paymentId signature plan userId : string) : PaymentArgs :=
  {| arg_orderId := Some orderId; arg_paymentId := Some paymentId;
     arg_signature := Some signature; arg_plan := Some plan;
     arg_userId := Some userId |}.

(** The subscription row [recordPaymentSuccess] upserts, from the two
    clock readings it takes for it. *)
Definition reconciled_subscription (paymentId plan userId : string)
    (period_start now : Z) : SubscriptionRow :=
  {| sub_user_id := userId;
     sub_plan_id := plan;
     sub_provider := Some "razorpay";
     sub_status := "active";
     sub_razorpay_payment_id := paymentId;
     sub_current_period_start := toISOString period_start;
     sub_current_period_end := toISOString (now + thirty_days_ms) |}.

(** The fields [POST /success] hands to [recordPaymentSuccess]. *)
Definition callback_args (req : Request) : PaymentArgs :=
  {| arg_orderId := Some (or_else (body req !! "razorpay_order_id") "");
     arg_paymentId := Some (or_else (body req !! "razorpay_payment_id") "");
     arg_signature := Some (or_else (body req !! "razorpay_signature") "");
     arg_plan := Some (or_else (body req !! "plan") (or_else (query req !! "plan") ""));
     arg_userId := Some (or_else (body req !! "userId") (or_else (query req !! "userId") "")) |}.

(** ** Sample worlds *)

Definition sample_env : Env :=
  {| RAZORPAY_KEY_ID := Some "rzp_test_key";
     RAZORPAY_KEY_SECRET := Some "secret";
     SUPABASE_URL := Some "https://db.example";
     SUPABASE_SERVICE_ROLE_KEY := Some "service-role" |}.

Definition sample_env_no_db : Env :=
  {| RAZORPAY_KEY_ID := Some "rzp_test_key";
     RAZORPAY_KEY_SECRET := Some "secret";
     SUPABASE_URL := None;
     SUPABASE_SERVICE_ROLE_KEY := None |}.

Definition sample_env_no_secret : Env :=
  {| RAZORPAY_KEY_ID := Some "rzp_test_key";
     RAZORPAY_KEY_SECRET := None;
     SUPABASE_URL := Some "https://db.example";
     SUPABASE_SERVICE_ROLE_KEY := Some "service-role" |}.

(** A gateway that accepts every request and echoes it. *)
Definition echo_gateway (o : OrderOptions) : completion GatewayOrder :=
  Return {| order_id := "order_1";
            order_amount := default 0%Z (opt_amount o);
            order_currency := default "INR" (opt_currency o);
            order_receipt := opt_receipt o;
            order_status := "created" |}.

(** A clock that advances by one millisecond at every reading. *)
Definition ticking_clock (n : nat) : Z := (1700000000000 + Z.of_nat n)%Z.

Definition sample_world : World := start_world ticking_clock echo_gateway empty_db [].

(** The same world with a database client whose first answer is an error. *)
Definition sample_world_db_down : World :=
  start_world ticking_clock echo_gateway empty_db [Some (Error "service unavailable")].

(** A database client that answers three calls and then only errors. *)
Definition sample_world_db_lost : World :=
  start_world ticking_clock echo_gateway empty_db
    [None; None; None;
     Some (Error "service unavailable"); Some (Error "service unavailable");
     Some (Error "service unavailable")].

(** HMAC-SHA256 of ["order_1|pay_1"] under the key ["secret"], in hex. *)
Definition sample_signature : string :=
  "52115a0d3400de9e86aade1f1b6eba9e8974604f4e267a9e9a16633a4c8dd2cb".

Definition sample_args : PaymentArgs :=
  valid_args "order_1" "pay_1" sample_signature "pro" "u1".

Definition args_without_userId : PaymentArgs :=
  {| arg_orderId := Some "order_1"; arg_paymentId := Some "pay_1";
     arg_signature := Some sample_signature;
     arg_plan := Some "pro"; arg_userId := None |}.

Definition args_without_orderId : PaymentArgs :=
  {| arg_orderId := None; arg_paymentId := Some "pay_1";
     arg_signature := Some sample_signature;
     arg_plan := Some "pro"; arg_userId := Some "u1" |}.

Definition args_tampered : PaymentArgs :=
  {| arg_orderId := Some "order_1"; arg_paymentId := Some "pay_1";
     arg_signature := Some "52115a0d3400de9e86aade1f1b6eba9e8974604f4e267a9e9a16633a4c8dd2cc";
     arg_plan := Some "pro"; arg_userId := Some "u1" |}.

Definition args_empty_signature : PaymentArgs :=
  {| arg_orderId := Some "order_1"; arg_paymentId := Some "pay_1";
     arg_signature := Some "";
     arg_plan := Some "pro"; arg_userId := Some "u1" |}.

Definition args_bogus_plan : PaymentArgs :=
  {| arg_orderId := Some "order_1"; arg_paymentId := Some "pay_1";
     arg_signature := Some sample_signature;
     arg_plan := Some "bogus"; arg_userId := Some "u1" |}.

Definition args_inherited_plan : PaymentArgs :=
  {| arg_orderId := Some "order_1"; arg_paymentId := Some "pay_1";
     arg_signature := Some sample_signature;
     arg_plan := Some "constructor"; arg_userId := Some "u1" |}.

(** The world after one and after two reconciliations of [sample_args]. *)
Definition sample_world_reconciled : World :=
  world_after (recordPaymentSuccess sample_env sample_args) sample_world.

Definition sample_world_reconciled_twice : World :=
  world_after (recordPaymentSuccess sample_env sample_args) sample_world_reconciled.

(** A callback with the signature in the query string only, and one with
    [plan] and [userId] in the query string only. *)
Definition callback_signature_in_query : Request :=
  {| body := {[ "razorpay_payment_id" := "pay_1"; "razorpay_order_id" := "order_1";
                "plan" := "pro"; "userId" := "u1" ]};
     query := {[ "razorpay_signature" := sample_signature ]} |}.

Definition callback_plan_in_query : Request :=
  {| body := {[ "razorpay_payment_id" := "pay_1"; "razorpay_order_id" := "order_1";
                "razorpay_signature" := sample_signature ]};
     query := {[ "plan" := "pro"; "userId" := "u1" ]} |}.

Definition empty_request : Request := {| body := ∅; query := ∅ |}.

(** An order for plan [pro] by user [u1], and the gateway's callback for it. *)
Definition create_order_request : Request :=
  {| body := {[ "plan" := "pro"; "userId" := "u1" ]}; query := ∅ |}.

Definition callback_request : Request :=
  {| body := {[ "razorpay_payment_id" := "pay_1"; "razorpay_order_id" := "order_1";
                "razorpay_signature" := sample_signature;
                "plan" := "pro"; "userId" := "u1" ]};
     query := ∅ |}.

Definition world_with_profile : World :=
  start_world ticking_clock echo_gateway
    {| payments := []; subscriptions := [];
       profiles := [ {| profile_id := "u1"; profile_plan := None |} ] |} [].

(** A user id of 1000 characters. *)
Definition long_user_id : string :=
  fold_right (fun _ s => String "x" s) "" (seq 0 1000).

(** A computation that leaves an observation of the world as it was. *)
Definition keeps {B A : Type} (f : World → B) (m : M A) : Prop :=
  ∀ w, f (snd (m w)) = f w.

(** Lowercase hexadecimal digits, and strings made of them. *)
Definition is_lower_hex (c : ascii) : bool :=
  let n := nat_of_ascii c in
  ((48 <=? n) && (n <=? 57) || (97 <=? n) && (n <=? 102))%nat.

Fixpoint string_forall (p : ascii → bool) (s : string) : bool :=
  match s with
  | EmptyString => true
  | String c rest => p c && string_forall p rest
  end.

Definition is_byte (b : Z) : Prop := (0 <= b < 256)%Z.

(** The payment row at position [i] is captured, for that order and user. *)
Definition captured_at (i : nat) (orderId userId : string) (db : Database) : Prop :=
  ∃ r, payments db !! i = Some r
       ∧ pay_status r = "captured"
       ∧ pay_razorpay_order_id r = orderId
       ∧ pay_user_id r = userId.

(** Each table holds at least this many rows. *)
Definition at_least (n_payments n_subscriptions n_profiles : nat) (db : Database) : Prop :=
  (n_payments <= length (payments db)
   ∧ n_subscriptions <= length (subscriptions db)
   ∧ n_profiles <= length (profiles db))%nat.

(** A row of the payments table selected by [.eq('razorpay_order_id', o)
    .eq('user_id', u)]. *)
Definition payment_matches (orderId userId : string) (r : PaymentRow) : bool :=
  String.eqb (pay_razorpay_order_id r) orderId && String.eqb (pay_user_id r) userId.

(** The request [createRazorpayOrder] sends to the gateway when the plan
    lookup is truthy, [now] being the clock reading. *)
Definition order_request (plan userId userEmail userName : option string) (now : Z)
    : OrderOptions :=
  {| opt_amount := get_amount (PLAN_CONFIGS_get (to_str plan));
     opt_currency := get_currency (PLAN_CONFIGS_get (to_str plan));
     opt_receipt := receipt_of plan userId now;
     opt_notes := {| note_plan := plan; note_userId := userId;
                     note_userEmail := Some (default "" userEmail);
                     note_userName := Some (default "Ace User" userName) |} |}.

(** An error as the gateway SDK rejects with. *)
Definition gateway_error (msg description : option string) : JsError :=
  {| message := msg; error_description := description |}.

(** A gateway that rejects every request with the same error. *)
Definition rejecting_gateway (e : JsError) (o : OrderOptions) : completion GatewayOrder :=
  Throw e.

Definition sample_world_gateway_down : World :=
  start_world ticking_clock
    (rejecting_gateway (gateway_error (Some "Request failed")
                                      (Some "The amount must be atleast INR 1.00")))
    empty_db [].

(** A pending payment of [u1] for [order_1], and a world whose database
    holds it and answers the second store call with an error. *)
Definition pending_payment : PaymentRow :=
  {| pay_user_id := "u1"; pay_provider := "razorpay";
     pay_razorpay_order_id := "order_1"; pay_amount := Some 100%Z;
     pay_currency := "INR"; pay_status := "pending"; pay_plan_id := "pro";
     pay_metadata := (Some "Pro", Some "Most popular choice");
     pay_razorpay_payment_id := None; pay_razorpay_signature := None;
     pay_updated_at := None |}.

Definition db_with_pending_payment : Database :=
  {| payments := [pending_payment]; subscriptions := [];
     profiles := [ {| profile_id := "u1"; profile_plan := None |} ] |}.

Definition sample_world_upsert_fails : World :=
  start_world ticking_clock echo_gateway db_with_pending_payment
    [None; Some (Error "service unavailable")].

Definition sample_world_pending : World :=
  start_world ticking_clock echo_gateway db_with_pending_payment [].

(** No table has fewer rows in [db'] than in [db]. *)
Definition no_fewer_rows (db db' : Database) : Prop :=
  at_least (length (payments db)) (length (subscriptions db)) (length (profiles db)) db'.

(** A database with a captured payment, and the replay of its callback
    with a signature that does not verify. *)
Definition captured_payment : PaymentRow :=
  {| pay_user_id := "u1"; pay_provider := "razorpay";
     pay_razorpay_order_id := "order_1"; pay_amount := Some 100%Z;
     pay_currency := "INR"; pay_status := "captured"; pay_plan_id := "pro";
     pay_metadata := (Some "Pro", Some "Most popular choice");
     pay_razorpay_payment_id := Some "pay_1";
     pay_razorpay_signature := Some sample_signature;
     pay_updated_at := Some (toISOString 1700000000000) |}.

Definition sample_world_captured : World :=
  start_world ticking_clock echo_gateway
    {| payments := [captured_payment]; subscriptions := [];
       profiles := [ {| profile_id := "u1"; profile_plan := Some "pro" |} ] |} [].

(** The row [POST /api/create-order] inserts for a created order. *)
Definition pending_row (userId plan : option string) (order : OrderRecord) : PaymentRow :=
  {| pay_user_id := to_str userId;
     pay_provider := "razorpay";
     pay_razorpay_order_id := rec_id order;
     pay_amount := Some (rec_amount order);
     pay_currency := or_else (Some (rec_currency order)) "INR";
     pay_status := "pending";
     pay_plan_id := to_str plan;
     pay_metadata := (rec_planName order, rec_planDescription order);
     pay_razorpay_payment_id := None;
     pay_razorpay_signature := None;
     pay_updated_at := None |}.

(** The call of [createRazorpayOrder] that [POST /api/create-order] makes. *)
Definition create_order_call (env : Env) (req : Request) : M OrderRecord :=
  createRazorpayOrder env (body req !! "plan") (body req !! "userId")
                      (body req !! "userEmail") (body req !! "userName").

Definition bogus_plan_request : Request :=
  {| body := {[ "plan" := "bogus"; "userId" := "u1" ]}; query := ∅ |}.

(** The fields [POST /api/verify-payment] hands to [recordPaymentSuccess]. *)
Definition verify_args (req : Request) : PaymentArgs :=
  {| arg_orderId := body req !! "orderId";
     arg_paymentId := body req !! "paymentId";
     arg_signature := body req !! "signature";
     arg_plan := body req !! "plan";
     arg_userId := body req !! "userId" |}.

Definition verify_request_tampered : Request :=
  {| body := {[ "orderId" := "order_1"; "paymentId" := "pay_1";
                "signature" := "tampered"; "plan" := "pro"; "userId" := "u1" ]};
     query := ∅ |}.

(** The characters the form-urlencoded serializer produces: letters,
    digits and [* - . _ + %]. *)
Definition is_urlencoded_char (c : ascii) : bool :=
  let n := nat_of_ascii c in
  ((48 <=? n) && (n <=? 57) || (65 <=? n) && (n <=? 90) || (97 <=? n) && (n <=? 122)
   || (n =? 42) || (n =? 45) || (n =? 46) || (n =? 95) || (n =? 43) || (n =? 37))%nat.

(** The characters of a redirect location: the above and [/ ? = &]. *)
Definition is_location_char (c : ascii) : bool :=
  let n := nat_of_ascii c in
  (is_urlencoded_char c || (n =? 47) || (n =? 63) || (n =? 61) || (n =? 38))%nat.

Definition all_bytes : list Z := map Z.of_nat (seq 0 256).


(** A database with the pending payment of [u1], a payment of another
    user, an older subscription of [u1] and one of [u2], and both profiles. *)
Definition other_payment : PaymentRow :=
  {| pay_user_id := "u2"; pay_provider := "razorpay";
     pay_razorpay_order_id := "order_2"; pay_amount := Some 100%Z;
     pay_currency := "INR"; pay_status := "pending"; pay_plan_id := "ultra";
     pay_metadata := (Some "Ultra", Some "Power users with live tutor features");
     pay_razorpay_payment_id := None; pay_razorpay_signature := None;
     pay_updated_at := None |}.

Definition populated_db : Database :=
  {| payments := [pending_payment; other_payment];
     subscriptions :=
       [ {| sub_user_id := "u2"; sub_plan_id := "ultra"; sub_provider := Some "razorpay";
            sub_status := "active"; sub_razorpay_payment_id := "pay_0";
            sub_current_period_start := toISOString 1690000000000;
            sub_current_period_end := toISOString 1692592000000 |};
         {| sub_user_id := "u1"; sub_plan_id := "ultra"; sub_provider := Some "razorpay";
            sub_status := "active"; sub_razorpay_payment_id := "pay_00";
            sub_current_period_start := toISOString 1695000000000;
            sub_current_period_end := toISOString 1697592000000 |} ];
     profiles := [ {| profile_id := "u1"; profile_plan := Some "ultra" |};
                   {| profile_id := "u2"; profile_plan := Some "ultra" |} ] |}.

Definition sample_world_populated : World :=
  start_world ticking_clock echo_gateway populated_db [].

(** A well-formed body for [POST /api/verify-payment]. *)
Definition verify_request_valid : Request :=
  {| body := {[ "orderId" := "order_1"; "paymentId" := "pay_1";
                "signature" := sample_signature; "plan" := "pro"; "userId" := "u1" ]};
     query := ∅ |}.

Arguments crypto.createHmac_sha256_hex : simpl never.
Arguments PLAN_CONFIGS_get : simpl never.
Arguments Number_toString : simpl never.

Ltac unfold_monad :=
  unfold result_of, world_after, try_catch, throw_if, throw, fail_on, log_on,
    console_log, console_warn, console_error, console_write, Date_now,
    supabase_call, razorpay_orders_create, mbind, M_bind, mret, M_ret in *.

(** * Properties *)

(** ** Test vectors of the hash *)

Example sha256_abc :
  crypto.hex (crypto.sha256 (crypto.utf8 "abc"))
  = "ba7816bf8f01cfea414140de5dae2223b00361a396177a9cb410ff61f20015ad".
Proof. vm_compute. reflexivity. Qed.

Example sha256_empty :
  crypto.hex (crypto.sha256 [])
  = "e3b0c44298fc1c149afbf4c8996fb92427ae41e4649b934ca495991b7852b855".
Proof. vm_compute. reflexivity. Qed.

Example sha256_two_blocks :
  crypto.hex (crypto.sha256 (crypto.utf8 "abcdbcdecdefdefgefghfghighijhijkijkljklmklmnlmnomnopnopq"))
  = "248d6a61d20638b8e5c026930c3e6039a33ce45964ff2167f6ecedd419db06c1".
Proof. vm_compute. reflexivity. Qed.

Example hmac_rfc4231_case2 :
  crypto.createHmac_sha256_hex "Jefe" "what do ya want for nothing?"
  = "5bdcc146bf60754e6a042426089575c75a003f089d2739839dec58b964ec3843".
Proof. vm_compute. reflexivity. Qed.

Example hmac_order_1_pay_1 :
  crypto.createHmac_sha256_hex "secret" "order_1|pay_1"
  = "52115a0d3400de9e86aade1f1b6eba9e8974604f4e267a9e9a16633a4c8dd2cb".
Proof. vm_compute. reflexivity. Qed.

Example hmac_long_key :
  crypto.hex (crypto.hmac_sha256 (repeat 107%Z 100) (crypto.utf8 "order_1|pay_1"))
  = "9587204e9169a6a9d61bc22eac380a99460831562a08853a92049dc1841e473f".
Proof. vm_compute. reflexivity. Qed.

Example hmac_two_byte_characters :
  crypto.createHmac_sha256_hex
    ("cl" ++ String (ascii_of_nat 233) "")
    ("ordre_" ++ String (ascii_of_nat 233) "|pay_1")
  = "5902b7fb8d5419dce0183c49f19fa72acbed0c276878ad203d7a26ccfdeea320".
Proof. vm_compute. reflexivity. Qed.

Example sample_signature_is_hmac :
  expected_signature "secret" "order_1" "pay_1" = sample_signature.
Proof. vm_compute. reflexivity. Qed.

(** ** Basic facts *)

Lemma truthy_Some (s : string) : truthy (Some s) = true ↔ s ≠ "".
Proof.
  unfold truthy. rewrite negb_true_iff. split.
  - intros H ->. discriminate.
  - intros H. apply String.eqb_neq. exact H.
Qed.

Lemma truthy_empty_or_absent (v : option string) :
  truthy v = false ↔ empty_or_absent v.
Proof.
  unfold empty_or_absent. destruct v as [s|]; cbn.
  - rewrite negb_false_iff, String.eqb_eq. split.
    + intros ->. now right.
    + intros [H|H]; congruence.
  - split; auto.
Qed.

Lemma or_else_string (s : string) : or_else (Some s) "" = s.
Proof.
  unfold or_else, truthy. destruct (String.eqb_spec s ""); cbn; congruence.
Qed.

Lemma length_slice0 (n : nat) (s : string) : (String.length (slice0 n s) <= n)%nat.
Proof.
  unfold slice0. revert s. induction n as [|n IH]; intros [|c s]; cbn; try lia.
  specialize (IH s). lia.
Qed.

Lemma in_catalog_own (plan : string) :
  in_catalog plan = true → ∃ c, PLAN_CONFIGS_get plan = OwnPlan c.
Proof.
  unfold in_catalog, PLAN_CONFIGS_get. intros H.
  apply bool_decide_eq_true in H. destruct H as [c ->]. now exists c.
Qed.

(** ** Signature verification *)

Lemma verifyPaymentSignature_run env o p s w :
  result_of (verifyPaymentSignature env o p s) w = Return (signature_ok env o p s).
Proof.
  unfold result_of, verifyPaymentSignature, try_catch, signature_ok.
  destruct (truthy (RAZORPAY_KEY_SECRET env)); reflexivity.
Qed.

(** C1. With a non-empty secret, [verifyPaymentSignature] answers [true]
    exactly for the lowercase hex HMAC-SHA256, keyed by the secret, of the
    UTF-8 bytes of [orderId + "|" + paymentId]; an empty [orderId] or
    [paymentId] goes through the same computation. *)
Theorem verifyPaymentSignature_iff_hmac env secret orderId paymentId sig w :
  RAZORPAY_KEY_SECRET env = Some secret → secret ≠ "" →
  result_of (verifyPaymentSignature env (Some orderId) (Some paymentId) (Some sig)) w
    = Return true
  ↔ sig = expected_signature secret orderId paymentId.
Proof.
  intros Hs Hne. rewrite verifyPaymentSignature_run. unfold signature_ok. rewrite Hs.
  apply truthy_Some in Hne. rewrite Hne. cbn [andb default to_str].
  unfold crypto.createHmac_sha256_hex, expected_signature.
  split.
  - intros H. injection H as H. apply bool_decide_eq_true in H. congruence.
  - intros ->. rewrite bool_decide_eq_true_2; reflexivity.
Qed.

Lemma verifyPaymentSignature_iff_hmac_witness :
  (RAZORPAY_KEY_SECRET sample_env = Some "secret" ∧ "secret" ≠ "")
  ∧ (result_of (verifyPaymentSignature sample_env (Some "") (Some "pay_1")
                  (Some "4079d1bf17450e842ed5628c67fd2f350b08ac20c70fa42568324b6a81abf6dd"))
               sample_world = Return true
     ↔ "4079d1bf17450e842ed5628c67fd2f350b08ac20c70fa42568324b6a81abf6dd"
       = expected_signature "secret" "" "pay_1").
Proof.
  split; [split; [reflexivity | discriminate] |].
  apply (verifyPaymentSignature_iff_hmac sample_env "secret" "" "pay_1"); [reflexivity | discriminate].
Defined.

Example verify_empty_orderId_computes :
  result_of (verifyPaymentSignature sample_env (Some "") (Some "pay_1")
               (Some "4079d1bf17450e842ed5628c67fd2f350b08ac20c70fa42568324b6a81abf6dd"))
            sample_world = Return true.
Proof. vm_compute. reflexivity. Qed.

Example verify_tampered_signature :
  result_of (verifyPaymentSignature sample_env (Some "order_1") (Some "pay_1")
               (Some "52115a0d3400de9e86aade1f1b6eba9e8974604f4e267a9e9a16633a4c8dd2cc"))
            sample_world = Return false.
Proof. vm_compute. reflexivity. Qed.

(** C8. [verifyPaymentSignature] returns a boolean and never throws, for
    every [orderId], [paymentId] and [signature] and every configuration of
    the secret; with the secret absent or empty it returns [false]. *)
Theorem verifyPaymentSignature_never_throws env orderId paymentId signature w :
  (∃ b, result_of (verifyPaymentSignature env orderId paymentId signature) w = Return b)
  ∧ (empty_or_absent (RAZORPAY_KEY_SECRET env) →
     result_of (verifyPaymentSignature env orderId paymentId signature) w = Return false).
Proof.
  rewrite verifyPaymentSignature_run. split.
  - eauto.
  - intros H. apply truthy_empty_or_absent in H. unfold signature_ok. now rewrite H.
Qed.

Lemma verifyPaymentSignature_never_throws_witness :
  empty_or_absent (RAZORPAY_KEY_SECRET sample_env_no_secret)
  ∧ result_of (verifyPaymentSignature sample_env_no_secret (Some "order_1") (Some "pay_1")
                 (Some sample_signature)) sample_world = Return false.
Proof.
  split; [left; reflexivity |].
  apply (verifyPaymentSignature_never_throws sample_env_no_secret). left; reflexivity.
Defined.

(** ** Reconciliation: the failure paths *)

Lemma missing_parameters_iff (a : PaymentArgs) :
  missing_parameters a = true ↔
  empty_or_absent (arg_orderId a) ∨ empty_or_absent (arg_paymentId a)
  ∨ empty_or_absent (arg_signature a) ∨ empty_or_absent (arg_plan a)
  ∨ empty_or_absent (arg_userId a).
Proof.
  unfold missing_parameters.
  rewrite !orb_true_iff, !negb_true_iff, !truthy_empty_or_absent. tauto.
Qed.

Lemma recordPaymentSuccess_catch env a w :
  recordPaymentSuccess env a w =
  match recordPaymentSuccess_try env a w with
  | (Return r, w') => (Return r, w')
  | (Throw cause, w') =>
      (Throw generic_failure,
       snd (console_error [LStr "Error recording payment success:"; LErr cause] w'))
  end.
Proof.
  unfold recordPaymentSuccess, try_catch.
  destruct (recordPaymentSuccess_try env a w) as [[r|cause] w']; reflexivity.
Qed.

(** C7. When any of the five inputs of [recordPaymentSuccess] is empty or
    absent, its [try] block raises the missing-parameters error before the
    signature is verified or the store is called, and the call fails; order
    creation at [POST /api/create-order] asks for [plan] and [userId] only. *)
Theorem reconcile_missing_parameters env a w req w' :
  empty_or_absent (arg_orderId a) ∨ empty_or_absent (arg_paymentId a)
  ∨ empty_or_absent (arg_signature a) ∨ empty_or_absent (arg_plan a)
  ∨ empty_or_absent (arg_userId a) →
  (result_of (recordPaymentSuccess_try env a) w = Throw (Error (missing_parameters_message a))
   ∧ result_of (recordPaymentSuccess env a) w = Throw generic_failure
   ∧ store_untouched w (world_after (recordPaymentSuccess env a) w)
   ∧ console (world_after (recordPaymentSuccess env a) w)
     = (console w
       ++ [ {| level := LOG;
               args := [LStr "Starting payment verification:";
                        LObj [("orderId", arg_orderId a); ("paymentId", arg_paymentId a);
                              ("plan", arg_plan a); ("userId", arg_userId a)]] |};
            {| level := ERROR;
               args := [LStr "Error recording payment success:";
                        LErr (Error (missing_parameters_message a))] |} ])%list)
  ∧ (truthy (RAZORPAY_KEY_ID env) = true → truthy (RAZORPAY_KEY_SECRET env) = true →
     (result_of (post_create_order env req) w'
        = Return (Json 400 (JsonError "Missing required parameters"))
      ↔ empty_or_absent (body req !! "plan") ∨ empty_or_absent (body req !! "userId"))).
Proof.
  intros Hm. apply missing_parameters_iff in Hm. split.
  - unfold recordPaymentSuccess, recordPaymentSuccess_try, store_untouched.
    unfold_monad. destruct w. rewrite Hm. cbn.
    rewrite <- app_assoc. repeat split.
  - intros Hid Hsec. rewrite <- !truthy_empty_or_absent.
    unfold post_create_order, createRazorpayOrder. unfold_monad.
    rewrite Hid, Hsec. cbn [negb orb].
    destruct (truthy (body req !! "plan")), (truthy (body req !! "userId")); cbn [negb orb];
      try (split; [auto | reflexivity]).
    split; [| intros [H|H]; discriminate].
    destruct w'. cbn.
    destruct (lookup_truthy _); cbn;
      [ destruct (gateway0 _); cbn; [ destruct (supabaseAdmin env); cbn |] |];
      discriminate.
Qed.

Lemma reconcile_missing_parameters_witness :
  empty_or_absent (arg_userId args_without_userId)
  ∧ result_of (recordPaymentSuccess_try sample_env args_without_userId) sample_world
    = Throw (Error "Missing required parameters: orderId=true, paymentId=true, signature=true, plan=true, userId=false")
  ∧ result_of (recordPaymentSuccess sample_env args_without_userId) sample_world
    = Throw generic_failure.
Proof.
  assert (H : empty_or_absent (arg_userId args_without_userId)) by (left; reflexivity).
  split; [exact H |].
  destruct (reconcile_missing_parameters sample_env args_without_userId sample_world
              empty_request sample_world
              (or_intror (or_intror (or_intror (or_intror H))))) as [(H1 & H2 & _) _].
  split; [exact H1 | exact H2].
Defined.

(** Whenever the verification of the input's signature gives [false],
    [recordPaymentSuccess] fails and sends no request to the store; what its
    [try] block raises depends on whether the parameter check, which runs
    first, has let the input through. *)
Lemma reconcile_failed_verification env a w :
  result_of (verifyPaymentSignature env (arg_orderId a) (arg_paymentId a) (arg_signature a)) w
    = Return false →
  result_of (recordPaymentSuccess env a) w = Throw generic_failure
  ∧ store_untouched w (world_after (recordPaymentSuccess env a) w)
  ∧ result_of (recordPaymentSuccess_try env a) w
    = Throw (Error (if missing_parameters a then missing_parameters_message a
                    else "Invalid payment signature")).
Proof.
  rewrite verifyPaymentSignature_run. intros H. injection H as H. unfold signature_ok in H.
  unfold recordPaymentSuccess, recordPaymentSuccess_try, verifyPaymentSignature, store_untouched.
  unfold_monad. destruct w.
  destruct (missing_parameters a); cbn; [auto |].
  destruct (truthy (RAZORPAY_KEY_SECRET env)); cbn in *; [rewrite H; cbn |]; auto.
Qed.

(** An input with an empty signature does not reach the signature check:
    the parameter check rejects it first. *)
Example reconcile_empty_signature_not_invalid_signature :
  result_of (verifyPaymentSignature sample_env (arg_orderId args_empty_signature)
               (arg_paymentId args_empty_signature) (arg_signature args_empty_signature))
            sample_world = Return false
  ∧ result_of (recordPaymentSuccess_try sample_env args_empty_signature) sample_world
    = Throw (Error "Missing required parameters: orderId=true, paymentId=true, signature=false, plan=true, userId=true")
  ∧ result_of (recordPaymentSuccess_try sample_env args_empty_signature) sample_world
    ≠ Throw (Error "Invalid payment signature").
Proof.
  split; [vm_compute; reflexivity |].
  split; [vm_compute; reflexivity |].
  vm_compute. discriminate.
Qed.

(** C2. On every input that reaches the signature check, that is with all
    five inputs present, and on which the verification fails,
    [recordPaymentSuccess] raises the invalid-signature error and fails,
    having logged the failed verification and sent no request to the store:
    no payment, subscription or profile record is mutated. *)
Theorem reconcile_invalid_signature env a w :
  missing_parameters a = false →
  result_of (verifyPaymentSignature env (arg_orderId a) (arg_paymentId a) (arg_signature a)) w
    = Return false →
  let w' := world_after (recordPaymentSuccess env a) w in
  result_of (recordPaymentSuccess_try env a) w = Throw (Error "Invalid payment signature")
  ∧ result_of (recordPaymentSuccess env a) w = Throw generic_failure
  ∧ store w' = store w
  ∧ store_calls w' = store_calls w
  ∧ store_answers w' = store_answers w
  ∧ In {| level := LOG; args := [LStr "Signature verification result:"; LBool false] |}
       (console w')
  ∧ In {| level := ERROR;
          args := [LStr "Error recording payment success:";
                   LErr (Error "Invalid payment signature")] |}
       (console w').
Proof.
  intros Hm Hv w'. subst w'.
  rewrite verifyPaymentSignature_run in Hv. injection Hv as Hv. unfold signature_ok in Hv.
  unfold recordPaymentSuccess, recordPaymentSuccess_try, verifyPaymentSignature.
  unfold_monad. destruct w as [con clk reads gw gwc st ans calls]. rewrite Hm. cbn.
  destruct (truthy (RAZORPAY_KEY_SECRET env)); cbn in *; [rewrite Hv; cbn |];
    rewrite ?in_app_iff; cbn; repeat split; auto 10.
Qed.

Lemma reconcile_invalid_signature_witness :
  (missing_parameters args_tampered = false
   ∧ result_of (verifyPaymentSignature sample_env (arg_orderId args_tampered)
                  (arg_paymentId args_tampered) (arg_signature args_tampered))
               sample_world_pending = Return false)
  ∧ result_of (recordPaymentSuccess_try sample_env args_tampered) sample_world_pending
    = Throw (Error "Invalid payment signature")
  ∧ result_of (recordPaymentSuccess sample_env args_tampered) sample_world_pending
    = Throw generic_failure
  ∧ store (world_after (recordPaymentSuccess sample_env args_tampered) sample_world_pending)
    = store sample_world_pending.
Proof.
  assert (Hm : missing_parameters args_tampered = false) by reflexivity.
  assert (Hv : result_of (verifyPaymentSignature sample_env (arg_orderId args_tampered)
                            (arg_paymentId args_tampered) (arg_signature args_tampered))
                         sample_world_pending = Return false)
    by (vm_compute; reflexivity).
  split; [split; assumption |].
  destruct (reconcile_invalid_signature sample_env args_tampered sample_world_pending Hm Hv)
    as (H1 & H2 & H3 & _).
  split; [exact H1 | split; [exact H2 | exact H3]].
Defined.

(** C10. Whatever [recordPaymentSuccess] throws to its caller is the one
    generic error, whichever error its [try] block raised. *)
Theorem recordPaymentSuccess_throws_generic env a w :
  (∀ e, result_of (recordPaymentSuccess env a) w = Throw e →
        e = generic_failure ∧ message e = Some "Failed to record payment success")
  ∧ (∀ cause, result_of (recordPaymentSuccess_try env a) w = Throw cause →
              result_of (recordPaymentSuccess env a) w = Throw generic_failure).
Proof.
  unfold result_of. rewrite recordPaymentSuccess_catch.
  destruct (recordPaymentSuccess_try env a w) as [[r|cause] w1]; cbn; split.
  - intros e H. discriminate.
  - intros c H. discriminate.
  - intros e H. injection H as <-. split; reflexivity.
  - reflexivity.
Qed.

Lemma recordPaymentSuccess_throws_generic_witness :
  result_of (recordPaymentSuccess_try sample_env args_bogus_plan) sample_world
    = Throw (Error "Invalid plan: bogus")
  ∧ result_of (recordPaymentSuccess sample_env args_bogus_plan) sample_world
    = Throw generic_failure.
Proof.
  assert (H : result_of (recordPaymentSuccess_try sample_env args_bogus_plan) sample_world
              = Throw (Error "Invalid plan: bogus")) by (vm_compute; reflexivity).
  split; [exact H |].
  exact (proj2 (recordPaymentSuccess_throws_generic sample_env args_bogus_plan sample_world)
               _ H).
Defined.

(** The four causes, met on concrete inputs. *)
Example four_causes_one_message :
  (result_of (recordPaymentSuccess_try sample_env args_without_orderId) sample_world
     = Throw (Error "Missing required parameters: orderId=false, paymentId=true, signature=true, plan=true, userId=true")
   ∧ result_of (recordPaymentSuccess sample_env args_without_orderId) sample_world
     = Throw generic_failure)
  ∧ (result_of (recordPaymentSuccess_try sample_env args_tampered) sample_world
       = Throw (Error "Invalid payment signature")
     ∧ result_of (recordPaymentSuccess sample_env args_tampered) sample_world
       = Throw generic_failure)
  ∧ (result_of (recordPaymentSuccess_try sample_env args_bogus_plan) sample_world
       = Throw (Error "Invalid plan: bogus")
     ∧ result_of (recordPaymentSuccess sample_env args_bogus_plan) sample_world
       = Throw generic_failure)
  ∧ (result_of (recordPaymentSuccess_try sample_env sample_args) sample_world_db_down
       = Throw (Error "Payment verification succeeded but database update failed: Failed to update payment record")
     ∧ result_of (recordPaymentSuccess sample_env sample_args) sample_world_db_down
       = Throw generic_failure).
Proof. vm_compute. repeat split. Qed.

(** ** Reconciliation: the store *)

(** C3 as stated fails: with a valid signature and a known plan, a database
    client that answers the first call with an error makes
    [recordPaymentSuccess] fail, after that one call. *)
Lemma reconcile_db_error_fails :
  result_of (verifyPaymentSignature sample_env (arg_orderId sample_args)
               (arg_paymentId sample_args) (arg_signature sample_args))
            sample_world_db_down = Return true
  ∧ in_catalog "pro" = true
  ∧ result_of (recordPaymentSuccess sample_env sample_args) sample_world_db_down
    = Throw generic_failure
  ∧ length (store_calls (world_after (recordPaymentSuccess sample_env sample_args)
                                     sample_world_db_down)) = 1.
Proof. vm_compute. repeat split. Qed.

Lemma route_persist_run orderId paymentId signature plan userId w :
  result_of (route_persist orderId paymentId signature plan userId) w = Return tt
  ∧ length (store_calls (world_after
              (route_persist orderId paymentId signature plan userId) w))
    = length (store_calls w) + 3.
Proof.
  unfold route_persist. unfold_monad.
  destruct w as [con clk reads gw gwc st ans calls]. cbn.
  destruct ans as [|[e0|] [|[e1|] [|[e2|] ans]]]; cbn;
    rewrite ?length_app; cbn; split; try reflexivity; lia.
Qed.

(** The store block of the routes: its three requests, sent whatever the
    answers, and the line it writes for each error. *)
Lemma route_persist_logs_and_continues orderId paymentId signature plan userId w :
  let w' := world_after (route_persist orderId paymentId signature plan userId) w in
  result_of (route_persist orderId paymentId signature plan userId) w = Return tt
  ∧ store_calls w'
    = (store_calls w
       ++ [ PaymentsUpdate paymentId signature "captured"
              (toISOString (clock w (clock_reads w))) orderId userId;
            SubscriptionsUpsert
              {| sub_user_id := userId; sub_plan_id := plan; sub_provider := None;
                 sub_status := "active"; sub_razorpay_payment_id := paymentId;
                 sub_current_period_start := toISOString (clock w (1 + clock_reads w));
                 sub_current_period_end :=
                   toISOString (clock w (2 + clock_reads w) + thirty_days_ms) |};
            ProfilesUpdate plan userId ])%list
  ∧ (∀ k e, (k < 3)%nat → store_answers w !! k = Some (Some e) →
       In {| level := ERROR; args := [LStr (store_error_label k); LErr e] |} (console w'))
  ∧ (first_error 3 (store_answers w) = None → console w' = console w).
Proof.
  intros w'. subst w'. unfold route_persist. unfold_monad.
  destruct w as [con clk reads gw gwc st ans calls]. cbn.
  destruct ans as [|[e0|] [|[e1|] [|[e2|] ans]]]; cbn;
    (split; [reflexivity |]);
    (split; [rewrite <- ?app_assoc; reflexivity |]);
    (split; [| intros H; try discriminate; reflexivity]);
    intros k e Hk Hl; destruct k as [|[|[|k]]]; cbn in Hl; try discriminate; try lia;
    injection Hl as <-; rewrite ?in_app_iff; cbn; auto 10.
Qed.

(** C3, amended. With all five inputs present, a valid signature and a
    known plan: without a database client [recordPaymentSuccess] skips the
    store and returns success; with a client it returns success when its
    three store calls are answered without error, and when the call at
    position [k] returns an error it logs that error, sends no further
    request and fails with the generic error. Logging a store error and
    going on to the next call is what the routes do in their own store
    block: it sends its three requests whatever the answers, writes a
    console line for each answer that is an error, and returns. *)
Theorem reconcile_store_outcomes env a w :
  missing_parameters a = false →
  result_of (verifyPaymentSignature env (arg_orderId a) (arg_paymentId a) (arg_signature a)) w
    = Return true →
  in_catalog (to_str (arg_plan a)) = true →
  let outcome := result_of (recordPaymentSuccess env a) w in
  let w' := world_after (recordPaymentSuccess env a) w in
  (if supabaseAdmin env then
     match first_error 3 (store_answers w) with
     | None =>
         (∃ r, outcome = Return r ∧ res_success r = true)
         ∧ length (store_calls w') = length (store_calls w) + 3
     | Some (k, e) =>
         outcome = Throw generic_failure
         ∧ length (store_calls w') = length (store_calls w) + S k
         ∧ In {| level := ERROR; args := [LStr (store_error_label k); LErr e] |} (console w')
     end
   else
     (∃ r, outcome = Return r ∧ res_success r = true) ∧ store_untouched w w')
  ∧ (∀ orderId paymentId signature plan userId v,
       let v' := world_after (route_persist orderId paymentId signature plan userId) v in
       result_of (route_persist orderId paymentId signature plan userId) v = Return tt
       ∧ store_calls v'
         = (store_calls v
            ++ [ PaymentsUpdate paymentId signature "captured"
                   (toISOString (clock v (clock_reads v))) orderId userId;
                 SubscriptionsUpsert
                   {| sub_user_id := userId; sub_plan_id := plan; sub_provider := None;
                      sub_status := "active"; sub_razorpay_payment_id := paymentId;
                      sub_current_period_start :=
                        toISOString (clock v (1 + clock_reads v));
                      sub_current_period_end :=
                        toISOString (clock v (2 + clock_reads v) + thirty_days_ms) |};
                 ProfilesUpdate plan userId ])%list
       ∧ (∀ k e, (k < 3)%nat → store_answers v !! k = Some (Some e) →
            In {| level := ERROR; args := [LStr (store_error_label k); LErr e] |}
               (console v'))
       ∧ (first_error 3 (store_answers v) = None → console v' = console v)).
Proof.
  intros Hm Hv Hp outcome w'.
  split; [| intros; apply route_persist_logs_and_continues].
  subst outcome w'. revert Hm Hv Hp.
  intros Hm Hv Hp. rewrite verifyPaymentSignature_run in Hv. injection Hv as Hv.
  unfold signature_ok in Hv. apply andb_true_iff in Hv as [Hs Hv].
  apply in_catalog_own in Hp as [c Hc].
  unfold recordPaymentSuccess, recordPaymentSuccess_try, persist_capture,
    verifyPaymentSignature, store_untouched.
  unfold_monad. destruct w as [con clk reads gw gwc st ans calls].
  rewrite Hm, Hs, Hc. cbn. rewrite Hv. cbn.
  destruct (supabaseAdmin env); cbn.
  - destruct ans as [|[e0|] [|[e1|] [|[e2|] ans]]]; cbn;
      rewrite ?length_app; cbn;
      repeat split; eauto; try lia;
      rewrite ?in_app_iff; cbn; tauto.
  - repeat split; eauto.
Qed.

Lemma reconcile_store_outcomes_witness :
  (missing_parameters sample_args = false
   ∧ result_of (verifyPaymentSignature sample_env (arg_orderId sample_args)
                  (arg_paymentId sample_args) (arg_signature sample_args))
               sample_world_db_down = Return true
   ∧ in_catalog (to_str (arg_plan sample_args)) = true)
  ∧ result_of (recordPaymentSuccess sample_env sample_args) sample_world_db_down
    = Throw generic_failure
  ∧ In {| level := ERROR;
          args := [LStr "Supabase payment update error:";
                   LErr (Error "service unavailable")] |}
       (console (world_after (route_persist "order_1" "pay_1" sample_signature "pro" "u1")
                             sample_world_db_down))
  ∧ length (store_calls (world_after
              (route_persist "order_1" "pay_1" sample_signature "pro" "u1")
              sample_world_db_down)) = 3.
Proof.
  assert (H1 : missing_parameters sample_args = false) by reflexivity.
  assert (H2 : result_of (verifyPaymentSignature sample_env (arg_orderId sample_args)
                            (arg_paymentId sample_args) (arg_signature sample_args))
                         sample_world_db_down = Return true) by (vm_compute; reflexivity).
  assert (H3 : in_catalog (to_str (arg_plan sample_args)) = true) by reflexivity.
  split; [auto |].
  destruct (reconcile_store_outcomes sample_env sample_args sample_world_db_down H1 H2 H3)
    as [Hreconcile Hroute].
  split; [exact (proj1 Hreconcile) |].
  destruct (Hroute "order_1" "pay_1" sample_signature "pro" "u1" sample_world_db_down)
    as (_ & Hcalls & Hlog & _).
  split; [exact (Hlog 0 (Error "service unavailable") ltac:(lia) eq_refl) |].
  rewrite Hcalls. reflexivity.
Defined.

Example reconcile_without_db_client :
  ∃ r, result_of (recordPaymentSuccess sample_env_no_db sample_args) sample_world = Return r
       ∧ res_success r = true ∧ res_planName r = "Pro" ∧ res_amount r = 100%Z
       ∧ store_calls (world_after (recordPaymentSuccess sample_env_no_db sample_args)
                                  sample_world) = [].
Proof. vm_compute. eexists. repeat split. Qed.

(** *** Upsert keeps one row per user *)

Lemma upsert_user_ids (new : SubscriptionRow) (rows : list SubscriptionRow) (u : string) :
  u ∈ map sub_user_id (upsert_subscription new rows)
  ↔ u ∈ map sub_user_id rows ∨ u = sub_user_id new.
Proof.
  induction rows as [|r rest IH]; cbn.
  - rewrite list_elem_of_singleton, elem_of_nil. tauto.
  - destruct (String.eqb_spec (sub_user_id r) (sub_user_id new)) as [E|E]; cbn.
    + rewrite !elem_of_cons, E. tauto.
    + rewrite !elem_of_cons, IH. tauto.
Qed.

Lemma upsert_NoDup (new : SubscriptionRow) (rows : list SubscriptionRow) :
  NoDup (map sub_user_id rows) →
  NoDup (map sub_user_id (upsert_subscription new rows)).
Proof.
  induction rows as [|r rest IH]; cbn; intros H.
  - apply NoDup_singleton.
  - apply NoDup_cons in H as [Hr Hrest].
    destruct (String.eqb_spec (sub_user_id r) (sub_user_id new)) as [E|E]; cbn.
    + rewrite E in Hr. apply NoDup_cons. split; assumption.
    + apply NoDup_cons. split; [| auto].
      intros Hin. apply upsert_user_ids in Hin as [Hin|Hin]; [tauto | congruence].
Qed.

Lemma filter_absent (u : string) (rows : list SubscriptionRow) :
  u ∉ map sub_user_id rows →
  List.filter (fun r => String.eqb (sub_user_id r) u) rows = [].
Proof.
  induction rows as [|r rest IH]; cbn; intros H; [reflexivity |].
  apply not_elem_of_cons in H as [H1 H2].
  destruct (String.eqb_spec (sub_user_id r) u) as [E|E]; [congruence | auto].
Qed.

Lemma upsert_filter_same (new : SubscriptionRow) (rows : list SubscriptionRow) :
  is_Some (sub_provider new) →
  NoDup (map sub_user_id rows) →
  List.filter (fun r => String.eqb (sub_user_id r) (sub_user_id new))
              (upsert_subscription new rows) = [new].
Proof.
  intros [p Hp]. induction rows as [|r rest IH]; cbn; intros H.
  - now rewrite String.eqb_refl.
  - apply NoDup_cons in H as [Hr Hrest].
    destruct (String.eqb_spec (sub_user_id r) (sub_user_id new)) as [E|E]; cbn.
    + rewrite String.eqb_refl. rewrite filter_absent.
      * unfold merge_subscription. rewrite Hp. destruct new; cbn in *. congruence.
      * rewrite <- E. exact Hr.
    + destruct (String.eqb_spec (sub_user_id r) (sub_user_id new)); [congruence | auto].
Qed.

Lemma upsert_filter_other (new : SubscriptionRow) (rows : list SubscriptionRow) (u : string) :
  u ≠ sub_user_id new →
  List.filter (fun r => String.eqb (sub_user_id r) u) (upsert_subscription new rows)
  = List.filter (fun r => String.eqb (sub_user_id r) u) rows.
Proof.
  intros Hu.
  assert (Hnew : String.eqb (sub_user_id new) u = false)
    by (apply String.eqb_neq; congruence).
  induction rows as [|r rest IH]; cbn.
  - now rewrite Hnew.
  - destruct (String.eqb_spec (sub_user_id r) (sub_user_id new)) as [E|E]; cbn.
    + rewrite E, Hnew. reflexivity.
    + now rewrite IH.
Qed.

Lemma apply_call_one_subscription_per_user (c : StoreCall) (db : Database) :
  one_subscription_per_user db → one_subscription_per_user (apply_call c db).
Proof.
  unfold one_subscription_per_user. destruct c; cbn; auto using upsert_NoDup.
Qed.

(** *** Store invariants through the monad *)

Section StoreInvariant.
Variable P : Database → Prop.
Hypothesis P_apply_call : ∀ c db, P db → P (apply_call c db).

Lemma preserves_ret {A : Type} (a : A) : preserves P (mret a).
Proof. intros w H. exact H. Qed.

Lemma preserves_throw {A : Type} (e : JsError) : preserves P (@throw A e).
Proof. intros w H. exact H. Qed.

Lemma preserves_bind {A B : Type} (m : M A) (f : A → M B) :
  preserves P m → (∀ a, preserves P (f a)) → preserves P (m ≫= f).
Proof.
  intros Hm Hf w H. unfold mbind, M_bind. specialize (Hm w H).
  destruct (m w) as [[a|e] w1]; cbn in *; [apply Hf |]; exact Hm.
Qed.

Lemma preserves_try_catch {A : Type} (m : M A) (h : JsError → M A) :
  preserves P m → (∀ e, preserves P (h e)) → preserves P (try_catch m h).
Proof.
  intros Hm Hh w H. unfold try_catch. specialize (Hm w H).
  destruct (m w) as [[a|e] w1]; cbn in *; [| apply Hh]; exact Hm.
Qed.

Lemma preserves_console (l : LogLevel) (a : list LogArg) : preserves P (console_write l a).
Proof. intros w H. exact H. Qed.

Lemma preserves_Date_now : preserves P Date_now.
Proof. intros w H. exact H. Qed.

Lemma preserves_gateway (o : OrderOptions) : preserves P (razorpay_orders_create o).
Proof. intros w H. exact H. Qed.

Lemma preserves_supabase_call (c : StoreCall) : preserves P (supabase_call c).
Proof.
  intros w H. unfold supabase_call. cbn.
  destruct (store_answers w) as [|[e|] rest]; auto.
Qed.

Lemma preserves_throw_if (c : bool) (e : JsError) : preserves P (throw_if c e).
Proof. destruct c; [apply preserves_throw | apply preserves_ret]. Qed.

Lemma preserves_fail_on (e : option JsError) (label msg : string) :
  preserves P (fail_on e label msg).
Proof.
  destruct e; cbn; [| apply preserves_ret].
  apply preserves_bind; [apply preserves_console | intros; apply preserves_throw].
Qed.

Lemma preserves_log_on (e : option JsError) (label : string) : preserves P (log_on e label).
Proof. destruct e; [apply preserves_console | apply preserves_ret]. Qed.

Ltac preserved :=
  repeat first
    [ apply preserves_bind; [| intros ?]
    | apply preserves_try_catch; [| intros ?]
    | apply preserves_ret | apply preserves_throw | apply preserves_throw_if
    | apply preserves_console | apply preserves_Date_now | apply preserves_gateway
    | apply preserves_supabase_call | apply preserves_fail_on | apply preserves_log_on
    | match goal with |- preserves P (if ?b then _ else _) => destruct b end ].

Lemma preserves_verifyPaymentSignature env o p s :
  preserves P (verifyPaymentSignature env o p s).
Proof. unfold verifyPaymentSignature, console_error. preserved. Qed.

Lemma preserves_recordPaymentSuccess env a : preserves P (recordPaymentSuccess env a).
Proof.
  unfold recordPaymentSuccess, recordPaymentSuccess_try, persist_capture,
    console_log, console_warn, console_error.
  preserved; apply preserves_verifyPaymentSignature.
Qed.

Lemma preserves_route_persist o p s pl u : preserves P (route_persist o p s pl u).
Proof. unfold route_persist. preserved. Qed.

Lemma preserves_post_success env req : preserves P (post_success env req).
Proof.
  unfold post_success, console_error. preserved;
    first [apply preserves_recordPaymentSuccess | apply preserves_route_persist].
Qed.
End StoreInvariant.

(** Every call of [recordPaymentSuccess], whatever its outcome, leaves at
    most one subscription row per user. *)
Lemma recordPaymentSuccess_one_subscription_per_user env a w :
  one_subscription_per_user (store w) →
  one_subscription_per_user (store (world_after (recordPaymentSuccess env a) w)).
Proof.
  apply preserves_recordPaymentSuccess. apply apply_call_one_subscription_per_user.
Qed.

Lemma post_success_one_subscription_per_user env req w :
  one_subscription_per_user (store w) →
  one_subscription_per_user (store (world_after (post_success env req) w)).
Proof.
  apply preserves_post_success. apply apply_call_one_subscription_per_user.
Qed.

(** *** A reconciliation that reaches the store *)

Lemma first_error_split (n m : nat) (answers : list (option JsError)) :
  first_error (n + m) answers = None →
  first_error n answers = None ∧ first_error m (drop n answers) = None.
Proof.
  revert answers. induction n as [|n IH]; intros answers H; cbn in *.
  - split; [reflexivity | now rewrite drop_0].
  - destruct answers as [|[e|] rest]; cbn in *; try discriminate.
    + split; [reflexivity | now destruct m].
    + destruct (first_error (n + m) rest) as [[k e]|] eqn:E; [discriminate |].
      destruct (IH rest E) as [H1 H2]. now rewrite H1.
Qed.

Lemma recordPaymentSuccess_run_ok env orderId paymentId signature plan userId w :
  supabaseAdmin env = true →
  missing_parameters (valid_args orderId paymentId signature plan userId) = false →
  signature_ok env (Some orderId) (Some paymentId) (Some signature) = true →
  in_catalog plan = true →
  first_error 3 (store_answers w) = None →
  ∃ r w',
    recordPaymentSuccess env (valid_args orderId paymentId signature plan userId) w
      = (Return r, w')
    ∧ res_success r = true
    ∧ clock w' = clock w
    ∧ clock_reads w' = 4 + clock_reads w
    ∧ store_answers w' = drop 3 (store_answers w)
    ∧ payments (store w')
      = map (capture_payment paymentId signature "captured"
               (toISOString (clock w (clock_reads w))) orderId userId)
            (payments (store w))
    ∧ subscriptions (store w')
      = upsert_subscription
          (reconciled_subscription paymentId plan userId
             (clock w (1 + clock_reads w)) (clock w (2 + clock_reads w)))
          (subscriptions (store w))
    ∧ profiles (store w') = map (set_profile_plan plan userId) (profiles (store w)).
Proof.
  intros Hdb Hm Hv Hp Hans.
  unfold signature_ok in Hv. apply andb_true_iff in Hv as [Hs Hv].
  apply in_catalog_own in Hp as [c Hc].
  unfold recordPaymentSuccess, recordPaymentSuccess_try, persist_capture,
    verifyPaymentSignature, valid_args in *.
  unfold_monad. destruct w as [con clk reads gw gwc st ans calls].
  change (PLAN_CONFIGS_get (to_str (Some plan)) = OwnPlan c) in Hc.
  cbn [arg_orderId arg_paymentId arg_signature arg_plan arg_userId].
  rewrite Hm, Hs, Hc, Hdb. cbn. cbn in Hv. rewrite Hv. cbn.
  destruct ans as [|[e0|] [|[e1|] [|[e2|] ans]]]; cbn in *; try discriminate;
    do 2 eexists; repeat split.
Qed.

(** C9 as stated fails: the period start and the period end come from two
    readings of the clock, so on a clock that ticks between them the end is
    not the start plus 30 days. *)
Lemma reconcile_twice_period_end_not_start_plus_30_days :
  subscriptions (store sample_world_reconciled_twice)
  = [ {| sub_user_id := "u1"; sub_plan_id := "pro"; sub_provider := Some "razorpay";
         sub_status := "active"; sub_razorpay_payment_id := "pay_1";
         sub_current_period_start := toISOString 1700000000005;
         sub_current_period_end := toISOString 1702592000006 |} ]
  ∧ (1702592000006 ≠ 1700000000005 + thirty_days_ms)%Z.
Proof. split; [vm_compute; reflexivity | vm_compute; discriminate]. Qed.

(** C9, amended. With the database client configured and answering without
    error, two calls of [recordPaymentSuccess] on the same valid inputs both
    succeed, and after each the user has exactly one subscription row: the
    plan, provider [razorpay], status [active] and payment id of the input,
    a period start read from the clock during that call and a period end 30
    days after a second reading of the clock. The second call overwrites the
    row of the first, the rows of other users stay as they were, and no user
    has two rows. *)
Theorem reconcile_twice_subscription env orderId paymentId signature plan userId w :
  let a := valid_args orderId paymentId signature plan userId in
  supabaseAdmin env = true →
  missing_parameters a = false →
  result_of (verifyPaymentSignature env (Some orderId) (Some paymentId) (Some signature)) w
    = Return true →
  in_catalog plan = true →
  first_error 6 (store_answers w) = None →
  one_subscription_per_user (store w) →
  let w1 := world_after (recordPaymentSuccess env a) w in
  let w2 := world_after (recordPaymentSuccess env a) w1 in
  (∃ r1 r2, result_of (recordPaymentSuccess env a) w = Return r1
            ∧ result_of (recordPaymentSuccess env a) w1 = Return r2
            ∧ res_success r1 = true ∧ res_success r2 = true)
  ∧ subscriptions_of userId (store w1)
    = [reconciled_subscription paymentId plan userId
         (clock w (1 + clock_reads w)) (clock w (2 + clock_reads w))]
  ∧ subscriptions_of userId (store w2)
    = [reconciled_subscription paymentId plan userId
         (clock w (5 + clock_reads w)) (clock w (6 + clock_reads w))]
  ∧ (∀ other, other ≠ userId →
       subscriptions_of other (store w2) = subscriptions_of other (store w))
  ∧ one_subscription_per_user (store w2).
Proof.
  intros a Hdb Hm Hv Hp Hans Huniq w1 w2.
  rewrite verifyPaymentSignature_run in Hv. injection Hv as Hv.
  apply (first_error_split 3 3) in Hans as [Hans1 Hans2].
  destruct (recordPaymentSuccess_run_ok env orderId paymentId signature plan userId w
              Hdb Hm Hv Hp Hans1)
    as (r1 & v1 & Hrun1 & Hr1 & Hclk1 & Hreads1 & Ha1 & _ & Hsub1 & _).
  assert (Hw1 : w1 = v1) by (unfold w1, world_after, a; now rewrite Hrun1).
  rewrite <- Hw1 in *. clear Hw1.
  rewrite <- Ha1 in Hans2.
  destruct (recordPaymentSuccess_run_ok env orderId paymentId signature plan userId w1
              Hdb Hm Hv Hp Hans2)
    as (r2 & v2 & Hrun2 & Hr2 & _ & _ & _ & _ & Hsub2 & _).
  assert (Hw2 : w2 = v2) by (unfold w2, world_after, a; now rewrite Hrun2).
  rewrite <- Hw2 in *. clear Hw2.
  rewrite Hclk1, Hreads1 in Hsub2.
  assert (Huniq1 : NoDup (map sub_user_id (subscriptions (store w1))))
    by (rewrite Hsub1; apply upsert_NoDup, Huniq).
  unfold subscriptions_of, one_subscription_per_user.
  repeat split.
  - exists r1, r2. unfold result_of, a. rewrite Hrun1, Hrun2. auto.
  - rewrite Hsub1.
    apply (upsert_filter_same (reconciled_subscription paymentId plan userId _ _));
      [cbn; eauto | exact Huniq].
  - rewrite Hsub2.
    apply (upsert_filter_same (reconciled_subscription paymentId plan userId _ _));
      [cbn; eauto | exact Huniq1].
  - intros other Hother. rewrite Hsub2, upsert_filter_other by exact Hother.
    rewrite Hsub1, upsert_filter_other by exact Hother. reflexivity.
  - rewrite Hsub2. apply upsert_NoDup, Huniq1.
Qed.

Lemma reconcile_twice_subscription_witness :
  (supabaseAdmin sample_env = true
   ∧ missing_parameters sample_args = false
   ∧ result_of (verifyPaymentSignature sample_env (Some "order_1") (Some "pay_1")
                  (Some sample_signature)) sample_world = Return true
   ∧ in_catalog "pro" = true
   ∧ first_error 6 (store_answers sample_world) = None
   ∧ one_subscription_per_user (store sample_world))
  ∧ subscriptions_of "u1" (store sample_world_reconciled_twice)
    = [reconciled_subscription "pay_1" "pro" "u1" 1700000000005 1700000000006].
Proof.
  assert (H1 : supabaseAdmin sample_env = true) by reflexivity.
  assert (H2 : missing_parameters sample_args = false) by reflexivity.
  assert (H3 : result_of (verifyPaymentSignature sample_env (Some "order_1") (Some "pay_1")
                            (Some sample_signature)) sample_world = Return true)
    by (vm_compute; reflexivity).
  assert (H4 : in_catalog "pro" = true) by reflexivity.
  assert (H5 : first_error 6 (store_answers sample_world) = None) by reflexivity.
  assert (H6 : one_subscription_per_user (store sample_world)) by apply NoDup_nil_2.
  split; [auto 10 |].
  exact (proj1 (proj2 (proj2
    (reconcile_twice_subscription sample_env "order_1" "pay_1" sample_signature "pro" "u1"
       sample_world H1 H2 H3 H4 H5 H6)))).
Defined.

(** ** Order creation *)

Lemma createRazorpayOrder_run env plan userId userEmail userName w c :
  truthy (RAZORPAY_KEY_ID env) = true → truthy (RAZORPAY_KEY_SECRET env) = true →
  lookup_truthy (PLAN_CONFIGS_get (to_str plan)) = true →
  PLAN_CONFIGS_get (to_str plan) = c →
  gateway_calls (world_after (createRazorpayOrder env plan userId userEmail userName) w)
  = (gateway_calls w
     ++ [ {| opt_amount := get_amount c;
             opt_currency := get_currency c;
             opt_receipt := receipt_of plan userId (clock w (clock_reads w));
             opt_notes := {| note_plan := plan; note_userId := userId;
                             note_userEmail := Some (default "" userEmail);
                             note_userName := Some (default "Ace User" userName) |} |} ])%list.
Proof.
  intros Hid Hsec Ht Hc. unfold createRazorpayOrder. unfold_monad.
  destruct w as [con clk reads gw gwc st ans calls]. rewrite Hid, Hsec. cbn.
  rewrite Ht. cbn. rewrite Hc.
  destruct (gw _); reflexivity.
Qed.

(** C5. For a plan of the catalog and any [userId], the receipt
    [createRazorpayOrder] sends to the gateway is the first 40 characters of
    ["ace_"], the plan id, ["_"], the first 10 characters of the user id,
    ["_"] and the millisecond clock in decimal; it has at most 40
    characters. *)
Theorem createRazorpayOrder_receipt env plan userId userEmail userName w :
  truthy (RAZORPAY_KEY_ID env) = true → truthy (RAZORPAY_KEY_SECRET env) = true →
  in_catalog plan = true →
  ∃ options,
    gateway_calls (world_after
        (createRazorpayOrder env (Some plan) (Some userId) userEmail userName) w)
      = (gateway_calls w ++ [options])%list
    ∧ opt_receipt options
      = slice0 40 ("ace_" ++ plan ++ "_" ++ slice0 10 userId ++ "_"
                   ++ Number_toString (clock w (clock_reads w)))
    ∧ (String.length (opt_receipt options) <= 40)%nat.
Proof.
  intros Hid Hsec Hp. apply in_catalog_own in Hp as [c Hc].
  eexists. split; [| split].
  - apply createRazorpayOrder_run; [exact Hid | exact Hsec | | reflexivity].
    change (to_str (Some plan)) with plan. now rewrite Hc.
  - cbn [opt_receipt]. unfold receipt_of. now rewrite or_else_string.
  - apply length_slice0.
Qed.

Lemma createRazorpayOrder_receipt_witness :
  (truthy (RAZORPAY_KEY_ID sample_env) = true
   ∧ truthy (RAZORPAY_KEY_SECRET sample_env) = true
   ∧ in_catalog "pro_plus" = true)
  ∧ ∃ options,
      gateway_calls (world_after
          (createRazorpayOrder sample_env (Some "pro_plus") (Some long_user_id) None None)
          sample_world)
        = (gateway_calls sample_world ++ [options])%list
      ∧ opt_receipt options
        = slice0 40 ("ace_" ++ "pro_plus" ++ "_" ++ slice0 10 long_user_id ++ "_"
                     ++ Number_toString (clock sample_world (clock_reads sample_world)))
      ∧ (String.length (opt_receipt options) <= 40)%nat.
Proof.
  split; [repeat split |].
  apply (createRazorpayOrder_receipt sample_env "pro_plus" long_user_id None None sample_world);
    reflexivity.
Defined.

Example receipt_long_user_id :
  String.length long_user_id = 1000
  ∧ receipt_of (Some "pro_plus") (Some long_user_id) 1700000000000
    = "ace_pro_plus_xxxxxxxxxx_1700000000000".
Proof. vm_compute. split; reflexivity. Qed.

Example receipt_empty_user_id :
  receipt_of (Some "ultra") (Some "") 1700000000000 = "ace_ultra__1700000000000".
Proof. vm_compute. reflexivity. Qed.

Example receipt_truncated :
  receipt_of (Some "pro_plus") (Some "0123456789abcdef") 100000000000000000000
  = "ace_pro_plus_0123456789_1000000000000000".
Proof. vm_compute. reflexivity. Qed.

(** A plan name that [PLAN_CONFIGS[plan]] does not resolve at all is
    rejected before the gateway is called. *)
Lemma createRazorpayOrder_undefined_plan env plan userId userEmail userName w :
  truthy (RAZORPAY_KEY_ID env) = true → truthy (RAZORPAY_KEY_SECRET env) = true →
  PLAN_CONFIGS_get plan = Undefined →
  result_of (createRazorpayOrder env (Some plan) userId userEmail userName) w
    = Throw (Error ("Invalid plan: " ++ plan))
  ∧ gateway_calls (world_after (createRazorpayOrder env (Some plan) userId userEmail userName) w)
    = gateway_calls w.
Proof.
  intros Hid Hsec Hu. unfold createRazorpayOrder. unfold_monad.
  destruct w as [con clk reads gw gwc st ans calls]. rewrite Hid, Hsec. cbn.
  change (default "undefined" (Some plan)) with plan.
  rewrite Hu. cbn. split; reflexivity.
Qed.

(** C6 fails on the code: ["constructor"] is not a plan of the catalog, yet
    [PLAN_CONFIGS["constructor"]] is truthy, so [createRazorpayOrder] sends
    the gateway a request, one without amount and currency, and what it
    then returns or throws is the gateway's answer. *)
Theorem createRazorpayOrder_inherited_plan_reaches_gateway :
  in_catalog "constructor" = false
  ∧ gateway_calls (world_after
        (createRazorpayOrder sample_env (Some "constructor") (Some "u1") None None)
        sample_world)
    = [ {| opt_amount := None; opt_currency := None;
           opt_receipt := "ace_constructor_u1_1700000000000";
           opt_notes := {| note_plan := Some "constructor"; note_userId := Some "u1";
                           note_userEmail := Some ""; note_userName := Some "Ace User" |} |} ]
  ∧ result_of (createRazorpayOrder sample_env (Some "constructor") (Some "u1") None None)
              sample_world
    ≠ Throw (Error "Invalid plan: constructor").
Proof. vm_compute. repeat split. discriminate. Qed.

(** The plan check of [recordPaymentSuccess] reads [PLAN_CONFIGS] the same
    way: an inherited name passes it and is written to the store. *)
Example reconcile_inherited_plan :
  ∃ r, result_of (recordPaymentSuccess sample_env args_inherited_plan) sample_world = Return r
       ∧ res_planName r = "Object" ∧ res_amount r = 0%Z ∧ res_currency r = "INR"
       ∧ map sub_plan_id
             (subscriptions (store (world_after
                (recordPaymentSuccess sample_env args_inherited_plan) sample_world)))
         = ["constructor"].
Proof. vm_compute. eexists. repeat split. Qed.

Lemma assoc_Some_In {A : Type} (k : string) (l : list (string * A)) (v : A) :
  assoc k l = Some v → In k (map fst l).
Proof.
  induction l as [|[k' v'] rest IH]; cbn; [discriminate |].
  destruct (String.eqb_spec k k'); auto.
Qed.

Lemma inherited_names_reach_gateway env plan userId userEmail userName w :
  truthy (RAZORPAY_KEY_ID env) = true → truthy (RAZORPAY_KEY_SECRET env) = true →
  is_Some (assoc plan Object_prototype) →
  in_catalog plan = false
  ∧ length (gateway_calls (world_after
              (createRazorpayOrder env (Some plan) userId userEmail userName) w))
    = S (length (gateway_calls w)).
Proof.
  intros Hid Hsec [f Hf].
  assert (Hown : assoc plan PLAN_CONFIGS = None).
  { apply assoc_Some_In in Hf. cbn in Hf.
    repeat (destruct Hf as [<-|Hf]; [reflexivity |]). destruct Hf. }
  split.
  - unfold in_catalog. rewrite Hown. reflexivity.
  - erewrite createRazorpayOrder_run; [| exact Hid | exact Hsec | | reflexivity].
    + rewrite length_app. cbn. lia.
    + change (to_str (Some plan)) with plan. unfold PLAN_CONFIGS_get.
      rewrite Hown, Hf. reflexivity.
Qed.

(** ** The callback route *)

(** C4 as stated fails: a callback whose signature comes in the query
    string only is verified with an empty signature, reconciliation fails
    and the answer is a 500, not a redirect. *)
Lemma post_success_signature_in_query_is_500 :
  query callback_signature_in_query !! "razorpay_signature" = Some sample_signature
  ∧ arg_signature (callback_args callback_signature_in_query) = Some ""
  ∧ result_of (post_success sample_env callback_signature_in_query) sample_world
    = Return (Send 500 "Payment verification failed.").
Proof. vm_compute. repeat split. Qed.

(** C4, amended. [POST /success] answers with the redirect to the success
    page, carrying [paymentId], [orderId], [signature] and [plan], exactly
    when [recordPaymentSuccess] returns, whatever the database client
    answers to the route's own three calls; when [recordPaymentSuccess]
    throws it answers 500. [plan] and [userId] are read from the body and,
    when missing there, from the query string; the three gateway fields are
    read from the body alone and are empty when missing there. *)
Theorem post_success_response env req w :
  result_of (post_success env req) w
  = match result_of (recordPaymentSuccess env (callback_args req)) w with
    | Return _ =>
        Return (Redirect (success_location
                            (or_else (body req !! "razorpay_payment_id") "")
                            (or_else (body req !! "razorpay_order_id") "")
                            (or_else (body req !! "razorpay_signature") "")
                            (or_else (body req !! "plan") (or_else (query req !! "plan") ""))))
    | Throw _ => Return (Send 500 "Payment verification failed.")
    end
  ∧ (empty_or_absent (body req !! "plan") →
     arg_plan (callback_args req) = Some (or_else (query req !! "plan") ""))
  ∧ (empty_or_absent (body req !! "userId") →
     arg_userId (callback_args req) = Some (or_else (query req !! "userId") ""))
  ∧ (∀ q, let req' := {| body := body req; query := q |} in
          arg_orderId (callback_args req') = arg_orderId (callback_args req)
          ∧ arg_paymentId (callback_args req') = arg_paymentId (callback_args req)
          ∧ arg_signature (callback_args req') = arg_signature (callback_args req))
  ∧ (empty_or_absent (body req !! "razorpay_signature") →
     arg_signature (callback_args req) = Some "").
Proof.
  split; [| repeat split].
  - unfold post_success, callback_args, result_of, try_catch, mbind, M_bind.
    destruct (recordPaymentSuccess env _ w) as [[r|e] w1]; cbn [fst]; [| reflexivity].
    destruct (supabaseAdmin env).
    + pose proof (proj1 (route_persist_run
                    (or_else (body req !! "razorpay_order_id") "")
                    (or_else (body req !! "razorpay_payment_id") "")
                    (or_else (body req !! "razorpay_signature") "")
                    (or_else (body req !! "plan") (or_else (query req !! "plan") ""))
                    (or_else (body req !! "userId") (or_else (query req !! "userId") ""))
                    w1)) as H.
      unfold result_of in H. destruct (route_persist _ _ _ _ _ w1) as [[[]|e] w2];
        cbn in H; [reflexivity | discriminate].
    + reflexivity.
  - intros H. apply truthy_empty_or_absent in H. cbn. unfold or_else at 1. now rewrite H.
  - intros H. apply truthy_empty_or_absent in H. cbn. unfold or_else at 1. now rewrite H.
  - intros H. apply truthy_empty_or_absent in H. cbn. unfold or_else. now rewrite H.
Qed.

Lemma post_success_response_witness :
  empty_or_absent (body callback_plan_in_query !! "plan")
  ∧ arg_plan (callback_args callback_plan_in_query)
    = Some (or_else (query callback_plan_in_query !! "plan") "")
  ∧ result_of (post_success sample_env callback_plan_in_query) sample_world_db_lost
    = Return (Redirect
        "/success?paymentId=pay_1&orderId=order_1&signature=52115a0d3400de9e86aade1f1b6eba9e8974604f4e267a9e9a16633a4c8dd2cb&plan=pro").
Proof.
  assert (H : empty_or_absent (body callback_plan_in_query !! "plan"))
    by (left; vm_compute; reflexivity).
  split; [exact H |].
  split; [exact (proj1 (proj2
            (post_success_response sample_env callback_plan_in_query sample_world_db_lost)) H) |].
  rewrite (proj1 (post_success_response sample_env callback_plan_in_query
                                        sample_world_db_lost)).
  vm_compute. reflexivity.
Defined.

(** ** End to end *)

Example getAllPlans_in_declaration_order :
  map fst getAllPlans = ["pro"; "pro_plus"; "ultra"]
  ∧ map (fun p => amount (snd p)) getAllPlans = [100; 100; 100]%Z.
Proof. split; reflexivity. Qed.

Example verify_payment_route_missing_field :
  result_of (post_verify_payment sample_env create_order_request) sample_world
  = Return (Json 400 (JsonError "Missing required parameters")).
Proof. vm_compute. reflexivity. Qed.

(** An order for plan [pro] by [u1] is stored as a pending payment; the
    signed callback then captures it, activates the subscription and sets
    the plan of the profile. *)
Example create_order_then_callback :
  store (world_after (post_create_order sample_env create_order_request) world_with_profile)
  = {| payments :=
         [ {| pay_user_id := "u1"; pay_provider := "razorpay";
              pay_razorpay_order_id := "order_1"; pay_amount := Some 100%Z;
              pay_currency := "INR"; pay_status := "pending"; pay_plan_id := "pro";
              pay_metadata := (Some "Pro", Some "Most popular choice");
              pay_razorpay_payment_id := None; pay_razorpay_signature := None;
              pay_updated_at := None |} ];
       subscriptions := [];
       profiles := [ {| profile_id := "u1"; profile_plan := None |} ] |}
  ∧ store (world_after (post_success sample_env callback_request)
             (world_after (post_create_order sample_env create_order_request)
                          world_with_profile))
    = {| payments :=
           [ {| pay_user_id := "u1"; pay_provider := "razorpay";
                pay_razorpay_order_id := "order_1"; pay_amount := Some 100%Z;
                pay_currency := "INR"; pay_status := "captured"; pay_plan_id := "pro";
                pay_metadata := (Some "Pro", Some "Most popular choice");
                pay_razorpay_payment_id := Some "pay_1";
                pay_razorpay_signature := Some sample_signature;
                pay_updated_at := Some (toISOString 1700000000005) |} ];
         subscriptions :=
           [ {| sub_user_id := "u1"; sub_plan_id := "pro";
                sub_provider := Some "razorpay"; sub_status := "active";
                sub_razorpay_payment_id := "pay_1";
                sub_current_period_start := toISOString 1700000000006;
                sub_current_period_end := toISOString 1702592000007 |} ];
         profiles := [ {| profile_id := "u1"; profile_plan := Some "pro" |} ] |}.
Proof. vm_compute. split; reflexivity. Qed.

(** * Further properties *)

(** ** The shape of an accepted signature *)

Lemma length_compress (h : list Z) (block : crypto.bytes) :
  length h = 8 → length (crypto.compress h block) = 8.
Proof.
  intros H. unfold crypto.compress. rewrite length_map, length_combine, H. reflexivity.
Qed.

Lemma length_fold_compress (bs : list crypto.bytes) (h : list Z) :
  length h = 8 → length (fold_left crypto.compress bs h) = 8.
Proof.
  revert h. induction bs as [|b bs IH]; intros h H; cbn; [exact H |].
  apply IH, length_compress, H.
Qed.

Lemma length_flat_map_bytes_of_word (ws : list Z) :
  length (flat_map crypto.bytes_of_word ws) = 4 * length ws.
Proof. induction ws as [|x ws IH]; cbn; [reflexivity | rewrite IH; lia]. Qed.

Lemma length_sha256 (msg : crypto.bytes) : length (crypto.sha256 msg) = 32.
Proof.
  unfold crypto.sha256. rewrite length_flat_map_bytes_of_word, length_fold_compress; reflexivity.
Qed.

Lemma land_255_is_byte (x : Z) : is_byte (Z.land x 0xff).
Proof.
  unfold is_byte. change 0xff%Z with (Z.ones 8). rewrite Z.land_ones by lia.
  apply Z.mod_pos_bound. reflexivity.
Qed.

Lemma sha256_bytes (msg : crypto.bytes) : Forall is_byte (crypto.sha256 msg).
Proof.
  unfold crypto.sha256. generalize (fold_left crypto.compress
    (crypto.blocks (length (crypto.pad msg) / 64) (crypto.pad msg)) crypto.H256).
  intros ws. induction ws as [|x ws IH]; cbn; [constructor |].
  repeat (constructor; [apply land_255_is_byte |]). exact IH.
Qed.

Lemma hex_digit_lower (d : Z) :
  (0 <= d < 16)%Z → is_lower_hex (crypto.hex_digit d) = true.
Proof.
  intros H.
  assert (E : (d = 0 ∨ d = 1 ∨ d = 2 ∨ d = 3 ∨ d = 4 ∨ d = 5 ∨ d = 6 ∨ d = 7 ∨ d = 8
               ∨ d = 9 ∨ d = 10 ∨ d = 11 ∨ d = 12 ∨ d = 13 ∨ d = 14 ∨ d = 15)%Z) by lia.
  repeat (destruct E as [->|E]; [reflexivity |]). subst d. reflexivity.
Qed.

Lemma hex_of_bytes (bs : crypto.bytes) :
  Forall is_byte bs →
  String.length (crypto.hex bs) = 2 * length bs
  ∧ string_forall is_lower_hex (crypto.hex bs) = true.
Proof.
  induction 1 as [|b bs Hb _ [IHl IHc]]; cbn -[is_lower_hex crypto.hex_digit];
    [split; reflexivity |].
  split; [rewrite IHl; lia |].
  unfold is_byte in Hb.
  rewrite !hex_digit_lower, IHc; [reflexivity | |].
  - change 0xf%Z with (Z.ones 4). rewrite Z.land_ones by lia.
    apply Z.mod_pos_bound. reflexivity.
  - rewrite Z.shiftr_div_pow2 by lia. change (2 ^ 4)%Z with 16%Z.
    split; [apply Z.div_pos; lia | apply Z.div_lt_upper_bound; lia].
Qed.

Lemma hex_sha256_shape (msg : crypto.bytes) :
  String.length (crypto.hex (crypto.sha256 msg)) = 64
  ∧ string_forall is_lower_hex (crypto.hex (crypto.sha256 msg)) = true.
Proof.
  destruct (hex_of_bytes _ (sha256_bytes msg)) as [Hl Hc].
  rewrite length_sha256 in Hl. split; [exact Hl | exact Hc].
Qed.

Lemma hmac_sha256_hex_shape (key data : string) :
  String.length (crypto.createHmac_sha256_hex key data) = 64
  ∧ string_forall is_lower_hex (crypto.createHmac_sha256_hex key data) = true.
Proof. apply hex_sha256_shape. Qed.

(** X1. A signature that [verifyPaymentSignature] accepts has exactly 64
    characters, all of them lowercase hexadecimal digits: an empty,
    shortened, extended or uppercase signature is never accepted. *)
Theorem accepted_signature_is_64_lowercase_hex env orderId paymentId sig w :
  result_of (verifyPaymentSignature env orderId paymentId (Some sig)) w = Return true →
  String.length sig = 64 ∧ string_forall is_lower_hex sig = true.
Proof.
  rewrite verifyPaymentSignature_run. intros H. injection H as H.
  unfold signature_ok in H. apply andb_true_iff in H as [_ H].
  apply bool_decide_eq_true in H. injection H as <-.
  apply hmac_sha256_hex_shape.
Qed.

Lemma accepted_signature_is_64_lowercase_hex_witness :
  result_of (verifyPaymentSignature sample_env (Some "order_1") (Some "pay_1")
               (Some sample_signature)) sample_world = Return true
  ∧ String.length sample_signature = 64
  ∧ string_forall is_lower_hex sample_signature = true.
Proof.
  assert (H : result_of (verifyPaymentSignature sample_env (Some "order_1") (Some "pay_1")
                           (Some sample_signature)) sample_world = Return true)
    by (vm_compute; reflexivity).
  split; [exact H |].
  exact (accepted_signature_is_64_lowercase_hex sample_env _ _ _ sample_world H).
Defined.

(** X2. The signature covers the joined string [orderId + "|" + paymentId]
    and nothing else: two pairs of identifiers with the same joined string
    are accepted or rejected together, so a ["|"] inside an identifier can
    move from one field to the other unnoticed. *)
Theorem signature_binds_joined_string env o1 p1 o2 p2 signature w :
  o1 ++ "|" ++ p1 = o2 ++ "|" ++ p2 →
  result_of (verifyPaymentSignature env (Some o1) (Some p1) signature) w
  = result_of (verifyPaymentSignature env (Some o2) (Some p2) signature) w.
Proof.
  intros H. rewrite !verifyPaymentSignature_run. unfold signature_ok.
  cbn [to_str]. change (to_str (Some o1)) with o1. change (to_str (Some p1)) with p1.
  change (to_str (Some o2)) with o2. change (to_str (Some p2)) with p2.
  now rewrite H.
Qed.

Lemma signature_binds_joined_string_witness :
  "a|b" ++ "|" ++ "c" = "a" ++ "|" ++ "b|c"
  ∧ result_of (verifyPaymentSignature sample_env (Some "a|b") (Some "c")
                 (Some (expected_signature "secret" "a" "b|c"))) sample_world
    = result_of (verifyPaymentSignature sample_env (Some "a") (Some "b|c")
                   (Some (expected_signature "secret" "a" "b|c"))) sample_world.
Proof.
  split; [reflexivity |].
  apply (signature_binds_joined_string sample_env "a|b" "c" "a" "b|c"). reflexivity.
Defined.

Example joined_string_accepted_both_ways :
  result_of (verifyPaymentSignature sample_env (Some "a|b") (Some "c")
               (Some (expected_signature "secret" "a" "b|c"))) sample_world = Return true.
Proof. vm_compute. reflexivity. Qed.

(** ** Order creation: errors, the request, the receipt *)

Lemma assoc_None_not_In {A : Type} (k : string) (l : list (string * A)) :
  ¬ In k (map fst l) → assoc k l = None.
Proof.
  induction l as [|[k' v'] rest IH]; cbn; [reflexivity |].
  intros H. destruct (String.eqb_spec k k') as [->|_]; [tauto | apply IH; tauto].
Qed.

(** X3. Without a key id or a key secret, [createRazorpayOrder] throws
    "Razorpay credentials not configured" for every plan, before it reads
    the clock or calls the gateway. *)
Theorem createRazorpayOrder_without_credentials env plan userId userEmail userName w :
  empty_or_absent (RAZORPAY_KEY_ID env) ∨ empty_or_absent (RAZORPAY_KEY_SECRET env) →
  result_of (createRazorpayOrder env plan userId userEmail userName) w
    = Throw (Error "Razorpay credentials not configured")
  ∧ gateway_calls (world_after (createRazorpayOrder env plan userId userEmail userName) w)
    = gateway_calls w
  ∧ clock_reads (world_after (createRazorpayOrder env plan userId userEmail userName) w)
    = clock_reads w.
Proof.
  rewrite <- !truthy_empty_or_absent. intros H.
  assert (Hc : negb (truthy (RAZORPAY_KEY_ID env)) || negb (truthy (RAZORPAY_KEY_SECRET env))
               = true) by (destruct H as [-> | ->]; [reflexivity | apply orb_true_r]).
  unfold createRazorpayOrder. unfold_monad. destruct w. rewrite Hc. cbn. auto.
Qed.

Lemma createRazorpayOrder_without_credentials_witness :
  empty_or_absent (RAZORPAY_KEY_SECRET sample_env_no_secret)
  ∧ result_of (createRazorpayOrder sample_env_no_secret (Some "pro") (Some "u1") None None)
              sample_world
    = Throw (Error "Razorpay credentials not configured").
Proof.
  assert (H : empty_or_absent (RAZORPAY_KEY_SECRET sample_env_no_secret))
    by (left; reflexivity).
  split; [exact H |].
  exact (proj1 (createRazorpayOrder_without_credentials sample_env_no_secret
                  (Some "pro") (Some "u1") None None sample_world (or_intror H))).
Defined.

(** X4. A plan, given or absent, whose name is neither a key of
    [PLAN_CONFIGS] nor a property name of [Object.prototype] is rejected
    with "Invalid plan: <name>", and the gateway is not called. *)
Theorem createRazorpayOrder_unknown_plan env plan userId userEmail userName w :
  truthy (RAZORPAY_KEY_ID env) = true → truthy (RAZORPAY_KEY_SECRET env) = true →
  ¬ In (to_str plan) (map fst PLAN_CONFIGS) →
  ¬ In (to_str plan) (map fst Object_prototype) →
  result_of (createRazorpayOrder env plan userId userEmail userName) w
    = Throw (Error ("Invalid plan: " ++ to_str plan))
  ∧ gateway_calls (world_after (createRazorpayOrder env plan userId userEmail userName) w)
    = gateway_calls w.
Proof.
  intros Hid Hsec Hown Hproto.
  assert (Hu : PLAN_CONFIGS_get (to_str plan) = Undefined).
  { unfold PLAN_CONFIGS_get.
    now rewrite (assoc_None_not_In _ _ Hown), (assoc_None_not_In _ _ Hproto). }
  unfold createRazorpayOrder. unfold_monad.
  destruct w as [con clk reads gw gwc st ans calls]. rewrite Hid, Hsec. cbn.
  rewrite Hu. cbn. split; reflexivity.
Qed.

Lemma createRazorpayOrder_unknown_plan_witness :
  (truthy (RAZORPAY_KEY_ID sample_env) = true
   ∧ truthy (RAZORPAY_KEY_SECRET sample_env) = true
   ∧ ¬ In (to_str None) (map fst PLAN_CONFIGS)
   ∧ ¬ In (to_str None) (map fst Object_prototype))
  ∧ result_of (createRazorpayOrder sample_env None (Some "u1") None None) sample_world
    = Throw (Error "Invalid plan: undefined").
Proof.
  assert (H1 : ¬ In (to_str None) (map fst PLAN_CONFIGS))
    by (cbn; intros H; repeat (destruct H as [H|H]; [discriminate |]); exact H).
  assert (H2 : ¬ In (to_str None) (map fst Object_prototype))
    by (cbn; intros H; repeat (destruct H as [H|H]; [discriminate |]); exact H).
  split; [repeat split; assumption |].
  exact (proj1 (createRazorpayOrder_unknown_plan sample_env None (Some "u1") None None
                  sample_world eq_refl eq_refl H1 H2)).
Defined.

(** X5. For a plan of the catalog [createRazorpayOrder] calls the gateway
    exactly once; the amount and the currency of the request are the
    catalog's, whatever the caller passes, and absent [userEmail] and
    [userName] are sent as [""] and ["Ace User"]. When the gateway answers
    with an order, that order's id, amount, currency, receipt and status are
    returned with the catalog's name and description of the plan. *)
Theorem createRazorpayOrder_catalog_plan env plan c userId userEmail userName w :
  truthy (RAZORPAY_KEY_ID env) = true → truthy (RAZORPAY_KEY_SECRET env) = true →
  assoc plan PLAN_CONFIGS = Some c →
  ∃ options,
    gateway_calls (world_after
        (createRazorpayOrder env (Some plan) userId userEmail userName) w)
      = (gateway_calls w ++ [options])%list
    ∧ opt_amount options = Some (amount c)
    ∧ opt_currency options = Some (currency c)
    ∧ opt_notes options
      = {| note_plan := Some plan; note_userId := userId;
           note_userEmail := Some (default "" userEmail);
           note_userName := Some (default "Ace User" userName) |}
    ∧ (∀ order, gateway w options = Return order →
         result_of (createRazorpayOrder env (Some plan) userId userEmail userName) w
         = Return {| rec_id := order_id order;
                     rec_amount := order_amount order;
                     rec_currency := order_currency order;
                     rec_receipt := order_receipt order;
                     rec_status := order_status order;
                     rec_plan := Some plan;
                     rec_planName := Some (name c);
                     rec_planDescription := Some (description c) |}).
Proof.
  intros Hid Hsec Hc.
  assert (Hg : PLAN_CONFIGS_get plan = OwnPlan c) by (unfold PLAN_CONFIGS_get; now rewrite Hc).
  eexists. split; [| split; [| split; [| split]]].
  - apply createRazorpayOrder_run; [exact Hid | exact Hsec | | reflexivity].
    change (to_str (Some plan)) with plan. now rewrite Hg.
  - change (to_str (Some plan)) with plan. now rewrite Hg.
  - change (to_str (Some plan)) with plan. now rewrite Hg.
  - reflexivity.
  - intros order Ho. revert Ho. change (to_str (Some plan)) with plan. rewrite Hg.
    unfold createRazorpayOrder. unfold_monad.
    destruct w as [con clk reads gw gwc st ans calls]. rewrite Hid, Hsec. cbn.
    change (default "undefined" (Some plan)) with plan. rewrite Hg. cbn.
    intros ->. reflexivity.
Qed.

Lemma createRazorpayOrder_catalog_plan_witness :
  (truthy (RAZORPAY_KEY_ID sample_env) = true
   ∧ truthy (RAZORPAY_KEY_SECRET sample_env) = true
   ∧ assoc "ultra" PLAN_CONFIGS
     = Some {| name := "Ultra"; amount := 100; currency := "INR";
               description := "Power users with live tutor features" |})
  ∧ ∃ options,
      gateway_calls (world_after
          (createRazorpayOrder sample_env (Some "ultra") (Some "u1") None None) sample_world)
        = (gateway_calls sample_world ++ [options])%list
      ∧ opt_amount options = Some 100%Z.
Proof.
  split; [repeat split |].
  destruct (createRazorpayOrder_catalog_plan sample_env "ultra" _ (Some "u1") None None
              sample_world eq_refl eq_refl eq_refl) as (options & H1 & H2 & _).
  exists options. split; [exact H1 | exact H2].
Defined.

(** X6. When the gateway rejects the request, [createRazorpayOrder] throws
    an error whose message is the gateway's [error.description] when that
    is non-empty, else the rejection's [message] when that is non-empty,
    else "Failed to create payment order"; the message is never empty, and
    the gateway has been called once, without a retry. *)
Theorem createRazorpayOrder_gateway_rejects env plan userId userEmail userName w e :
  truthy (RAZORPAY_KEY_ID env) = true → truthy (RAZORPAY_KEY_SECRET env) = true →
  lookup_truthy (PLAN_CONFIGS_get (to_str plan)) = true →
  gateway w (order_request plan userId userEmail userName (clock w (clock_reads w)))
    = Throw e →
  let thrown :=
    if truthy (error_description e) then to_str (error_description e)
    else if truthy (message e) then to_str (message e)
    else "Failed to create payment order" in
  result_of (createRazorpayOrder env plan userId userEmail userName) w = Throw (Error thrown)
  ∧ thrown ≠ ""
  ∧ length (gateway_calls (world_after
              (createRazorpayOrder env plan userId userEmail userName) w))
    = S (length (gateway_calls w)).
Proof.
  intros Hid Hsec Ht Hg thrown.
  assert (Hb : bubble_message e = thrown).
  { subst thrown. unfold bubble_message, or_else, to_str, truthy.
    destruct (error_description e) as [d|]; destruct (message e) as [m|]; cbn;
      repeat (destruct (String.eqb _ _); cbn); reflexivity. }
  split; [| split].
  - unfold createRazorpayOrder. unfold_monad. unfold order_request in Hg.
    destruct w as [con clk reads gw gwc st ans calls]. rewrite Hid, Hsec. cbn in *.
    rewrite Ht. cbn. rewrite Hg. cbn. now rewrite Hb.
  - unfold thrown.
    destruct (error_description e) as [d|] eqn:Ed; cbn.
    + destruct (String.eqb_spec d ""); cbn; [| assumption].
      destruct (message e) as [m|]; cbn; [| discriminate].
      destruct (String.eqb_spec m ""); cbn; [discriminate | assumption].
    + destruct (message e) as [m|]; cbn; [| discriminate].
      destruct (String.eqb_spec m ""); cbn; [discriminate | assumption].
  - erewrite createRazorpayOrder_run; [| exact Hid | exact Hsec | exact Ht | reflexivity].
    rewrite length_app. cbn. lia.
Qed.

Lemma createRazorpayOrder_gateway_rejects_witness :
  (truthy (RAZORPAY_KEY_ID sample_env) = true
   ∧ truthy (RAZORPAY_KEY_SECRET sample_env) = true
   ∧ lookup_truthy (PLAN_CONFIGS_get (to_str (Some "pro"))) = true
   ∧ gateway sample_world_gateway_down
       (order_request (Some "pro") (Some "u1") None None
          (clock sample_world_gateway_down (clock_reads sample_world_gateway_down)))
     = Throw (gateway_error (Some "Request failed")
                            (Some "The amount must be atleast INR 1.00")))
  ∧ result_of (createRazorpayOrder sample_env (Some "pro") (Some "u1") None None)
              sample_world_gateway_down
    = Throw (Error "The amount must be atleast INR 1.00").
Proof.
  split; [repeat split |].
  exact (proj1 (createRazorpayOrder_gateway_rejects sample_env (Some "pro") (Some "u1")
                  None None sample_world_gateway_down _ eq_refl eq_refl eq_refl eq_refl)).
Defined.

Lemma length_append (s t : string) :
  String.length (s ++ t) = String.length s + String.length t.
Proof.
  induction s as [|c s IH]; [reflexivity |].
  change (String c s ++ t) with (String c (s ++ t)). cbn [String.length].
  now rewrite IH.
Qed.

Lemma slice0_short (n : nat) (s : string) :
  (String.length s <= n)%nat → slice0 n s = s.
Proof.
  unfold slice0. revert n. induction s as [|c s IH]; intros [|n] H; cbn in *;
    try reflexivity; try lia.
  rewrite IH by lia. reflexivity.
Qed.

Lemma length_digits (fuel k : nat) (n : Z) (acc : string) :
  (0 <= n < 10 ^ Z.of_nat (S k))%Z →
  (String.length (digits fuel n acc) <= S k + String.length acc)%nat.
Proof.
  revert k n acc. induction fuel as [|fuel IH]; intros k n acc H; cbn; [lia |].
  destruct (Z.ltb_spec n 10) as [Hlt|Hge]; cbn; [lia |].
  destruct k as [|k].
  - change (10 ^ Z.of_nat 1)%Z with 10%Z in H. lia.
  - specialize (IH k (n / 10)%Z (String (digit_char (n mod 10)) acc)).
    cbn in IH. etransitivity; [apply IH |]; [| lia].
    split; [apply Z.div_pos; lia |].
    apply Z.div_lt_upper_bound; [lia |].
    replace (Z.of_nat (S (S k))) with (Z.succ (Z.of_nat (S k))) in H by lia.
    rewrite Z.pow_succ_r in H by lia. lia.
Qed.

Lemma length_Number_toString (n : Z) :
  (0 <= n < 10 ^ 16)%Z → (String.length (Number_toString n) <= 16)%nat.
Proof.
  intros H. unfold Number_toString.
  destruct (Z.ltb_spec n 0) as [Hneg|_]; [lia |].
  pose proof (length_digits (S (Z.to_nat (Z.log2 n))) 15 n "" H) as Hd.
  etransitivity; [exact Hd | reflexivity].
Qed.

(** X7. For a plan of the catalog and a clock reading from 0 up to 10^16
    milliseconds, which covers every date JavaScript represents from 1970
    on, the cut at 40 characters removes nothing: the receipt sent to the
    gateway ends with the complete millisecond timestamp. *)
Theorem createRazorpayOrder_receipt_untruncated env plan userId userEmail userName w :
  truthy (RAZORPAY_KEY_ID env) = true → truthy (RAZORPAY_KEY_SECRET env) = true →
  in_catalog plan = true →
  (0 <= clock w (clock_reads w) < 10 ^ 16)%Z →
  ∃ options,
    gateway_calls (world_after
        (createRazorpayOrder env (Some plan) (Some userId) userEmail userName) w)
      = (gateway_calls w ++ [options])%list
    ∧ opt_receipt options
      = "ace_" ++ plan ++ "_" ++ slice0 10 userId ++ "_"
        ++ Number_toString (clock w (clock_reads w)).
Proof.
  intros Hid Hsec Hp Hnow.
  assert (Hlen : (String.length plan <= 8)%nat).
  { apply bool_decide_eq_true in Hp. destruct Hp as [c Hc].
    apply assoc_Some_In in Hc. cbn in Hc.
    repeat (destruct Hc as [<-|Hc]; [cbn; lia |]). destruct Hc. }
  apply in_catalog_own in Hp as [c Hc].
  eexists. split.
  - apply createRazorpayOrder_run; [exact Hid | exact Hsec | | reflexivity].
    change (to_str (Some plan)) with plan. now rewrite Hc.
  - cbn [opt_receipt]. unfold receipt_of. rewrite or_else_string.
    change (to_str (Some plan)) with plan.
    apply slice0_short.
    pose proof (length_slice0 10 userId). pose proof (length_Number_toString _ Hnow).
    rewrite !length_append. cbn [String.length]. lia.
Qed.

Lemma createRazorpayOrder_receipt_untruncated_witness :
  (truthy (RAZORPAY_KEY_ID sample_env) = true
   ∧ truthy (RAZORPAY_KEY_SECRET sample_env) = true
   ∧ in_catalog "pro_plus" = true
   ∧ (0 <= clock sample_world (clock_reads sample_world) < 10 ^ 16)%Z)
  ∧ ∃ options,
      gateway_calls (world_after
          (createRazorpayOrder sample_env (Some "pro_plus") (Some long_user_id) None None)
          sample_world)
        = (gateway_calls sample_world ++ [options])%list
      ∧ opt_receipt options
        = "ace_" ++ "pro_plus" ++ "_" ++ slice0 10 long_user_id ++ "_"
          ++ Number_toString (clock sample_world (clock_reads sample_world)).
Proof.
  assert (H : (0 <= clock sample_world (clock_reads sample_world) < 10 ^ 16)%Z)
    by (vm_compute; split; [discriminate | reflexivity]).
  split; [repeat split; apply H |].
  exact (createRazorpayOrder_receipt_untruncated sample_env "pro_plus" long_user_id None None
           sample_world eq_refl eq_refl eq_refl H).
Defined.

(** ** Reconciliation: when it succeeds and what it writes *)

(** X8. [recordPaymentSuccess] returns a result exactly when all five
    inputs are present, the signature verifies, the plan lookup is truthy
    and either no database client is configured or the client answers the
    three store calls without error; the result then carries
    [success: true] and the identifiers it was given. *)
Theorem recordPaymentSuccess_succeeds_iff env a w :
  ((∃ r, result_of (recordPaymentSuccess env a) w = Return r)
   ↔ missing_parameters a = false
     ∧ result_of (verifyPaymentSignature env (arg_orderId a) (arg_paymentId a)
                    (arg_signature a)) w = Return true
     ∧ lookup_truthy (PLAN_CONFIGS_get (to_str (arg_plan a))) = true
     ∧ (supabaseAdmin env = false ∨ first_error 3 (store_answers w) = None))
  ∧ (∀ r, result_of (recordPaymentSuccess env a) w = Return r →
          res_success r = true
          ∧ res_orderId r = arg_orderId a ∧ res_paymentId r = arg_paymentId a
          ∧ res_plan r = arg_plan a ∧ res_userId r = arg_userId a).
Proof.
  rewrite verifyPaymentSignature_run. unfold signature_ok.
  unfold recordPaymentSuccess, recordPaymentSuccess_try, persist_capture,
    verifyPaymentSignature.
  unfold_monad. destruct w as [con clk reads gw gwc st ans calls]. cbn.
  destruct (missing_parameters a); cbn;
    [split; [split; [intros [r H]; discriminate | intros (H & _); discriminate]
            | intros r H; discriminate] |].
  destruct (truthy (RAZORPAY_KEY_SECRET env)); cbn;
    [| split; [split; [intros [r H]; discriminate | intros (_ & H & _); discriminate]
              | intros r H; discriminate]].
  destruct (bool_decide _); cbn;
    [| split; [split; [intros [r H]; discriminate | intros (_ & H & _); discriminate]
              | intros r H; discriminate]].
  destruct (lookup_truthy (PLAN_CONFIGS_get (to_str (arg_plan a)))); cbn;
    [| split; [split; [intros [r H]; discriminate | intros (_ & _ & H & _); discriminate]
              | intros r H; discriminate]].
  destruct (supabaseAdmin env); cbn.
  - destruct ans as [|[e0|] [|[e1|] [|[e2|] ans]]]; cbn;
      (split;
       [ split;
         [ intros [r H]; try discriminate; repeat split; right; reflexivity
         | intros (_ & _ & _ & [H|H]); try discriminate; eexists; reflexivity ]
       | intros r H; try discriminate; injection H as <-; repeat split ]).
  - split; [split; [intros _; repeat split; left; reflexivity | intros _; eexists; reflexivity]
           | intros r H; injection H as <-; repeat split].
Qed.

Lemma recordPaymentSuccess_succeeds_iff_witness :
  (missing_parameters sample_args = false
   ∧ result_of (verifyPaymentSignature sample_env (arg_orderId sample_args)
                  (arg_paymentId sample_args) (arg_signature sample_args))
               sample_world = Return true
   ∧ lookup_truthy (PLAN_CONFIGS_get (to_str (arg_plan sample_args))) = true
   ∧ (supabaseAdmin sample_env = false ∨ first_error 3 (store_answers sample_world) = None))
  ∧ ∃ r, result_of (recordPaymentSuccess sample_env sample_args) sample_world = Return r.
Proof.
  assert (H : missing_parameters sample_args = false
              ∧ result_of (verifyPaymentSignature sample_env (arg_orderId sample_args)
                             (arg_paymentId sample_args) (arg_signature sample_args))
                          sample_world = Return true
              ∧ lookup_truthy (PLAN_CONFIGS_get (to_str (arg_plan sample_args))) = true
              ∧ (supabaseAdmin sample_env = false
                 ∨ first_error 3 (store_answers sample_world) = None)).
  { split; [reflexivity |]. split; [vm_compute; reflexivity |].
    split; [reflexivity | right; reflexivity]. }
  split; [exact H |].
  exact (proj2 (proj1 (recordPaymentSuccess_succeeds_iff sample_env sample_args sample_world))
               H).
Defined.

(** X9. The three store calls are not a transaction: when the payment
    update succeeds and the subscription upsert returns an error,
    [recordPaymentSuccess] fails, the profile call is not made, and the
    payment rows stay captured while subscriptions and profiles are as
    before. *)
Theorem reconcile_partial_failure_keeps_payment_update
    env orderId paymentId signature plan userId w e rest :
  supabaseAdmin env = true →
  missing_parameters (valid_args orderId paymentId signature plan userId) = false →
  result_of (verifyPaymentSignature env (Some orderId) (Some paymentId) (Some signature)) w
    = Return true →
  in_catalog plan = true →
  store_answers w = None :: Some e :: rest →
  let a := valid_args orderId paymentId signature plan userId in
  let w' := world_after (recordPaymentSuccess env a) w in
  result_of (recordPaymentSuccess env a) w = Throw generic_failure
  ∧ result_of (recordPaymentSuccess_try env a) w
    = Throw (Error "Payment verification succeeded but database update failed: Failed to create/update subscription")
  ∧ payments (store w')
    = map (capture_payment paymentId signature "captured"
             (toISOString (clock w (clock_reads w))) orderId userId)
          (payments (store w))
  ∧ subscriptions (store w') = subscriptions (store w)
  ∧ profiles (store w') = profiles (store w)
  ∧ length (store_calls w') = length (store_calls w) + 2
  ∧ store_answers w' = rest.
Proof.
  intros Hdb Hm Hv Hp Hans a w'. subst a w'.
  rewrite verifyPaymentSignature_run in Hv. injection Hv as Hv.
  unfold signature_ok in Hv. apply andb_true_iff in Hv as [Hs Hv].
  apply in_catalog_own in Hp as [c Hc].
  unfold recordPaymentSuccess, recordPaymentSuccess_try, persist_capture,
    verifyPaymentSignature, valid_args in *.
  unfold_monad. destruct w as [con clk reads gw gwc st ans calls].
  change (PLAN_CONFIGS_get (to_str (Some plan)) = OwnPlan c) in Hc.
  cbn [arg_orderId arg_paymentId arg_signature arg_plan arg_userId].
  cbn in Hans. subst ans.
  rewrite Hm, Hs, Hc, Hdb. cbn. cbn in Hv. rewrite Hv. cbn.
  rewrite !length_app. cbn. repeat split. lia.
Qed.

Lemma reconcile_partial_failure_keeps_payment_update_witness :
  (supabaseAdmin sample_env = true
   ∧ missing_parameters (valid_args "order_1" "pay_1" sample_signature "pro" "u1") = false
   ∧ result_of (verifyPaymentSignature sample_env (Some "order_1") (Some "pay_1")
                  (Some sample_signature)) sample_world_upsert_fails = Return true
   ∧ in_catalog "pro" = true
   ∧ store_answers sample_world_upsert_fails = [None; Some (Error "service unavailable")])
  ∧ result_of (recordPaymentSuccess sample_env
                 (valid_args "order_1" "pay_1" sample_signature "pro" "u1"))
              sample_world_upsert_fails = Throw generic_failure
  ∧ map pay_status (payments (store (world_after
        (recordPaymentSuccess sample_env
           (valid_args "order_1" "pay_1" sample_signature "pro" "u1"))
        sample_world_upsert_fails))) = ["captured"].
Proof.
  assert (Hv : result_of (verifyPaymentSignature sample_env (Some "order_1") (Some "pay_1")
                            (Some sample_signature)) sample_world_upsert_fails = Return true)
    by (vm_compute; reflexivity).
  split; [repeat split; exact Hv |].
  destruct (reconcile_partial_failure_keeps_payment_update sample_env
              "order_1" "pay_1" sample_signature "pro" "u1" sample_world_upsert_fails
              (Error "service unavailable") [] eq_refl eq_refl Hv eq_refl eq_refl)
    as (H1 & _ & H3 & _).
  split; [exact H1 |]. rewrite H3. reflexivity.
Defined.

Lemma lookup_map {A B : Type} (f : A → B) (l : list A) (i : nat) :
  map f l !! i = f <$> (l !! i).
Proof.
  revert i. induction l as [|x l IH]; intros [|i]; cbn; try reflexivity. apply IH.
Qed.

(** X10. A successful reconciliation updates payment rows and inserts
    none: the table keeps its length, so without a pending row for the
    order and user nothing records the payment there. Rows of another order
    or user are unchanged; a row of this order and user becomes [captured]
    with the payment id, the signature and the time of the update, and
    keeps its amount, currency, plan, provider and metadata. *)
Theorem reconcile_updates_matching_payments env orderId paymentId signature plan userId w :
  supabaseAdmin env = true →
  missing_parameters (valid_args orderId paymentId signature plan userId) = false →
  result_of (verifyPaymentSignature env (Some orderId) (Some paymentId) (Some signature)) w
    = Return true →
  in_catalog plan = true →
  first_error 3 (store_answers w) = None →
  let w' := world_after
              (recordPaymentSuccess env (valid_args orderId paymentId signature plan userId))
              w in
  length (payments (store w')) = length (payments (store w))
  ∧ ∀ i r, payments (store w) !! i = Some r →
      ∃ r', payments (store w') !! i = Some r'
        ∧ (payment_matches orderId userId r = false → r' = r)
        ∧ (payment_matches orderId userId r = true →
             pay_status r' = "captured"
             ∧ pay_razorpay_payment_id r' = Some paymentId
             ∧ pay_razorpay_signature r' = Some signature
             ∧ pay_updated_at r' = Some (toISOString (clock w (clock_reads w)))
             ∧ pay_razorpay_order_id r' = orderId ∧ pay_user_id r' = userId
             ∧ pay_amount r' = pay_amount r ∧ pay_currency r' = pay_currency r
             ∧ pay_plan_id r' = pay_plan_id r ∧ pay_provider r' = pay_provider r
             ∧ pay_metadata r' = pay_metadata r).
Proof.
  intros Hdb Hm Hv Hp Hans w'.
  rewrite verifyPaymentSignature_run in Hv. injection Hv as Hv.
  destruct (recordPaymentSuccess_run_ok env orderId paymentId signature plan userId w
              Hdb Hm Hv Hp Hans) as (r0 & v & Hrun & _ & _ & _ & _ & Hpay & _).
  assert (Hw : w' = v) by (unfold w', world_after; now rewrite Hrun).
  rewrite Hw, Hpay. split; [apply length_map |].
  intros i r Hi. rewrite lookup_map, Hi. cbn.
  eexists. split; [reflexivity |].
  unfold capture_payment, payment_matches.
  destruct (String.eqb_spec (pay_razorpay_order_id r) orderId) as [Ho|Ho];
    destruct (String.eqb_spec (pay_user_id r) userId) as [Hu|Hu]; cbn;
    split; intros H; try discriminate; try reflexivity.
  repeat split; assumption.
Qed.

Lemma reconcile_updates_matching_payments_witness :
  (supabaseAdmin sample_env = true
   ∧ missing_parameters (valid_args "order_1" "pay_1" sample_signature "pro" "u1") = false
   ∧ result_of (verifyPaymentSignature sample_env (Some "order_1") (Some "pay_1")
                  (Some sample_signature)) sample_world_populated = Return true
   ∧ in_catalog "pro" = true
   ∧ first_error 3 (store_answers sample_world_populated) = None
   ∧ payments (store sample_world_populated) = [pending_payment; other_payment])
  ∧ length (payments (store (world_after
        (recordPaymentSuccess sample_env
           (valid_args "order_1" "pay_1" sample_signature "pro" "u1"))
        sample_world_populated))) = 2
  ∧ (∃ r', payments (store (world_after
               (recordPaymentSuccess sample_env
                  (valid_args "order_1" "pay_1" sample_signature "pro" "u1"))
               sample_world_populated)) !! 0 = Some r'
           ∧ pay_status r' = "captured"
           ∧ pay_razorpay_payment_id r' = Some "pay_1"
           ∧ pay_razorpay_signature r' = Some sample_signature
           ∧ pay_amount r' = Some 100%Z)
  ∧ payments (store (world_after
        (recordPaymentSuccess sample_env
           (valid_args "order_1" "pay_1" sample_signature "pro" "u1"))
        sample_world_populated)) !! 1 = Some other_payment.
Proof.
  assert (Hv : result_of (verifyPaymentSignature sample_env (Some "order_1") (Some "pay_1")
                            (Some sample_signature)) sample_world_populated = Return true)
    by (vm_compute; reflexivity).
  split; [repeat split; exact Hv |].
  destruct (reconcile_updates_matching_payments sample_env
              "order_1" "pay_1" sample_signature "pro" "u1" sample_world_populated
              eq_refl eq_refl Hv eq_refl eq_refl) as [Hlen Hrows].
  split; [exact Hlen |]. split.
  - destruct (Hrows 0 pending_payment eq_refl) as (r' & Hr' & _ & Hmatch).
    destruct (Hmatch eq_refl) as (H1 & H2 & H3 & _ & _ & _ & H7 & _).
    exists r'. repeat split; assumption.
  - destruct (Hrows 1 other_payment eq_refl) as (r' & Hr' & Hother & _).
    rewrite Hr'. f_equal. exact (Hother eq_refl).
Defined.

(** X11. A successful reconciliation creates no profile: the profile ids
    are as before, a profile of the paying user gets the plan of the
    payment, and every other profile is unchanged. *)
Theorem reconcile_sets_plan_of_payer_profile env orderId paymentId signature plan userId w :
  supabaseAdmin env = true →
  missing_parameters (valid_args orderId paymentId signature plan userId) = false →
  result_of (verifyPaymentSignature env (Some orderId) (Some paymentId) (Some signature)) w
    = Return true →
  in_catalog plan = true →
  first_error 3 (store_answers w) = None →
  let w' := world_after
              (recordPaymentSuccess env (valid_args orderId paymentId signature plan userId))
              w in
  map profile_id (profiles (store w')) = map profile_id (profiles (store w))
  ∧ ∀ i r, profiles (store w) !! i = Some r →
      profiles (store w') !! i
      = Some (if String.eqb (profile_id r) userId
              then {| profile_id := userId; profile_plan := Some plan |}
              else r).
Proof.
  intros Hdb Hm Hv Hp Hans w'.
  rewrite verifyPaymentSignature_run in Hv. injection Hv as Hv.
  destruct (recordPaymentSuccess_run_ok env orderId paymentId signature plan userId w
              Hdb Hm Hv Hp Hans) as (r0 & v & Hrun & _ & _ & _ & _ & _ & _ & Hprof).
  assert (Hw : w' = v) by (unfold w', world_after; now rewrite Hrun).
  rewrite Hw, Hprof. split.
  - rewrite map_map. apply map_ext. intros r. unfold set_profile_plan.
    destruct (String.eqb (profile_id r) userId); reflexivity.
  - intros i r Hi. rewrite lookup_map, Hi. cbn. unfold set_profile_plan.
    destruct (String.eqb_spec (profile_id r) userId) as [->|_]; reflexivity.
Qed.

Lemma reconcile_sets_plan_of_payer_profile_witness :
  (supabaseAdmin sample_env = true
   ∧ missing_parameters (valid_args "order_1" "pay_1" sample_signature "pro" "u1") = false
   ∧ result_of (verifyPaymentSignature sample_env (Some "order_1") (Some "pay_1")
                  (Some sample_signature)) sample_world_pending = Return true
   ∧ in_catalog "pro" = true
   ∧ first_error 3 (store_answers sample_world_pending) = None)
  ∧ map profile_id (profiles (store (world_after
        (recordPaymentSuccess sample_env
           (valid_args "order_1" "pay_1" sample_signature "pro" "u1"))
        sample_world_pending)))
    = map profile_id (profiles (store sample_world_pending)).
Proof.
  assert (Hv : result_of (verifyPaymentSignature sample_env (Some "order_1") (Some "pay_1")
                            (Some sample_signature)) sample_world_pending = Return true)
    by (vm_compute; reflexivity).
  split; [repeat split; exact Hv |].
  exact (proj1 (reconcile_sets_plan_of_payer_profile sample_env
                  "order_1" "pay_1" sample_signature "pro" "u1" sample_world_pending
                  eq_refl eq_refl Hv eq_refl eq_refl)).
Defined.

(** ** Store invariants through the three routes *)

Section RouteInvariant.
Variable P : Database → Prop.
Hypothesis P_update : ∀ p s t o u db,
  P db → P (apply_call (PaymentsUpdate p s "captured" t o u) db).
Hypothesis P_upsert : ∀ row db, P db → P (apply_call (SubscriptionsUpsert row) db).
Hypothesis P_profile : ∀ plan u db, P db → P (apply_call (ProfilesUpdate plan u) db).
Hypothesis P_insert : ∀ row db, P db → P (apply_call (PaymentsInsert row) db).

Lemma keeps_supabase_call (c : StoreCall) :
  (∀ db, P db → P (apply_call c db)) → preserves P (supabase_call c).
Proof.
  intros Hc w H. unfold supabase_call. cbn.
  destruct (store_answers w) as [|[e|] rest]; auto.
Qed.

Ltac routes_preserve :=
  repeat first
    [ apply preserves_bind; [| intros ?]
    | apply preserves_try_catch; [| intros ?]
    | apply preserves_ret | apply preserves_throw | apply preserves_throw_if
    | apply preserves_console | apply preserves_Date_now | apply preserves_gateway
    | apply preserves_fail_on | apply preserves_log_on
    | apply keeps_supabase_call; intros ? ?;
      first [apply P_update | apply P_upsert | apply P_profile | apply P_insert];
      assumption
    | match goal with |- preserves P (if ?b then _ else _) => destruct b end ].

Lemma invariant_verifyPaymentSignature env o p s :
  preserves P (verifyPaymentSignature env o p s).
Proof. unfold verifyPaymentSignature, console_error. routes_preserve. Qed.

Lemma invariant_recordPaymentSuccess env a : preserves P (recordPaymentSuccess env a).
Proof.
  unfold recordPaymentSuccess, recordPaymentSuccess_try, persist_capture,
    console_log, console_warn, console_error.
  routes_preserve; apply invariant_verifyPaymentSignature.
Qed.

Lemma invariant_route_persist o p s pl u : preserves P (route_persist o p s pl u).
Proof. unfold route_persist. routes_preserve. Qed.

Lemma invariant_createRazorpayOrder env plan userId userEmail userName :
  preserves P (createRazorpayOrder env plan userId userEmail userName).
Proof. unfold createRazorpayOrder, console_error. routes_preserve. Qed.

Lemma invariant_post_success env req : preserves P (post_success env req).
Proof.
  unfold post_success, console_error. routes_preserve;
    first [apply invariant_recordPaymentSuccess | apply invariant_route_persist].
Qed.

Lemma invariant_post_create_order env req : preserves P (post_create_order env req).
Proof.
  unfold post_create_order, console_error. routes_preserve;
    apply invariant_createRazorpayOrder.
Qed.

Lemma invariant_post_verify_payment env req : preserves P (post_verify_payment env req).
Proof.
  unfold post_verify_payment, console_warn, console_error. routes_preserve;
    first [apply invariant_recordPaymentSuccess | apply invariant_route_persist].
Qed.
End RouteInvariant.

Lemma length_upsert (new : SubscriptionRow) (rows : list SubscriptionRow) :
  (length rows <= length (upsert_subscription new rows))%nat.
Proof.
  induction rows as [|r rest IH]; cbn; [lia |].
  destruct (String.eqb (sub_user_id r) (sub_user_id new)); cbn; lia.
Qed.

Lemma apply_call_at_least (n1 n2 n3 : nat) (c : StoreCall) (db : Database) :
  at_least n1 n2 n3 db → at_least n1 n2 n3 (apply_call c db).
Proof.
  unfold at_least. intros (H1 & H2 & H3). destruct c; cbn;
    rewrite ?length_app, ?length_map; cbn; repeat split; try lia.
  pose proof (length_upsert row (subscriptions db)). lia.
Qed.

(** X12. No route deletes a record: after [POST /success],
    [POST /api/create-order] or [POST /api/verify-payment], whatever the
    request and the answers of the gateway and the database, each of the
    three tables has at least the rows it had. *)
Theorem routes_delete_no_row env req w :
  no_fewer_rows (store w) (store (world_after (post_success env req) w))
  ∧ no_fewer_rows (store w) (store (world_after (post_create_order env req) w))
  ∧ no_fewer_rows (store w) (store (world_after (post_verify_payment env req) w)).
Proof.
  assert (H0 : no_fewer_rows (store w) (store w)) by (unfold no_fewer_rows, at_least; lia).
  unfold no_fewer_rows, world_after in *. split; [| split].
  - apply (invariant_post_success (at_least _ _ _)); auto using apply_call_at_least.
  - apply (invariant_post_create_order (at_least _ _ _)); auto using apply_call_at_least.
  - apply (invariant_post_verify_payment (at_least _ _ _)); auto using apply_call_at_least.
Qed.

Lemma apply_call_captured_at (i : nat) (o u : string) (c : StoreCall) (db : Database) :
  match c with
  | PaymentsUpdate _ _ st _ _ _ => st = "captured"
  | _ => True
  end →
  captured_at i o u db → captured_at i o u (apply_call c db).
Proof.
  unfold captured_at. intros Hc (r & Hi & Hst & Ho & Hu). destruct c; cbn; eauto.
  - exists r. split; [| auto]. apply lookup_app_l_Some. exact Hi.
  - subst status. rewrite lookup_map, Hi. cbn. eexists. split; [reflexivity |].
    unfold capture_payment.
    destruct (String.eqb (pay_razorpay_order_id r) eq_razorpay_order_id
              && String.eqb (pay_user_id r) eq_user_id); cbn; auto.
Qed.

(** X13. A captured payment stays captured: through any request to any of
    the three routes, the payment row at a given position that is
    [captured] for an order and a user is still there, still [captured]
    and still of that order and user. *)
Theorem captured_payment_stays_captured env req w i orderId userId :
  captured_at i orderId userId (store w) →
  captured_at i orderId userId (store (world_after (post_success env req) w))
  ∧ captured_at i orderId userId (store (world_after (post_create_order env req) w))
  ∧ captured_at i orderId userId (store (world_after (post_verify_payment env req) w)).
Proof.
  intros H. unfold world_after. split; [| split].
  - apply (invariant_post_success (captured_at i orderId userId)); auto;
      intros; now apply apply_call_captured_at.
  - apply (invariant_post_create_order (captured_at i orderId userId)); auto;
      intros; now apply apply_call_captured_at.
  - apply (invariant_post_verify_payment (captured_at i orderId userId)); auto;
      intros; now apply apply_call_captured_at.
Qed.

Lemma captured_payment_stays_captured_witness :
  captured_at 0 "order_1" "u1" (store sample_world_captured)
  ∧ captured_at 0 "order_1" "u1"
      (store (world_after (post_success sample_env callback_request) sample_world_captured)).
Proof.
  assert (H : captured_at 0 "order_1" "u1" (store sample_world_captured))
    by (exists captured_payment; repeat split).
  split; [exact H |].
  exact (proj1 (captured_payment_stays_captured sample_env callback_request
                  sample_world_captured 0 "order_1" "u1" H)).
Defined.

(** X14. Every route keeps at most one subscription row per user: if the
    table has no two rows of one user before a request to [POST /success],
    [POST /api/create-order] or [POST /api/verify-payment], it has none
    after it, whatever the outcome. *)
Theorem routes_keep_one_subscription_per_user env req w :
  one_subscription_per_user (store w) →
  one_subscription_per_user (store (world_after (post_success env req) w))
  ∧ one_subscription_per_user (store (world_after (post_create_order env req) w))
  ∧ one_subscription_per_user (store (world_after (post_verify_payment env req) w)).
Proof.
  intros H. unfold world_after. split; [| split].
  - apply (invariant_post_success one_subscription_per_user);
      auto using apply_call_one_subscription_per_user.
  - apply (invariant_post_create_order one_subscription_per_user);
      auto using apply_call_one_subscription_per_user.
  - apply (invariant_post_verify_payment one_subscription_per_user);
      auto using apply_call_one_subscription_per_user.
Qed.

Lemma routes_keep_one_subscription_per_user_witness :
  one_subscription_per_user (store sample_world_populated)
  ∧ one_subscription_per_user
      (store (world_after (post_success sample_env callback_request) sample_world_populated))
  ∧ one_subscription_per_user
      (store (world_after (post_verify_payment sample_env verify_request_valid)
                          sample_world_populated))
  ∧ map (fun r => (sub_user_id r, sub_plan_id r))
        (subscriptions (store (world_after (post_success sample_env callback_request)
                                           sample_world_populated)))
    = [("u2", "ultra"); ("u1", "pro")]
  ∧ length (store_calls (world_after (post_verify_payment sample_env verify_request_valid)
                                     sample_world_populated)) = 6.
Proof.
  assert (H : one_subscription_per_user (store sample_world_populated)).
  { unfold one_subscription_per_user. cbn.
    apply NoDup_cons. split; [| apply NoDup_singleton].
    rewrite list_elem_of_singleton. discriminate. }
  split; [exact H |].
  destruct (routes_keep_one_subscription_per_user sample_env callback_request
              sample_world_populated H) as (H1 & _ & _).
  destruct (routes_keep_one_subscription_per_user sample_env verify_request_valid
              sample_world_populated H) as (_ & _ & H3).
  split; [exact H1 |]. split; [exact H3 |].
  split; vm_compute; reflexivity.
Defined.

(** ** Which collaborator each function reaches *)

Section Frame.
Context {B : Type} (f : World → B).
Hypothesis f_console : ∀ l a w, f (snd (console_write l a w)) = f w.
Hypothesis f_clock : ∀ w, f (snd (Date_now w)) = f w.
Hypothesis f_store : ∀ c w, f (snd (supabase_call c w)) = f w.
Hypothesis f_gateway : ∀ o w, f (snd (razorpay_orders_create o w)) = f w.

Lemma keeps_ret {A : Type} (a : A) : keeps f (mret a).
Proof. intros w. reflexivity. Qed.

Lemma keeps_throw {A : Type} (e : JsError) : keeps f (@throw A e).
Proof. intros w. reflexivity. Qed.

Lemma keeps_bind {A C : Type} (m : M A) (k : A → M C) :
  keeps f m → (∀ a, keeps f (k a)) → keeps f (m ≫= k).
Proof.
  intros Hm Hk w. unfold mbind, M_bind. specialize (Hm w).
  destruct (m w) as [[a|e] w1]; cbn in *; [rewrite Hk |]; exact Hm.
Qed.

Lemma keeps_try_catch {A : Type} (m : M A) (h : JsError → M A) :
  keeps f m → (∀ e, keeps f (h e)) → keeps f (try_catch m h).
Proof.
  intros Hm Hh w. unfold try_catch. specialize (Hm w).
  destruct (m w) as [[a|e] w1]; cbn in *; [| rewrite Hh]; exact Hm.
Qed.

Lemma keeps_throw_if (c : bool) (e : JsError) : keeps f (throw_if c e).
Proof. destruct c; [apply keeps_throw | apply keeps_ret]. Qed.

Lemma keeps_fail_on (e : option JsError) (label msg : string) : keeps f (fail_on e label msg).
Proof.
  destruct e; cbn; [| apply keeps_ret].
  apply keeps_bind; [intros w; apply f_console | intros; apply keeps_throw].
Qed.

Ltac framed :=
  repeat first
    [ apply keeps_bind; [| intros ?]
    | apply keeps_try_catch; [| intros ?]
    | apply keeps_ret | apply keeps_throw | apply keeps_throw_if | apply keeps_fail_on
    | (intros ?; apply f_console) | (intros ?; apply f_clock)
    | match goal with |- keeps f (if ?b then _ else _) => destruct b end ].

Lemma keeps_verifyPaymentSignature env o p s : keeps f (verifyPaymentSignature env o p s).
Proof. unfold verifyPaymentSignature, console_error. framed. Qed.

(** [recordPaymentSuccess] reaches the console, the clock and the store. *)
Lemma keeps_recordPaymentSuccess env a : keeps f (recordPaymentSuccess env a).
Proof.
  unfold recordPaymentSuccess, recordPaymentSuccess_try, persist_capture,
    console_log, console_warn, console_error.
  framed; first [apply keeps_verifyPaymentSignature | intros ?; apply f_store].
Qed.

(** [createRazorpayOrder] reaches the console, the clock and the gateway. *)
Lemma keeps_createRazorpayOrder env plan userId userEmail userName :
  keeps f (createRazorpayOrder env plan userId userEmail userName).
Proof.
  unfold createRazorpayOrder, console_error. framed. intros ?; apply f_gateway.
Qed.
End Frame.

(** X15. Reconciliation never calls the payment gateway and order creation
    never calls the database: [recordPaymentSuccess] leaves the list of
    gateway requests as it was, and [createRazorpayOrder] leaves the tables,
    the list of store requests and the pending answers of the database
    client as they were, whatever their arguments and outcome. *)
Theorem reconcile_skips_gateway_and_order_skips_store
    env a plan userId userEmail userName w :
  gateway_calls (world_after (recordPaymentSuccess env a) w) = gateway_calls w
  ∧ store_untouched w (world_after (createRazorpayOrder env plan userId userEmail userName) w).
Proof.
  unfold store_untouched, world_after. repeat split.
  - apply (keeps_recordPaymentSuccess gateway_calls); reflexivity.
  - apply (keeps_createRazorpayOrder store); reflexivity.
  - apply (keeps_createRazorpayOrder store_calls); reflexivity.
  - apply (keeps_createRazorpayOrder store_answers); reflexivity.
Qed.

(** ** The callback route after a successful reconciliation *)

Lemma upsert_filter_merge (new old : SubscriptionRow) (rows : list SubscriptionRow) :
  NoDup (map sub_user_id rows) →
  List.filter (fun r => String.eqb (sub_user_id r) (sub_user_id new)) rows = [old] →
  List.filter (fun r => String.eqb (sub_user_id r) (sub_user_id new))
              (upsert_subscription new rows) = [merge_subscription new old].
Proof.
  induction rows as [|r rest IH]; cbn; intros Hn Hf; [discriminate |].
  apply NoDup_cons in Hn as [Hr Hrest].
  destruct (String.eqb_spec (sub_user_id r) (sub_user_id new)) as [E|E]; cbn.
  - rewrite String.eqb_refl. injection Hf as -> Hf. now rewrite Hf.
  - destruct (String.eqb_spec (sub_user_id r) (sub_user_id new)); [congruence | auto].
Qed.

Lemma route_persist_run_ok orderId paymentId signature plan userId w :
  first_error 3 (store_answers w) = None →
  subscriptions (store (world_after
      (route_persist orderId paymentId signature plan userId) w))
  = upsert_subscription
      {| sub_user_id := userId; sub_plan_id := plan; sub_provider := None;
         sub_status := "active"; sub_razorpay_payment_id := paymentId;
         sub_current_period_start := toISOString (clock w (1 + clock_reads w));
         sub_current_period_end :=
           toISOString (clock w (2 + clock_reads w) + thirty_days_ms) |}
      (subscriptions (store w)).
Proof.
  intros Hans. unfold route_persist. unfold_monad.
  destruct w as [con clk reads gw gwc st ans calls]. cbn in *.
  destruct ans as [|[e0|] [|[e1|] [|[e2|] ans]]]; cbn in *; try discriminate; reflexivity.
Qed.

(** X16. After a callback that reconciles, with the database answering all
    six store calls, the route's own upsert, which names no provider, is
    merged into the row [recordPaymentSuccess] wrote: the user has exactly
    one subscription row, it keeps the provider [razorpay], and its period
    bounds are the route's later clock readings. The answer is the
    redirect. *)
Theorem post_success_subscription_after_both_writes
    env req orderId paymentId signature plan userId w :
  callback_args req = valid_args orderId paymentId signature plan userId →
  supabaseAdmin env = true →
  missing_parameters (valid_args orderId paymentId signature plan userId) = false →
  result_of (verifyPaymentSignature env (Some orderId) (Some paymentId) (Some signature)) w
    = Return true →
  in_catalog plan = true →
  first_error 6 (store_answers w) = None →
  one_subscription_per_user (store w) →
  result_of (post_success env req) w
    = Return (Redirect (success_location paymentId orderId signature plan))
  ∧ subscriptions_of userId (store (world_after (post_success env req) w))
    = [reconciled_subscription paymentId plan userId
         (clock w (5 + clock_reads w)) (clock w (6 + clock_reads w))].
Proof.
  intros Hargs Hdb Hm Hv Hp Hans Huniq.
  rewrite verifyPaymentSignature_run in Hv. injection Hv as Hv.
  apply (first_error_split 3 3) in Hans as [Hans1 Hans2].
  destruct (recordPaymentSuccess_run_ok env orderId paymentId signature plan userId w
              Hdb Hm Hv Hp Hans1)
    as (r1 & v1 & Hrun & _ & Hclk & Hreads & Ha & _ & Hsub & _).
  rewrite <- Ha in Hans2.
  unfold callback_args, valid_args in Hargs.
  injection Hargs as Ho Hpid Hsig Hpl Hu.
  unfold post_success, result_of, world_after, try_catch, mbind, M_bind.
  rewrite Ho, Hpid, Hsig, Hpl, Hu.
  change {| arg_orderId := Some orderId; arg_paymentId := Some paymentId;
            arg_signature := Some signature; arg_plan := Some plan;
            arg_userId := Some userId |}
    with (valid_args orderId paymentId signature plan userId).
  rewrite Hrun, Hdb.
  pose proof (route_persist_run orderId paymentId signature plan userId v1) as [Hret _].
  pose proof (route_persist_run_ok orderId paymentId signature plan userId v1 Hans2) as Hs.
  unfold result_of, world_after in Hret, Hs.
  destruct (route_persist orderId paymentId signature plan userId v1) as [[[]|e] v2];
    cbn in Hret, Hs |- *; [| discriminate].
  split; [reflexivity |].
  unfold subscriptions_of. rewrite Hs, Hsub, Hclk, Hreads.
  rewrite (upsert_filter_merge
             {| sub_user_id := userId; sub_plan_id := plan; sub_provider := None;
                sub_status := "active"; sub_razorpay_payment_id := paymentId;
                sub_current_period_start := toISOString (clock w (S (4 + clock_reads w)));
                sub_current_period_end :=
                  toISOString (clock w (S (S (4 + clock_reads w))) + thirty_days_ms) |}
             (reconciled_subscription paymentId plan userId
                (clock w (1 + clock_reads w)) (clock w (2 + clock_reads w)))).
  - reflexivity.
  - apply upsert_NoDup, Huniq.
  - apply (upsert_filter_same (reconciled_subscription paymentId plan userId _ _));
      [cbn; eauto | exact Huniq].
Qed.

Lemma post_success_subscription_after_both_writes_witness :
  (callback_args callback_request = valid_args "order_1" "pay_1" sample_signature "pro" "u1"
   ∧ supabaseAdmin sample_env = true
   ∧ missing_parameters (valid_args "order_1" "pay_1" sample_signature "pro" "u1") = false
   ∧ result_of (verifyPaymentSignature sample_env (Some "order_1") (Some "pay_1")
                  (Some sample_signature)) sample_world = Return true
   ∧ in_catalog "pro" = true
   ∧ first_error 6 (store_answers sample_world) = None
   ∧ one_subscription_per_user (store sample_world))
  ∧ subscriptions_of "u1" (store (world_after (post_success sample_env callback_request)
                                              sample_world))
    = [reconciled_subscription "pay_1" "pro" "u1" 1700000000005 1700000000006].
Proof.
  assert (H0 : callback_args callback_request
               = valid_args "order_1" "pay_1" sample_signature "pro" "u1")
    by (vm_compute; reflexivity).
  assert (Hv : result_of (verifyPaymentSignature sample_env (Some "order_1") (Some "pay_1")
                            (Some sample_signature)) sample_world = Return true)
    by (vm_compute; reflexivity).
  assert (Hu : one_subscription_per_user (store sample_world)) by apply NoDup_nil_2.
  split; [repeat split; assumption |].
  exact (proj2 (post_success_subscription_after_both_writes sample_env callback_request
                  "order_1" "pay_1" sample_signature "pro" "u1" sample_world
                  H0 eq_refl eq_refl Hv eq_refl eq_refl Hu)).
Defined.

(** ** The order-creation route *)

Lemma createRazorpayOrder_outcomes env plan userId userEmail userName w :
  match result_of (createRazorpayOrder env plan userId userEmail userName) w with
  | Return _ =>
      console (world_after (createRazorpayOrder env plan userId userEmail userName) w)
      = console w
  | Throw e => ∃ msg, e = Error msg ∧ msg ≠ ""
  end.
Proof.
  assert (Hb : ∀ e, bubble_message e ≠ "").
  { intros e. unfold bubble_message, or_else, truthy.
    destruct (error_description e) as [d|]; destruct (message e) as [m|]; cbn;
      repeat match goal with
             | |- context [String.eqb ?x ""] => destruct (String.eqb_spec x ""); cbn
             end; try assumption; discriminate. }
  unfold createRazorpayOrder. unfold_monad.
  destruct w as [con clk reads gw gwc st ans calls].
  destruct (negb (truthy (RAZORPAY_KEY_ID env)) || negb (truthy (RAZORPAY_KEY_SECRET env)));
    cbn; [eauto |].
  destruct (lookup_truthy (PLAN_CONFIGS_get (to_str plan))); cbn; [| eauto].
  destruct (gw _); cbn; eauto.
Qed.

(** X17. Storing the pending payment is best effort: once
    [createRazorpayOrder] has returned an order, [POST /api/create-order]
    answers 200 with that order whatever the database answers. With a
    database client it sends one insert, of a [pending] row for the order;
    an error returned for the insert changes no table and is not even
    written to the console. *)
Theorem post_create_order_persistence_is_best_effort env req order w :
  truthy (RAZORPAY_KEY_ID env) = true → truthy (RAZORPAY_KEY_SECRET env) = true →
  truthy (body req !! "plan") = true → truthy (body req !! "userId") = true →
  result_of (create_order_call env req) w = Return order →
  let w' := world_after (post_create_order env req) w in
  let row := pending_row (body req !! "userId") (body req !! "plan") order in
  result_of (post_create_order env req) w = Return (Json 200 (JsonOrder order))
  ∧ console w' = console w
  ∧ (if supabaseAdmin env then
       store_calls w' = (store_calls w ++ [PaymentsInsert row])%list
       ∧ match store_answers w with
         | Some _ :: _ => store w' = store w
         | _ => payments (store w') = (payments (store w) ++ [row])%list
         end
     else store_untouched w w').
Proof.
  intros Hid Hsec Hpl Hu Hret w' row. subst w' row.
  pose proof (createRazorpayOrder_outcomes env (body req !! "plan") (body req !! "userId")
                (body req !! "userEmail") (body req !! "userName") w) as Hcon.
  pose proof (keeps_createRazorpayOrder store ltac:(reflexivity) ltac:(reflexivity)
                ltac:(reflexivity) env (body req !! "plan") (body req !! "userId")
                (body req !! "userEmail") (body req !! "userName") w) as Hst.
  pose proof (keeps_createRazorpayOrder store_calls ltac:(reflexivity) ltac:(reflexivity)
                ltac:(reflexivity) env (body req !! "plan") (body req !! "userId")
                (body req !! "userEmail") (body req !! "userName") w) as Hcalls.
  pose proof (keeps_createRazorpayOrder store_answers ltac:(reflexivity) ltac:(reflexivity)
                ltac:(reflexivity) env (body req !! "plan") (body req !! "userId")
                (body req !! "userEmail") (body req !! "userName") w) as Hans.
  unfold create_order_call, result_of, world_after in *.
  unfold post_create_order, pending_row, store_untouched.
  unfold try_catch, mbind, M_bind. rewrite Hid, Hsec, Hpl, Hu. cbn [negb orb].
  destruct (createRazorpayOrder env _ _ _ _ w) as [[o|e] w1]; cbn in *; [| discriminate].
  injection Hret as ->.
  destruct (supabaseAdmin env); cbn.
  - unfold_monad. destruct w1 as [con1 clk1 reads1 gw1 gwc1 st1 ans1 calls1]. cbn in *.
    subst con1 st1 calls1 ans1.
    destruct (store_answers w) as [|[err|] rest]; cbn; repeat split.
  - repeat split; assumption.
Qed.

Lemma post_create_order_persistence_is_best_effort_witness :
  (truthy (RAZORPAY_KEY_ID sample_env) = true
   ∧ truthy (RAZORPAY_KEY_SECRET sample_env) = true
   ∧ truthy (body create_order_request !! "plan") = true
   ∧ truthy (body create_order_request !! "userId") = true
   ∧ result_of (create_order_call sample_env create_order_request) sample_world_db_down
     = Return {| rec_id := "order_1"; rec_amount := 100; rec_currency := "INR";
                 rec_receipt := "ace_pro_u1_1700000000000"; rec_status := "created";
                 rec_plan := Some "pro"; rec_planName := Some "Pro";
                 rec_planDescription := Some "Most popular choice" |})
  ∧ result_of (post_create_order sample_env create_order_request) sample_world_db_down
    = Return (Json 200 (JsonOrder
        {| rec_id := "order_1"; rec_amount := 100; rec_currency := "INR";
           rec_receipt := "ace_pro_u1_1700000000000"; rec_status := "created";
           rec_plan := Some "pro"; rec_planName := Some "Pro";
           rec_planDescription := Some "Most popular choice" |})).
Proof.
  assert (H : result_of (create_order_call sample_env create_order_request)
                        sample_world_db_down
              = Return {| rec_id := "order_1"; rec_amount := 100; rec_currency := "INR";
                          rec_receipt := "ace_pro_u1_1700000000000";
                          rec_status := "created";
                          rec_plan := Some "pro"; rec_planName := Some "Pro";
                          rec_planDescription := Some "Most popular choice" |})
    by (vm_compute; reflexivity).
  split; [repeat split; try (vm_compute; reflexivity); exact H |].
  exact (proj1 (post_create_order_persistence_is_best_effort sample_env create_order_request
                  _ sample_world_db_down eq_refl eq_refl
                  ltac:(vm_compute; reflexivity) ltac:(vm_compute; reflexivity) H)).
Defined.

(** X18. When [createRazorpayOrder] throws, [POST /api/create-order]
    answers 500 with the thrown message and sends nothing to the database;
    an unknown plan is reported this way, as a 500 "Invalid plan: ...", not
    as a 400. *)
Theorem post_create_order_failure_is_500 env req e w :
  truthy (RAZORPAY_KEY_ID env) = true → truthy (RAZORPAY_KEY_SECRET env) = true →
  truthy (body req !! "plan") = true → truthy (body req !! "userId") = true →
  result_of (create_order_call env req) w = Throw e →
  ∃ msg, e = Error msg
    ∧ result_of (post_create_order env req) w = Return (Json 500 (JsonError msg))
    ∧ store_untouched w (world_after (post_create_order env req) w).
Proof.
  intros Hid Hsec Hpl Hu Hthrow.
  pose proof (createRazorpayOrder_outcomes env (body req !! "plan") (body req !! "userId")
                (body req !! "userEmail") (body req !! "userName") w) as Hout.
  pose proof (keeps_createRazorpayOrder store ltac:(reflexivity) ltac:(reflexivity)
                ltac:(reflexivity) env (body req !! "plan") (body req !! "userId")
                (body req !! "userEmail") (body req !! "userName") w) as Hst.
  pose proof (keeps_createRazorpayOrder store_calls ltac:(reflexivity) ltac:(reflexivity)
                ltac:(reflexivity) env (body req !! "plan") (body req !! "userId")
                (body req !! "userEmail") (body req !! "userName") w) as Hcalls.
  pose proof (keeps_createRazorpayOrder store_answers ltac:(reflexivity) ltac:(reflexivity)
                ltac:(reflexivity) env (body req !! "plan") (body req !! "userId")
                (body req !! "userEmail") (body req !! "userName") w) as Hans.
  unfold create_order_call, result_of, world_after in *.
  unfold post_create_order, store_untouched.
  unfold try_catch, mbind, M_bind. rewrite Hid, Hsec, Hpl, Hu. cbn [negb orb].
  destruct (createRazorpayOrder env _ _ _ _ w) as [[o|e'] w1]; cbn in *; [discriminate |].
  injection Hthrow as ->. destruct Hout as (msg & -> & Hmsg).
  exists msg. split; [reflexivity |].
  apply truthy_Some in Hmsg.
  unfold or_else. cbn [message Error]. rewrite Hmsg. cbn.
  repeat split; assumption.
Qed.

Lemma post_create_order_failure_is_500_witness :
  (truthy (RAZORPAY_KEY_ID sample_env) = true
   ∧ truthy (RAZORPAY_KEY_SECRET sample_env) = true
   ∧ truthy (body bogus_plan_request !! "plan") = true
   ∧ truthy (body bogus_plan_request !! "userId") = true
   ∧ result_of (create_order_call sample_env bogus_plan_request) sample_world
     = Throw (Error "Invalid plan: bogus"))
  ∧ result_of (post_create_order sample_env bogus_plan_request) sample_world
    = Return (Json 500 (JsonError "Invalid plan: bogus")).
Proof.
  assert (H : result_of (create_order_call sample_env bogus_plan_request) sample_world
              = Throw (Error "Invalid plan: bogus")) by (vm_compute; reflexivity).
  split; [repeat split; try (vm_compute; reflexivity); exact H |].
  destruct (post_create_order_failure_is_500 sample_env bogus_plan_request _ sample_world
              eq_refl eq_refl ltac:(vm_compute; reflexivity) ltac:(vm_compute; reflexivity) H)
    as (msg & Hmsg & Hres & _).
  injection Hmsg as <-. exact Hres.
Defined.

(** ** The verification route *)

(** X19. [POST /api/verify-payment] answers 500 "Payment service not
    configured" without a key secret, else 400 "Missing required
    parameters" when one of the five body fields is empty or absent, and in
    both cases nothing is logged, read or written. Otherwise it answers
    200 with the result of [recordPaymentSuccess] when that returns, whatever
    the route's own store calls are answered, and 500 with the generic
    "Failed to record payment success" when it throws. *)
Theorem post_verify_payment_response env req w :
  result_of (post_verify_payment env req) w
  = (if negb (truthy (RAZORPAY_KEY_SECRET env))
     then Return (Json 500 (JsonError "Payment service not configured"))
     else if missing_parameters (verify_args req)
     then Return (Json 400 (JsonError "Missing required parameters"))
     else match result_of (recordPaymentSuccess env (verify_args req)) w with
          | Return r => Return (Json 200 (JsonVerified r))
          | Throw _ => Return (Json 500 (JsonError "Failed to record payment success"))
          end)
  ∧ (negb (truthy (RAZORPAY_KEY_SECRET env)) || missing_parameters (verify_args req) = true →
     world_after (post_verify_payment env req) w = w).
Proof.
  unfold post_verify_payment, result_of, world_after, try_catch, mbind, M_bind.
  destruct (negb (truthy (RAZORPAY_KEY_SECRET env))); cbn [orb]; [split; reflexivity |].
  change (negb (truthy (body req !! "orderId")) || negb (truthy (body req !! "paymentId"))
          || negb (truthy (body req !! "signature")) || negb (truthy (body req !! "plan"))
          || negb (truthy (body req !! "userId")))
    with (missing_parameters (verify_args req)).
  destruct (missing_parameters (verify_args req)); [split; reflexivity |].
  split; [| discriminate].
  change {| arg_orderId := body req !! "orderId"; arg_paymentId := body req !! "paymentId";
            arg_signature := body req !! "signature"; arg_plan := body req !! "plan";
            arg_userId := body req !! "userId" |} with (verify_args req).
  rewrite recordPaymentSuccess_catch.
  destruct (recordPaymentSuccess_try env (verify_args req) w) as [[r|cause] w1];
    cbn [fst]; [| reflexivity].
  destruct (supabaseAdmin env); cbn [negb]; [| reflexivity].
  pose proof (proj1 (route_persist_run
    (to_str (body req !! "orderId")) (to_str (body req !! "paymentId"))
    (to_str (body req !! "signature")) (to_str (body req !! "plan"))
    (to_str (body req !! "userId")) w1)) as H.
  unfold result_of in H. destruct (route_persist _ _ _ _ _ w1) as [[[]|e] w2];
    cbn in H; [reflexivity | discriminate].
Qed.

Lemma post_verify_payment_response_witness :
  negb (truthy (RAZORPAY_KEY_SECRET sample_env))
    || missing_parameters (verify_args create_order_request) = true
  ∧ world_after (post_verify_payment sample_env create_order_request) sample_world
    = sample_world.
Proof.
  assert (H : negb (truthy (RAZORPAY_KEY_SECRET sample_env))
              || missing_parameters (verify_args create_order_request) = true)
    by (vm_compute; reflexivity).
  split; [exact H |].
  exact (proj2 (post_verify_payment_response sample_env create_order_request sample_world) H).
Defined.

Example verify_route_tampered_signature :
  result_of (post_verify_payment sample_env verify_request_tampered) sample_world
  = Return (Json 500 (JsonError "Failed to record payment success")).
Proof. vm_compute. reflexivity. Qed.

(** ** Startup *)

Ltac in_log :=
  repeat first [ apply in_or_app; right; left; reflexivity | apply in_or_app; left ].

(** X20. [validateEnvironment] exits the process with code 1 exactly when
    the key id or the key secret is empty or absent, after an error line
    for each missing name; otherwise the server starts, and the console
    then shows the first 8 characters of the key secret. *)
Theorem validateEnvironment_exits_iff_missing env w :
  let w' := world_after (validateEnvironment env) w in
  (result_of (validateEnvironment env) w = Return (Exited 1)
   ↔ empty_or_absent (RAZORPAY_KEY_ID env) ∨ empty_or_absent (RAZORPAY_KEY_SECRET env))
  ∧ (result_of (validateEnvironment env) w = Return Started
     ↔ truthy (RAZORPAY_KEY_ID env) = true ∧ truthy (RAZORPAY_KEY_SECRET env) = true)
  ∧ (empty_or_absent (RAZORPAY_KEY_ID env) →
     In {| level := ERROR; args := [LStr "   - RAZORPAY_KEY_ID"] |} (console w'))
  ∧ (empty_or_absent (RAZORPAY_KEY_SECRET env) →
     In {| level := ERROR; args := [LStr "   - RAZORPAY_KEY_SECRET"] |} (console w'))
  ∧ (∀ secret, result_of (validateEnvironment env) w = Return Started →
       RAZORPAY_KEY_SECRET env = Some secret →
       In {| level := LOG;
             args := [LStr ("Razorpay Secret: " ++ slice0 8 secret ++ "...")] |}
          (console w')).
Proof.
  intros w'. subst w'. rewrite <- !truthy_empty_or_absent.
  unfold validateEnvironment, missingVars. cbn [requiredVars List.filter env_get String.eqb
    Ascii.eqb Bool.eqb].
  unfold_monad. destruct w as [con clk reads gw gwc st ans calls].
  destruct (truthy (RAZORPAY_KEY_ID env)) eqn:Hid;
    destruct (truthy (RAZORPAY_KEY_SECRET env)) eqn:Hsec;
    destruct (supabaseAdmin env); cbn;
    (split; [split; [intros H; try discriminate; auto | intros [H|H]; try discriminate; auto]
            |]);
    (split; [split; [intros H; try discriminate; auto | intros [H1 H2]; try discriminate; auto]
            |]);
    (split; [intros H; try discriminate; in_log |]);
    (split; [intros H; try discriminate; in_log |]);
    intros secret H Hs; try discriminate;
    rewrite Hs; change (to_str (Some secret)) with secret; in_log.
Qed.

Lemma validateEnvironment_exits_iff_missing_witness :
  empty_or_absent (RAZORPAY_KEY_SECRET sample_env_no_secret)
  ∧ result_of (validateEnvironment sample_env_no_secret) sample_world = Return (Exited 1)
  ∧ In {| level := ERROR; args := [LStr "   - RAZORPAY_KEY_SECRET"] |}
       (console (world_after (validateEnvironment sample_env_no_secret) sample_world)).
Proof.
  assert (H : empty_or_absent (RAZORPAY_KEY_SECRET sample_env_no_secret))
    by (left; reflexivity).
  split; [exact H |].
  destruct (validateEnvironment_exits_iff_missing sample_env_no_secret sample_world)
    as (H1 & _ & _ & H4 & _).
  split; [exact (proj2 H1 (or_intror H)) | exact (H4 H)].
Defined.

Example startup_log_shows_secret_prefix :
  console (world_after (validateEnvironment sample_env) sample_world)
  = [ {| level := LOG; args := [LStr "Environment variables validated"] |};
      {| level := LOG; args := [LStr "Razorpay Key ID: rzp_test..."] |};
      {| level := LOG; args := [LStr "Razorpay Secret: secret..."] |} ].
Proof. vm_compute. reflexivity. Qed.

(** ** Reconciliation and the plan lookup *)

(** X21. With all five inputs present and a valid signature, a plan whose
    name is neither a key of [PLAN_CONFIGS] nor a property name of
    [Object.prototype] makes [recordPaymentSuccess] raise "Invalid plan:
    <name>" and fail, before any store call: no record changes. *)
Theorem reconcile_unknown_plan env orderId paymentId signature plan userId w :
  missing_parameters (valid_args orderId paymentId signature plan userId) = false →
  result_of (verifyPaymentSignature env (Some orderId) (Some paymentId) (Some signature)) w
    = Return true →
  ¬ In plan (map fst PLAN_CONFIGS) →
  ¬ In plan (map fst Object_prototype) →
  let a := valid_args orderId paymentId signature plan userId in
  result_of (recordPaymentSuccess_try env a) w = Throw (Error ("Invalid plan: " ++ plan))
  ∧ result_of (recordPaymentSuccess env a) w = Throw generic_failure
  ∧ store_untouched w (world_after (recordPaymentSuccess env a) w).
Proof.
  intros Hm Hv Hown Hproto a. subst a.
  rewrite verifyPaymentSignature_run in Hv. injection Hv as Hv.
  unfold signature_ok in Hv. apply andb_true_iff in Hv as [Hs Hv].
  assert (Hu : PLAN_CONFIGS_get (to_str (Some plan)) = Undefined).
  { unfold PLAN_CONFIGS_get. change (to_str (Some plan)) with plan.
    now rewrite (assoc_None_not_In _ _ Hown), (assoc_None_not_In _ _ Hproto). }
  unfold recordPaymentSuccess, recordPaymentSuccess_try, verifyPaymentSignature,
    store_untouched, valid_args in *.
  unfold_monad. destruct w as [con clk reads gw gwc st ans calls].
  cbn [arg_orderId arg_paymentId arg_signature arg_plan arg_userId].
  rewrite Hm, Hs, Hu. cbn. cbn in Hv. rewrite Hv. cbn. repeat split.
Qed.

Lemma reconcile_unknown_plan_witness :
  (missing_parameters (valid_args "order_1" "pay_1" sample_signature "bogus" "u1") = false
   ∧ result_of (verifyPaymentSignature sample_env (Some "order_1") (Some "pay_1")
                  (Some sample_signature)) sample_world = Return true
   ∧ ¬ In "bogus" (map fst PLAN_CONFIGS)
   ∧ ¬ In "bogus" (map fst Object_prototype))
  ∧ result_of (recordPaymentSuccess_try sample_env
                 (valid_args "order_1" "pay_1" sample_signature "bogus" "u1")) sample_world
    = Throw (Error "Invalid plan: bogus").
Proof.
  assert (Hv : result_of (verifyPaymentSignature sample_env (Some "order_1") (Some "pay_1")
                            (Some sample_signature)) sample_world = Return true)
    by (vm_compute; reflexivity).
  assert (H1 : ¬ In "bogus" (map fst PLAN_CONFIGS))
    by (cbn; intros H; repeat (destruct H as [H|H]; [discriminate |]); exact H).
  assert (H2 : ¬ In "bogus" (map fst Object_prototype))
    by (cbn; intros H; repeat (destruct H as [H|H]; [discriminate |]); exact H).
  split; [repeat split; assumption |].
  exact (proj1 (reconcile_unknown_plan sample_env "order_1" "pay_1" sample_signature
                  "bogus" "u1" sample_world eq_refl Hv H1 H2)).
Defined.

(** X22. The plan check of [recordPaymentSuccess] lets the property names
    of [Object.prototype] through: for such a plan name a returned result
    reports amount 0 and currency "INR", and as plan name the name of the
    inherited function, or "Unknown Plan" for [__proto__]. *)
Theorem reconcile_inherited_plan_result env a plan f r w :
  arg_plan a = Some plan →
  assoc plan Object_prototype = Some f →
  result_of (recordPaymentSuccess env a) w = Return r →
  res_plan r = Some plan
  ∧ res_amount r = 0%Z
  ∧ res_currency r = "INR"
  ∧ res_planName r = or_else f "Unknown Plan".
Proof.
  intros Hplan Hf.
  assert (Hown : assoc plan PLAN_CONFIGS = None).
  { apply assoc_Some_In in Hf. cbn in Hf.
    repeat (destruct Hf as [<-|Hf]; [reflexivity |]). destruct Hf. }
  assert (Hg : PLAN_CONFIGS_get (to_str (arg_plan a)) = Inherited f).
  { rewrite Hplan. change (to_str (Some plan)) with plan. unfold PLAN_CONFIGS_get.
    now rewrite Hown, Hf. }
  unfold recordPaymentSuccess, recordPaymentSuccess_try, persist_capture,
    verifyPaymentSignature.
  unfold_monad. destruct w as [con clk reads gw gwc st ans calls]. rewrite Hg. cbn.
  destruct (missing_parameters a); cbn; [discriminate |].
  destruct (truthy (RAZORPAY_KEY_SECRET env)); cbn; [| discriminate].
  destruct (bool_decide _); cbn; [| discriminate].
  destruct (supabaseAdmin env); cbn.
  - destruct ans as [|[e0|] [|[e1|] [|[e2|] ans]]]; cbn;
      intros H; try discriminate; injection H as <-; cbn; rewrite Hplan; repeat split.
  - intros H; injection H as <-; cbn; rewrite Hplan; repeat split.
Qed.

Lemma reconcile_inherited_plan_result_witness :
  (arg_plan args_inherited_plan = Some "constructor"
   ∧ assoc "constructor" Object_prototype = Some (Some "Object")
   ∧ ∃ r, result_of (recordPaymentSuccess sample_env_no_db args_inherited_plan) sample_world
          = Return r)
  ∧ ∀ r, result_of (recordPaymentSuccess sample_env_no_db args_inherited_plan) sample_world
         = Return r → res_planName r = "Object" ∧ res_amount r = 0%Z.
Proof.
  split; [split; [reflexivity | split; [reflexivity | vm_compute; eexists; reflexivity]] |].
  intros r Hr.
  destruct (reconcile_inherited_plan_result sample_env_no_db args_inherited_plan
              "constructor" (Some "Object") r sample_world eq_refl eq_refl Hr)
    as (_ & H2 & _ & H4).
  split; [exact H4 | exact H2].
Defined.

(** ** The catalog as listed and as charged *)

(** X23. What [getAllPlans] lists is what [getPlanDetails] finds and what
    [createRazorpayOrder] charges: for every listed plan the lookup gives
    the listed configuration, and an order for it asks the gateway for the
    listed amount and currency. *)
Theorem listed_plans_are_charged_as_listed env id c userId userEmail userName w :
  In (id, c) getAllPlans →
  truthy (RAZORPAY_KEY_ID env) = true → truthy (RAZORPAY_KEY_SECRET env) = true →
  getPlanDetails id = OwnPlan c
  ∧ ∃ options,
      gateway_calls (world_after
          (createRazorpayOrder env (Some id) userId userEmail userName) w)
        = (gateway_calls w ++ [options])%list
      ∧ opt_amount options = Some (amount c)
      ∧ opt_currency options = Some (currency c).
Proof.
  intros Hin Hid Hsec.
  assert (Hg : PLAN_CONFIGS_get id = OwnPlan c).
  { cbn in Hin. repeat (destruct Hin as [Hin|Hin]; [injection Hin as <- <-; reflexivity |]).
    destruct Hin. }
  split; [exact Hg |].
  eexists. split; [| split].
  - apply createRazorpayOrder_run; [exact Hid | exact Hsec | | reflexivity].
    change (to_str (Some id)) with id. now rewrite Hg.
  - change (to_str (Some id)) with id. now rewrite Hg.
  - change (to_str (Some id)) with id. now rewrite Hg.
Qed.

Lemma listed_plans_are_charged_as_listed_witness :
  (In ("pro_plus", {| name := "Pro+"; amount := 100; currency := "INR";
                      description := "For advanced learners" |}) getAllPlans
   ∧ truthy (RAZORPAY_KEY_ID sample_env) = true
   ∧ truthy (RAZORPAY_KEY_SECRET sample_env) = true)
  ∧ getPlanDetails "pro_plus"
    = OwnPlan {| name := "Pro+"; amount := 100; currency := "INR";
                 description := "For advanced learners" |}.
Proof.
  assert (H : In ("pro_plus", {| name := "Pro+"; amount := 100; currency := "INR";
                                 description := "For advanced learners" |}) getAllPlans)
    by (right; left; reflexivity).
  split; [repeat split; exact H |].
  exact (proj1 (listed_plans_are_charged_as_listed sample_env "pro_plus" _ (Some "u1")
                  None None sample_world H eq_refl eq_refl)).
Defined.

(** ** The redirect location *)

Lemma utf8_bytes (s : string) : Forall is_byte (crypto.utf8 s).
Proof.
  induction s as [|c s IH]; cbn -[Z.shiftr Z.land Z.lor]; [constructor |].
  apply Forall_app. split; [| exact IH].
  destruct c as [[] [] [] [] [] [] [] []]; vm_compute;
    repeat (constructor; [split; [discriminate | reflexivity] |]); constructor.
Qed.

Lemma is_byte_all_bytes (b : Z) : is_byte b → In b all_bytes.
Proof.
  unfold is_byte, all_bytes. intros H. apply in_map_iff. exists (Z.to_nat b).
  split; [lia | apply in_seq; lia].
Qed.

Lemma urlencode_byte_chars (b : Z) :
  is_byte b → string_forall is_urlencoded_char (urlencode_byte b) = true.
Proof.
  intros H. apply is_byte_all_bytes in H.
  assert (Hall : forallb (fun b => string_forall is_urlencoded_char (urlencode_byte b))
                         all_bytes = true) by (vm_compute; reflexivity).
  rewrite forallb_forall in Hall. apply Hall, H.
Qed.

Lemma string_forall_append (p : ascii → bool) (s t : string) :
  string_forall p (s ++ t) = string_forall p s && string_forall p t.
Proof.
  induction s as [|c s IH]; [reflexivity |].
  change (String c s ++ t) with (String c (s ++ t)). cbn. rewrite IH. apply andb_assoc.
Qed.

Lemma urlencode_chars (s : string) : string_forall is_urlencoded_char (urlencode s) = true.
Proof.
  unfold urlencode. induction (utf8_bytes s) as [|b bs Hb _ IH]; [reflexivity |].
  cbn [fold_right]. rewrite string_forall_append, urlencode_byte_chars, IH; auto.
Qed.

Lemma string_forall_impl (p q : ascii → bool) (s : string) :
  (∀ c, p c = true → q c = true) → string_forall p s = true → string_forall q s = true.
Proof.
  intros Hpq. induction s as [|c s IH]; cbn; [reflexivity |].
  rewrite !andb_true_iff. intros [H1 H2]. auto.
Qed.

(** X24. Field contents cannot break the redirect of [POST /success]:
    whatever the four values are, every encoded value consists of letters,
    digits and [* - . _ + %] only, and the whole location of letters,
    digits and [* - . _ + % / ? = &]; it holds no line break, space, ["#"]
    or quote, and its only ["&"] and ["="] are the separators the route
    writes itself. *)
Theorem success_location_is_safe paymentId orderId signature plan :
  string_forall is_urlencoded_char (urlencode paymentId) = true
  ∧ string_forall is_urlencoded_char (urlencode orderId) = true
  ∧ string_forall is_urlencoded_char (urlencode signature) = true
  ∧ string_forall is_urlencoded_char (urlencode plan) = true
  ∧ success_location paymentId orderId signature plan
    = "/success?paymentId=" ++ urlencode paymentId ++ "&orderId=" ++ urlencode orderId
      ++ "&signature=" ++ urlencode signature ++ "&plan=" ++ urlencode plan
  ∧ string_forall is_location_char (success_location paymentId orderId signature plan) = true.
Proof.
  assert (Hloc : ∀ s, string_forall is_location_char (urlencode s) = true).
  { intros s. apply (string_forall_impl is_urlencoded_char); [| apply urlencode_chars].
    intros c Hc. unfold is_location_char. rewrite Hc. reflexivity. }
  assert (Heq : success_location paymentId orderId signature plan
                = "/success?paymentId=" ++ urlencode paymentId ++ "&orderId="
                  ++ urlencode orderId ++ "&signature=" ++ urlencode signature
                  ++ "&plan=" ++ urlencode plan).
  { unfold success_location, URLSearchParams_toString.
    assert (Hassoc : ∀ a b c : string, (a ++ b) ++ c = a ++ (b ++ c)).
    { intros a b c. induction a as [|x a IH]; [reflexivity |].
      change (String x a ++ b) with (String x (a ++ b)).
      change (String x (a ++ b) ++ c) with (String x ((a ++ b) ++ c)).
      change (String x a ++ (b ++ c)) with (String x (a ++ (b ++ c))). now rewrite IH. }
    assert (Hk : ∀ k, In k ["paymentId"; "orderId"; "signature"; "plan"] → urlencode k = k).
    { intros k Hk. cbn in Hk. repeat (destruct Hk as [<-|Hk]; [vm_compute; reflexivity |]).
      destruct Hk. }
    rewrite !Hk by (cbn; auto). reflexivity. }
  do 4 (split; [apply urlencode_chars |]). split; [exact Heq |].
  rewrite Heq, !string_forall_append, !Hloc. reflexivity.
Qed.

Example success_location_encodes_separators :
  success_location "pay&x=1" "order 1" "ab#c" "pro"
  = "/success?paymentId=pay%26x%3D1&orderId=order+1&signature=ab%23c&plan=pro".
Proof. vm_compute. reflexivity. Qed.
